(** * erc3-js: the request/response contract layer

    A shallow embedding of the SDK's three facade clients
    ([src/client.js], [src/store/client.js], [src/demo/client.js]), of the
    error type of [src/common.js], of the store example and of the
    command-line front ends, followed by the properties the specification
    states about them.

    JavaScript values are modelled as JSON-like trees.  A number inside a
    value is an integer ([Z]) that is a double: every number the SDK
    inspects (a status, a token count, an offset) is integral, and a JSON
    number with a fraction has no value in this model.  Conversions follow
    the engine: a number prints as Number::toString prints it, a string is
    read as the double nearest to its literal, and an object with a
    [toString] property of its own has no string.  Strings are sequences of
    one-byte characters.  The base URL, the API key and the task ID of a
    client are strings, as the specification has them. *)

From Stdlib Require Import ZArith List String Ascii Bool Lia DecimalString.
From ExtLib Require Import Structures.Monad Structures.MonadExc.
Import ListNotations.
Import MonadNotation.
Open Scope list_scope.
Open Scope string_scope.
Open Scope monad_scope.

(** ** JavaScript values *)

#[local] Set Warnings "-register-all".

Inductive JsVal : Type :=
| JUndefined
| JNull
| JBool (b : bool)
| JNum (n : Z)
| JStr (s : string)
| JArr (elems : list JsVal)
| JObj (props : list (string * JsVal)).

(** ToBoolean: [undefined], [null], [false], [0] and the empty string are
    falsy, every other value (all arrays and objects included) is truthy. *)
Definition truthy (v : JsVal) : bool :=
  match v with
  | JUndefined | JNull => false
  | JBool b => b
  | JNum n => negb (n =? 0)%Z
  | JStr s => negb (s =? "")
  | JArr _ | JObj _ => true
  end.

(** [a || b] *)
Definition js_or (a b : JsVal) : JsVal := if truthy a then a else b.

(** [typeof v === 'string'] *)
Definition is_string (v : JsVal) : bool :=
  match v with JStr _ => true | _ => false end.

(** [v === null] and [v === undefined] *)
Definition is_null (v : JsVal) : bool :=
  match v with JNull => true | _ => false end.

Definition is_undefined (v : JsVal) : bool :=
  match v with JUndefined => true | _ => false end.

Definition nullish (v : JsVal) : bool := is_null v || is_undefined v.

(** [v === s] for a string literal [s], as a [switch] compares its cases. *)
Definition strict_eq_str (v : JsVal) (s : string) : bool :=
  match v with JStr t => t =? s | _ => false end.


(** A parameter default [p = d] applies exactly when the argument is
    [undefined] (also when it is missing). *)
Definition default_param (v d : JsVal) : JsVal :=
  match v with JUndefined => d | _ => v end.

(** ** Strings and numbers *)

Definition dquote : string := String "034"%char "".

(** The decimal digits of an integer that is not negative. *)
Definition digits (n : Z) : string :=
  NilZero.string_of_uint (N.to_uint (Z.to_N n)).

(** [n / d] rounded to the nearest integer, a half going to the even
    one ([0 <= n], [0 < d]). *)
Definition round_half_even (n d : Z) : Z :=
  let q := (n / d)%Z in
  let r := (n mod d)%Z in
  if (d <? 2 * r)%Z || ((d =? 2 * r)%Z && Z.odd q) then (q + 1)%Z else q.

(** The double nearest to the positive rational [a / b], as the pair
    [(q, u)] whose value is [q * 2^u]: 53 significant bits, fewer below
    [2^-1022], halves to the even significand.  [None] is Infinity, from
    [2^1024] on. *)
Definition nearest_double (a b : Z) : option (Z * Z) :=
  let t := (Z.log2 a - Z.log2 b)%Z in
  let reaches :=
    if (0 <=? t)%Z then (b * 2 ^ t <=? a)%Z else (b <=? a * 2 ^ (- t))%Z in
  let e := if reaches then t else (t - 1)%Z in
  let u := Z.max (e - 52) (-1074) in
  let q :=
    if (0 <=? u)%Z then round_half_even a (b * 2 ^ u)
    else round_half_even (a * 2 ^ (- u)) b in
  if (0 <=? u)%Z && (2 ^ 1024 <=? q * 2 ^ u)%Z then None else Some (q, u).

(** The integer [v] is itself a double. *)
Definition is_double (v : Z) : bool :=
  match nearest_double v 1 with
  | Some (q, u) => (q * 2 ^ u =? v)%Z
  | None => false
  end.

(** The double nearest to the integer [v] is [x]. *)
Definition reads_as (v x : Z) : bool :=
  match nearest_double v 1 with
  | Some (q, u) => (q * 2 ^ u =? x)%Z
  | None => false
  end.

(** The integer with the fewest significant digits that reads as the
    double [x] (an integer of [nd] digits), looked for among those of [k]
    significant digits and more; the nearer of two, and of two as near the
    one whose digits make an even number. *)
Fixpoint shortest (fuel : nat) (k nd x : Z) : Z :=
  match fuel with
  | O => x
  | S fuel' =>
      let p := (10 ^ (nd - k))%Z in
      let lo := (x / p * p)%Z in
      let hi := (lo + p)%Z in
      match reads_as lo x, reads_as hi x with
      | true, true =>
          if (x - lo <? hi - x)%Z then lo
          else if (hi - x <? x - lo)%Z then hi
          else if Z.even (lo / p) then lo else hi
      | true, false => lo
      | false, true => hi
      | false, false => shortest fuel' (k + 1)%Z nd x
      end
  end.

Fixpoint strip_zeros (s : string) : string :=
  match s with
  | EmptyString => EmptyString
  | String c rest =>
      match strip_zeros rest with
      | EmptyString => if Ascii.eqb c "0" then EmptyString else String c ""
      | kept => String c kept
      end
  end.

(** The exponent form of a positive integer: its first digit, the other
    digits up to the last that is not zero after a point, and the
    exponent. *)
Definition exponent_form (v : Z) : string :=
  let all := digits v in
  let exponent := digits (Z.of_nat (String.length all) - 1) in
  match all with
  | EmptyString => EmptyString
  | String first rest =>
      match strip_zeros rest with
      | EmptyString => String first ("e+" ++ exponent)
      | kept => String first ("." ++ kept ++ "e+" ++ exponent)
      end
  end.

(** Number::toString on a number that is an integer: the shortest digits
    that read back as the same double (17 digits always do), followed by
    zeros up to the point below [10^21], and in the exponent form from
    there on.  An integer below [2^53] is its own shortest digits.  An
    integer that is no double is not a number of JavaScript; it prints by
    its own digits. *)
Definition Z_to_string (n : Z) : string :=
  let x := Z.abs n in
  let nd := Z.of_nat (String.length (digits x)) in
  let shown :=
    if (2 ^ 53 <=? x)%Z && is_double x then shortest 17 1 nd x else x in
  (if (n <? 0)%Z then "-" else "")
  ++ (if (x <? 10 ^ 21)%Z then digits shown else exponent_form shown).

Fixpoint join (sep : string) (l : list string) : string :=
  match l with
  | [] => ""
  | [x] => x
  | x :: rest => x ++ sep ++ join sep rest
  end.

(** The string of a value that has one (see [printable] and [js_String]
    below for the conversion with its throw).  An array prints its elements
    joined by commas, [null] and [undefined] elements as nothing; a plain
    object prints as [[object Object]]. *)
Fixpoint ToString (v : JsVal) : string :=
  match v with
  | JUndefined => "undefined"
  | JNull => "null"
  | JBool true => "true"
  | JBool false => "false"
  | JNum n => Z_to_string n
  | JStr s => s
  | JArr elems =>
      join ","
        ((fix each (l : list JsVal) : list string :=
            match l with
            | [] => []
            | x :: rest =>
                (match x with
                 | JUndefined | JNull => ""
                 | _ => ToString x
                 end) :: each rest
            end) elems)
  | JObj _ => "[object Object]"
  end.

(** The text of a template literal [`${a}${b}...`] whose parts have a
    string: the clients build their URLs with it, from a base URL and a
    task ID that the specification makes strings. *)
Definition template (parts : list JsVal) : string :=
  String.concat "" (map ToString parts).

(** A Number: NaN, an infinity, or a finite double [m * 2^e]. *)
Inductive Number : Type :=
| NaN
| Infinity (negative : bool)
| Finite (m e : Z).

(** The double nearest to [m * 10^d], [m] not negative, with the sign.
    A value of [10^309] or more is beyond the doubles and one below
    [10^-324] is nearer to zero than to any other. *)
Definition of_decimal (negative : bool) (m d : Z) : Number :=
  if (m =? 0)%Z then Finite 0 0
  else
    let nd := Z.of_nat (String.length (digits m)) in
    if (309 <=? nd - 1 + d)%Z then Infinity negative
    else if (nd + d <=? -324)%Z then Finite 0 0
    else
      match (if (0 <=? d)%Z then nearest_double (m * 10 ^ d) 1
             else nearest_double m (10 ^ (- d))) with
      | Some (q, u) => Finite (if negative then (- q)%Z else q) u
      | None => Infinity negative
      end.

Definition compare_finite (m1 e1 m2 e2 : Z) : comparison :=
  let e := Z.min e1 e2 in
  (m1 * 2 ^ (e1 - e) ?= m2 * 2 ^ (e2 - e))%Z.

(** [a < b] on Numbers: false when either is NaN. *)
Definition number_lt (a b : Number) : bool :=
  match a, b with
  | NaN, _ | _, NaN => false
  | Infinity true, Infinity true => false
  | Infinity true, _ => true
  | _, Infinity true => false
  | Infinity false, _ => false
  | _, Infinity false => true
  | Finite m1 e1, Finite m2 e2 =>
      match compare_finite m1 e1 m2 e2 with
      | Lt => true
      | _ => false
      end
  end.

(** [a >= b] on Numbers: false when either is NaN. *)
Definition number_ge (a b : Number) : bool :=
  match a, b with
  | NaN, _ | _, NaN => false
  | _, _ => negb (number_lt a b)
  end.

(** White space and line ends among the characters of one byte: TAB, LF,
    VT, FF, CR, the space and the no-break space. *)
Definition is_space (c : ascii) : bool :=
  let n := nat_of_ascii c in
  ((9 <=? n)%nat && (n <=? 13)%nat) || (n =? 32)%nat || (n =? 160)%nat.

Fixpoint trim_left (s : string) : string :=
  match s with
  | String c rest => if is_space c then trim_left rest else s
  | EmptyString => s
  end.

Fixpoint rev_string (s : string) (acc : string) : string :=
  match s with
  | EmptyString => acc
  | String c rest => rev_string rest (String c acc)
  end.

Definition trim (s : string) : string :=
  rev_string (trim_left (rev_string (trim_left s) "")) "".

(** The value of a digit in a base up to sixteen. *)
Definition digit_in (base : Z) (c : ascii) : option Z :=
  let n := Z.of_nat (nat_of_ascii c) in
  let v :=
    if (48 <=? n)%Z && (n <=? 57)%Z then (n - 48)%Z
    else if (97 <=? n)%Z && (n <=? 102)%Z then (n - 87)%Z
    else if (65 <=? n)%Z && (n <=? 70)%Z then (n - 55)%Z
    else 16%Z in
  if (v <? base)%Z then Some v else None.

(** The number a text of digits spells in a base; [None] when a
    character is no digit of it. *)
Fixpoint spelled (base : Z) (s : string) (acc : Z) : option Z :=
  match s with
  | EmptyString => Some acc
  | String c rest =>
      match digit_in base c with
      | Some v => spelled base rest (acc * base + v)%Z
      | None => None
      end
  end.

(** The decimal digits a text starts with, and what follows them. *)
Fixpoint leading_digits (s : string) : string * string :=
  match s with
  | String c rest =>
      match digit_in 10 c with
      | Some _ => let (ds, tail) := leading_digits rest in (String c ds, tail)
      | None => (EmptyString, s)
      end
  | EmptyString => (EmptyString, EmptyString)
  end.

(** An exponent part: [e] or [E], an optional sign, digits to the end. *)
Definition exponent_part (s : string) : option Z :=
  match s with
  | EmptyString => Some 0%Z
  | String c rest =>
      if Ascii.eqb c "e" || Ascii.eqb c "E" then
        match rest with
        | String "+"%char (String _ _ as ds) => spelled 10 ds 0
        | String "-"%char (String _ _ as ds) =>
            option_map Z.opp (spelled 10 ds 0)
        | String _ _ => spelled 10 rest 0
        | EmptyString => None
        end
      else None
  end.

(** An unsigned decimal literal: [Infinity], or digits with an optional
    point and an optional exponent, with a digit before or after the
    point. *)
Definition unsigned_decimal (negative : bool) (s : string) : Number :=
  if s =? "Infinity" then Infinity negative
  else
    let (whole, rest) := leading_digits s in
    let (fraction, rest) :=
      match rest with
      | String "."%char after => leading_digits after
      | _ => (EmptyString, rest)
      end in
    match whole ++ fraction, exponent_part rest with
    | String _ _ as ds, Some exponent =>
        match spelled 10 ds 0 with
        | Some m =>
            of_decimal negative m
              (exponent - Z.of_nat (String.length fraction))
        | None => NaN
        end
    | _, _ => NaN
    end.

(** StringToNumber: blanks around the text are dropped; the empty text
    is [0]; [0x], [0o] and [0b] (in either case) start an unsigned
    integer in base 16, 8 and 2; anything else is a decimal literal with
    an optional sign, or it is NaN. *)
Definition StringToNumber (s : string) : Number :=
  match trim s with
  | EmptyString => Finite 0 0
  | String "0"%char (String x (String _ _ as ds)) as text =>
      let integer base :=
        match spelled base ds 0 with
        | Some v => of_decimal false v 0
        | None => NaN
        end in
      if Ascii.eqb x "x" || Ascii.eqb x "X" then integer 16%Z
      else if Ascii.eqb x "o" || Ascii.eqb x "O" then integer 8%Z
      else if Ascii.eqb x "b" || Ascii.eqb x "B" then integer 2%Z
      else unsigned_decimal false text
  | String "+"%char rest => unsigned_decimal false rest
  | String "-"%char rest => unsigned_decimal true rest
  | text => unsigned_decimal false text
  end.

(** ** JSON.stringify *)

Definition hex_digit (n : nat) : ascii :=
  ascii_of_nat (if (n <? 10)%nat then 48 + n else 87 + n).

(** QuoteJSONString escapes one character: the quote, the backslash and
    the control characters below U+0020. *)
Definition escape_char (c : ascii) : string :=
  let n := nat_of_ascii c in
  if (n =? 34)%nat then String "\"%char dquote
  else if (n =? 92)%nat then "\\"
  else if (n =? 8)%nat then "\b"
  else if (n =? 12)%nat then "\f"
  else if (n =? 10)%nat then "\n"
  else if (n =? 13)%nat then "\r"
  else if (n =? 9)%nat then "\t"
  else if (n <? 32)%nat then
    "\u00" ++ String (hex_digit (n / 16)) (String (hex_digit (n mod 16)) "")
  else String c "".

Fixpoint escape_string (s : string) : string :=
  match s with
  | EmptyString => ""
  | String c rest => escape_char c ++ escape_string rest
  end.

Definition QuoteJSONString (s : string) : string :=
  dquote ++ escape_string s ++ dquote.

(** [JSON.stringify(v)]: [None] is the [undefined] it returns for
    [undefined] itself.  A property whose value is [undefined] is left out
    of an object; an [undefined] array element is written [null]. *)
Fixpoint JSON_stringify (v : JsVal) : option string :=
  match v with
  | JUndefined => None
  | JNull => Some "null"
  | JBool true => Some "true"
  | JBool false => Some "false"
  | JNum n => Some (Z_to_string n)
  | JStr s => Some (QuoteJSONString s)
  | JArr elems =>
      Some ("[" ++
        join ","
          ((fix each (l : list JsVal) : list string :=
              match l with
              | [] => []
              | x :: rest =>
                  (match JSON_stringify x with
                   | Some t => t
                   | None => "null"
                   end) :: each rest
              end) elems)
        ++ "]")
  | JObj props =>
      Some ("{" ++
        join ","
          ((fix members (l : list (string * JsVal)) : list string :=
              match l with
              | [] => []
              | (k, x) :: rest =>
                  match JSON_stringify x with
                  | Some t => (QuoteJSONString k ++ ":" ++ t) :: members rest
                  | None => members rest
                  end
              end) props)
        ++ "}")
  end.

(** The value of the expression [JSON.stringify(v)]. *)
Definition JSON_stringify_val (v : JsVal) : JsVal :=
  match JSON_stringify v with
  | Some s => JStr s
  | None => JUndefined
  end.

(** ** Objects: own properties in the order JavaScript keeps them *)

(** An array index is the canonical decimal spelling of an integer below
    [2^32 - 1]. *)
Definition array_index (k : string) : option N :=
  match NilZero.uint_of_string k with
  | Some u =>
      let n := N.of_uint u in
      if (NilZero.string_of_uint (N.to_uint n) =? k) && (n <? 4294967295)%N
      then Some n else None
  | None => None
  end.

Fixpoint lookup (k : string) (props : list (string * JsVal)) : option JsVal :=
  match props with
  | [] => None
  | (k', v) :: rest => if k' =? k then Some v else lookup k rest
  end.

(** The own property [k] of an object, [undefined] when it has none. *)
Definition field (k : string) (props : list (string * JsVal)) : JsVal :=
  match lookup k props with
  | Some v => v
  | None => JUndefined
  end.

Fixpoint replace_prop (k : string) (v : JsVal) (props : list (string * JsVal))
  : list (string * JsVal) :=
  match props with
  | [] => []
  | (k', v') :: rest =>
      if k' =? k then (k, v) :: rest else (k', v') :: replace_prop k v rest
  end.

(** A new index key goes among the index keys, in ascending order and
    before every other key; any other new key goes last. *)
Fixpoint insert_index (i : N) (k : string) (v : JsVal)
  (props : list (string * JsVal)) : list (string * JsVal) :=
  match props with
  | [] => [(k, v)]
  | (k', v') :: rest =>
      match array_index k' with
      | Some j =>
          if (i <? j)%N then (k, v) :: props
          else (k', v') :: insert_index i k v rest
      | None => (k, v) :: props
      end
  end.

(** Defining the data property [k] on an object. *)
Definition set_prop (k : string) (v : JsVal) (props : list (string * JsVal))
  : list (string * JsVal) :=
  match lookup k props with
  | Some _ => replace_prop k v props
  | None =>
      match array_index k with
      | Some i => insert_index i k v props
      | None => (props ++ [(k, v)])%list
      end
  end.

Fixpoint enumerate_from {A : Type} (i : N) (l : list A) : list (string * A) :=
  match l with
  | [] => []
  | x :: rest =>
      (NilZero.string_of_uint (N.to_uint i), x) :: enumerate_from (N.succ i) rest
  end.

Fixpoint chars (s : string) : list JsVal :=
  match s with
  | EmptyString => []
  | String c rest => JStr (String c "") :: chars rest
  end.

(** The own enumerable properties an object spread copies from [v]. *)
Definition own_enumerable (v : JsVal) : list (string * JsVal) :=
  match v with
  | JObj props => props
  | JArr elems => enumerate_from 0%N elems
  | JStr s => enumerate_from 0%N (chars s)
  | _ => []
  end.

(** [{ ...target, ...source }] onto the properties already written. *)
Definition spread (target : list (string * JsVal)) (source : JsVal)
  : list (string * JsVal) :=
  fold_left (fun acc kv => set_prop (fst kv) (snd kv) acc)
            (own_enumerable source) target.

(** ** Errors ([src/common.js]) and completions *)

Module ApiException.

(** An instance of [class ApiException extends Error]: the message
    [Error] keeps, the fixed name and the three other constructor
    arguments. *)
Record t : Type := {
  name : string;
  message : string;
  status : JsVal;
  code : JsVal;
  detail : JsVal
}.

End ApiException.

(** What a [throw] carries: an [ApiException], or one of the other error
    objects ([Error], [TypeError], [SyntaxError], ...) with its name and
    message. *)
Inductive JsError : Type :=
| ApiError (e : ApiException.t)
| OtherError (name message : string).

(** [new Error(message)] *)
Definition Error (message : string) : JsError := OtherError "Error" message.

Definition TypeError (message : string) : JsError :=
  OtherError "TypeError" message.

Definition SyntaxError (message : string) : JsError :=
  OtherError "SyntaxError" message.

(** [error instanceof ApiException] *)
Definition instanceof_ApiException (e : JsError) : bool :=
  match e with ApiError _ => true | OtherError _ _ => false end.

(** [error.message] *)
Definition error_message (e : JsError) : string :=
  match e with
  | ApiError a => ApiException.message a
  | OtherError _ m => m
  end.

(** How an evaluation ends: with a value, or by throwing. *)
Inductive Completion (A : Type) : Type :=
| Normal (a : A)
| Throws (e : JsError).

Arguments Normal {A} a.
Arguments Throws {A} e.

#[global] Instance Monad_Completion : Monad Completion :=
  {| ret := fun _ a => Normal a;
     bind := fun _ _ c k =>
       match c with
       | Normal a => k a
       | Throws e => Throws e
       end |}.

(** Reading the property [k] of [o].  [undefined] and [null] have no
    properties: the read throws a [TypeError].  Arrays and strings have a
    [length] and their indices; a missing property reads [undefined].
    Inherited methods ([slice], [toString], ...) are not properties of this
    model: the SDK reads none of them through [Get]. *)
Definition Get (o : JsVal) (k : string) : Completion JsVal :=
  match o with
  | JUndefined =>
      Throws (TypeError
        ("Cannot read properties of undefined (reading '" ++ k ++ "')"))
  | JNull =>
      Throws (TypeError
        ("Cannot read properties of null (reading '" ++ k ++ "')"))
  | JObj props => Normal (field k props)
  | JArr elems =>
      Normal (if k =? "length" then JNum (Z.of_nat (List.length elems))
              else match array_index k with
                   | Some i => nth (N.to_nat i) elems JUndefined
                   | None => JUndefined
                   end)
  | JStr s =>
      Normal (if k =? "length" then JNum (Z.of_nat (String.length s))
              else match array_index k with
                   | Some i => nth (N.to_nat i) (chars s) JUndefined
                   | None => JUndefined
                   end)
  | JBool _ | JNum _ => Normal JUndefined
  end.

(** The property [k] of a value that has properties; [undefined] stands
    in where the read throws. *)
Definition prop (o : JsVal) (k : string) : JsVal :=
  match Get o k with
  | Normal v => v
  | Throws _ => JUndefined
  end.

(** ** Conversions that can throw *)

(** A value has a string unless it is, or as an array holds, an object
    with a [toString] property of its own: such a property, which in a
    parsed JSON text is never a function, hides the inherited method, and
    the inherited [valueOf] gives the object back. *)
Fixpoint printable (v : JsVal) : bool :=
  match v with
  | JObj props =>
      match lookup "toString" props with
      | Some _ => false
      | None => true
      end
  | JArr elems =>
      (fix all (l : list JsVal) : bool :=
         match l with
         | [] => true
         | x :: rest => printable x && all rest
         end) elems
  | _ => true
  end.

(** [String(v)], and the conversion a template literal and [new Error(v)]
    make of [v]: it throws on a value that has no string. *)
Definition js_String (v : JsVal) : Completion string :=
  if printable v then Normal (ToString v)
  else Throws (TypeError "Cannot convert object to primitive value").

(** ToPrimitive: an array or an object becomes its string, for a
    comparison as for a conversion to text. *)
Definition ToPrimitive (v : JsVal) : Completion JsVal :=
  match v with
  | JArr _ | JObj _ => text <- js_String v ;; Normal (JStr text)
  | _ => Normal v
  end.

(** ToNumber, after ToPrimitive.  A [JNum] holds an integer that is a
    double. *)
Definition ToNumber (v : JsVal) : Completion Number :=
  primitive <- ToPrimitive v ;;
  Normal (match primitive with
          | JUndefined => NaN
          | JNull => Finite 0 0
          | JBool b => Finite (if b then 1 else 0) 0
          | JNum n => Finite n 0
          | JStr s => StringToNumber s
          | JArr _ | JObj _ => NaN
          end).

(** [v >= k] and [v > k] for an integer literal [k]. *)
Definition js_ge (v : JsVal) (k : Z) : Completion bool :=
  n <- ToNumber v ;; Normal (number_ge n (Finite k 0)).

Definition js_gt (v : JsVal) (k : Z) : Completion bool :=
  n <- ToNumber v ;; Normal (number_lt (Finite k 0) n).

(** [a < b]: two strings compare by their characters, any other pair by
    their numbers. *)
Definition js_lt (a b : JsVal) : Completion bool :=
  pa <- ToPrimitive a ;;
  pb <- ToPrimitive b ;;
  match pa, pb with
  | JStr x, JStr y => Normal (String.ltb x y)
  | _, _ =>
      na <- ToNumber pa ;;
      nb <- ToNumber pb ;;
      Normal (number_lt na nb)
  end.

(** [new ApiException(message, status, code, detail)]: [super(message)]
    stores the string of the message, the empty string for [undefined],
    and throws when the message has no string. *)
Definition new_ApiException (message status code detail : JsVal)
  : Completion ApiException.t :=
  text <- match message with
          | JUndefined => Normal ""
          | _ => js_String message
          end ;;
  Normal {| ApiException.name := "ApiException";
            ApiException.message := text;
            ApiException.status := status;
            ApiException.code := code;
            ApiException.detail := detail |}.

(** ** The network *)

(** What [fetch(url, init)] is handed.  [data] is the value whose
    [JSON.stringify] is the body on the wire ([body] below): a model of the
    remote server reads its fields without parsing them back. *)
Record FetchRequest : Type := {
  url : string;
  method : string;
  headers : list (string * string);
  data : JsVal
}.

Definition body (r : FetchRequest) : option string := JSON_stringify (data r).

(** What comes back: [fetch] rejects, or the response's [json()] rejects
    because the body is no JSON text, or it resolves to the parsed value. *)
Inductive FetchResult : Type :=
| NetworkFailure (message : string)
| NotJson (message : string)
| JsonBody (v : JsVal).

(** The remote server: its answer to a request, given the requests it was
    sent before (oldest first). *)
Definition Server : Type := list FetchRequest -> FetchRequest -> FetchResult.

(** The state a method runs in: the object it is called on, the server and
    the requests sent so far. *)
Record Env (Self : Type) : Type := {
  this : Self;
  server : Server;
  sent : list FetchRequest
}.

Arguments this {Self} e.
Arguments server {Self} e.
Arguments sent {Self} e.
Arguments Build_Env {Self} this server sent.

(** An [async] method awaited to its end: the completion and the state it
    leaves.  A request that was sent stays sent when the method throws. *)
Definition Async (Self A : Type) : Type := Env Self -> Completion A * Env Self.

#[global] Instance Monad_Async {Self : Type} : Monad (Async Self) :=
  {| ret := fun _ a s => (Normal a, s);
     bind := fun _ _ c k s =>
       match c s with
       | (Normal a, s') => k a s'
       | (Throws e, s') => (Throws e, s')
       end |}.

(** [throw] and [try { ... } catch (error) { ... }] *)
#[global] Instance Exc_Async {Self : Type} : MonadExc JsError (Async Self) :=
  {| raise := fun _ e s => (Throws e, s);
     catch := fun _ c handler s =>
       match c s with
       | (Normal a, s') => (Normal a, s')
       | (Throws e, s') => handler e s'
       end |}.

(** A computation with no effect but its completion. *)
Definition lift {Self A : Type} (c : Completion A) : Async Self A :=
  fun s => (c, s).

(** Reading [this]. *)
Definition get_this {Self : Type} : Async Self Self :=
  fun s => (Normal (this s), s).

(** [await fetch(url, init)] followed by [await response.json()]. *)
Definition fetch_json {Self : Type} (r : FetchRequest) : Async Self JsVal :=
  fun s =>
    let s' := Build_Env (this s) (server s) (sent s ++ [r])%list in
    match server s (sent s) r with
    | NetworkFailure m => (Throws (TypeError m), s')
    | NotJson m => (Throws (SyntaxError m), s')
    | JsonBody v => (Normal v, s')
    end.

(** The [init] every request is sent with: a POST with the one header
    and the JSON body. *)
Definition post (url : string) (data : JsVal) : FetchRequest :=
  {| url := url;
     method := "POST";
     headers := [("Content-Type", "application/json")];
     data := data |}.

(** The body the three [_request] methods share, after each has built its
    URL ([src/client.js] 64-96, [src/store/client.js] 61-93,
    [src/demo/client.js] 57-89). *)
Definition post_json {Self : Type} (url : string) (data : JsVal)
  : Async Self JsVal :=
  catch
    (result <- fetch_json (post url data) ;;
     status <- lift (Get result "status") ;;
     failed <- (if truthy status
                then status <- lift (Get result "status") ;;
                     lift (js_ge status 400)
                else ret false) ;;
     if (failed : bool) then
       error <- lift (Get result "error") ;;
       status <- lift (Get result "status") ;;
       code <- lift (Get result "code") ;;
       exception <- lift (new_ApiException (js_or error (JStr "API Error"))
                            status code (JSON_stringify_val result)) ;;
       raise (ApiError exception)
     else ret result)
    (fun error =>
       if instanceof_ApiException error then raise error
       else
         exception <- lift (new_ApiException
                              (JStr ("Request failed: " ++ error_message error))
                              (JNum 500)
                              (JStr "REQUEST_FAILED")
                              (JStr (error_message error))) ;;
         raise (ApiError exception)).

(** Destructuring a parameter ([{ a, b }] in a parameter list, [a] its
    first name) needs a value that has properties: [undefined] and [null]
    throw.  The texts of the engine's own errors are V8's. *)
Definition destructurable (o : JsVal) (a : string) : Completion unit :=
  match o with
  | JUndefined =>
      Throws (TypeError ("Cannot destructure property '" ++ a ++
                         "' of 'undefined' as it is undefined."))
  | JNull =>
      Throws (TypeError ("Cannot destructure property '" ++ a ++
                         "' of 'object null' as it is null."))
  | _ => Normal tt
  end.

(** [a || b] where [b] is only evaluated when [a] is falsy. *)
Definition or_else (a : JsVal) (b : Completion JsVal) : Completion JsVal :=
  if truthy a then Normal a else b.

(** ** The Store client ([src/store/client.js]) *)

Module StoreClient.

Record t : Type := {
  baseUrl : JsVal;
  taskId : JsVal
}.

Definition constructor (baseUrl taskId : JsVal) : t :=
  {| baseUrl := baseUrl; taskId := taskId |}.

Definition _request (endpoint : string) (data : JsVal) : Async t JsVal :=
  let data := default_param data (JObj []) in
  self <- get_this ;;
  let url :=
    template [baseUrl self; JStr "/store/"; taskId self; JStr endpoint] in
  post_json url data.

Definition listProducts (options : JsVal) : Async t JsVal :=
  let options := default_param options (JObj []) in
  lift (destructurable options "offset") ;;
  offset <- lift (Get options "offset") ;;
  limit <- lift (Get options "limit") ;;
  let offset := default_param offset (JNum 0) in
  let limit := default_param limit (JNum 20) in
  _request "/products/list"
    (JObj [("tool", JStr "/products/list");
           ("offset", offset);
           ("limit", limit)]).

Definition viewBasket : Async t JsVal :=
  _request "/basket/view" (JObj [("tool", JStr "/basket/view")]).

Definition addToBasket (sku quantity : JsVal) : Async t JsVal :=
  let quantity := default_param quantity (JNum 1) in
  _request "/basket/add"
    (JObj [("tool", JStr "/basket/add");
           ("sku", sku);
           ("quantity", quantity)]).

Definition removeFromBasket (sku quantity : JsVal) : Async t JsVal :=
  let quantity := default_param quantity (JNum 1) in
  _request "/basket/remove"
    (JObj [("tool", JStr "/basket/remove");
           ("sku", sku);
           ("quantity", quantity)]).

Definition checkout : Async t JsVal :=
  _request "/basket/checkout" (JObj [("tool", JStr "/basket/checkout")]).

Definition applyCoupon (coupon : JsVal) : Async t JsVal :=
  _request "/coupon/apply"
    (JObj [("tool", JStr "/coupon/apply"); ("coupon", coupon)]).

Definition removeCoupon : Async t JsVal :=
  _request "/coupon/remove" (JObj [("tool", JStr "/coupon/remove")]).

Definition dispatch (request : JsVal) : Async t JsVal :=
  tool <- lift (Get request "tool") ;;
  if strict_eq_str tool "/products/list" then
    offset <- lift (Get request "offset") ;;
    limit <- lift (Get request "limit") ;;
    listProducts (JObj [("offset", offset); ("limit", limit)])
  else if strict_eq_str tool "/basket/view" then
    viewBasket
  else if strict_eq_str tool "/basket/add" then
    sku <- lift (Get request "sku") ;;
    quantity <- lift (Get request "quantity") ;;
    addToBasket sku quantity
  else if strict_eq_str tool "/basket/remove" then
    sku <- lift (Get request "sku") ;;
    quantity <- lift (Get request "quantity") ;;
    removeFromBasket sku quantity
  else if strict_eq_str tool "/basket/checkout" then
    checkout
  else if strict_eq_str tool "/coupon/apply" then
    coupon <- lift (Get request "coupon") ;;
    applyCoupon coupon
  else if strict_eq_str tool "/coupon/remove" then
    removeCoupon
  else
    raise (Error ("Unknown tool: " ++ ToString tool)).

(** The seven operations as calls with their arguments; a missing
    argument is [JUndefined]. *)
Inductive Call : Type :=
| ListProducts (options : JsVal)
| ViewBasket
| AddToBasket (sku quantity : JsVal)
| RemoveFromBasket (sku quantity : JsVal)
| Checkout
| ApplyCoupon (coupon : JsVal)
| RemoveCoupon.

Definition invoke (c : Call) : Async t JsVal :=
  match c with
  | ListProducts options => listProducts options
  | ViewBasket => viewBasket
  | AddToBasket sku quantity => addToBasket sku quantity
  | RemoveFromBasket sku quantity => removeFromBasket sku quantity
  | Checkout => checkout
  | ApplyCoupon coupon => applyCoupon coupon
  | RemoveCoupon => removeCoupon
  end.

(** The arguments an operation can take apart: [listProducts] destructures
    its options, which must not be [null]. *)
Definition accepts (c : Call) : bool :=
  match c with
  | ListProducts options => negb (is_null options)
  | _ => true
  end.

(** The endpoint inventory of the wire protocol: each operation's path
    below [/store/{taskId}] and the parameters of its own it sends. *)
Definition path (c : Call) : string :=
  match c with
  | ListProducts _ => "/products/list"
  | ViewBasket => "/basket/view"
  | AddToBasket _ _ => "/basket/add"
  | RemoveFromBasket _ _ => "/basket/remove"
  | Checkout => "/basket/checkout"
  | ApplyCoupon _ => "/coupon/apply"
  | RemoveCoupon => "/coupon/remove"
  end.

Definition parameters (c : Call) : list (string * JsVal) :=
  match c with
  | ListProducts options =>
      let options := default_param options (JObj []) in
      [("offset", default_param (prop options "offset") (JNum 0));
       ("limit", default_param (prop options "limit") (JNum 20))]
  | AddToBasket sku quantity | RemoveFromBasket sku quantity =>
      [("sku", sku); ("quantity", default_param quantity (JNum 1))]
  | ApplyCoupon coupon => [("coupon", coupon)]
  | ViewBasket | Checkout | RemoveCoupon => []
  end.

End StoreClient.

(** ** The Demo client ([src/demo/client.js]) *)

Module DemoClient.

Record t : Type := {
  baseUrl : JsVal;
  taskId : JsVal
}.

Definition constructor (baseUrl taskId : JsVal) : t :=
  {| baseUrl := baseUrl; taskId := taskId |}.

Definition _request (endpoint : string) (data : JsVal) : Async t JsVal :=
  let data := default_param data (JObj []) in
  self <- get_this ;;
  let url :=
    template [baseUrl self; JStr "/demo/"; taskId self; JStr endpoint] in
  post_json url data.

Definition getSecret : Async t JsVal :=
  _request "/secret" (JObj [("tool", JStr "/secret")]).

(** [String(answer)] is evaluated, and can throw, before the request is
    made. *)
Definition submitAnswer (answer : JsVal) : Async t JsVal :=
  text <- lift (js_String answer) ;;
  _request "/answer"
    (JObj [("tool", JStr "/answer"); ("answer", JStr text)]).

Definition dispatch (request : JsVal) : Async t JsVal :=
  tool <- lift (Get request "tool") ;;
  if strict_eq_str tool "/secret" then
    getSecret
  else if strict_eq_str tool "/answer" then
    answer <- lift (Get request "answer") ;;
    submitAnswer answer
  else
    raise (Error ("Unknown tool: " ++ ToString tool)).

Inductive Call : Type :=
| GetSecret
| SubmitAnswer (answer : JsVal).

Definition invoke (c : Call) : Async t JsVal :=
  match c with
  | GetSecret => getSecret
  | SubmitAnswer answer => submitAnswer answer
  end.

(** The arguments an operation can take apart: [submitAnswer] needs an
    answer that has a string. *)
Definition accepts (c : Call) : bool :=
  match c with
  | GetSecret => true
  | SubmitAnswer answer => printable answer
  end.

End DemoClient.

(** ** The core client ([src/client.js]) *)

Module ERC3.

Record t : Type := {
  apiKey : JsVal;
  baseUrl : JsVal
}.

(** [process.env.NAME]: the variable's text, [undefined] when unset. *)
Definition env_var (v : option string) : JsVal :=
  match v with
  | Some s => JStr s
  | None => JUndefined
  end.

(** [new ERC3(options)], with the environment variable [ERC3_API_KEY] the
    process runs under. *)
Definition constructor (ERC3_API_KEY : option string) (options : JsVal)
  : Completion t :=
  let options := default_param options (JObj []) in
  key <- Get options "apiKey" ;;
  let apiKey := js_or key (env_var ERC3_API_KEY) in
  url <- Get options "baseUrl" ;;
  let baseUrl := js_or url (JStr "https://erc.timetoact-group.at") in
  if negb (truthy apiKey) then
    Throws (Error
      "API key is required. Set ERC3_API_KEY env var or pass apiKey option.")
  else
    Normal {| apiKey := apiKey; baseUrl := baseUrl |}.

Definition _request (endpoint : string) (data : JsVal) : Async t JsVal :=
  let data := default_param data (JObj []) in
  self <- get_this ;;
  let url := template [baseUrl self; JStr endpoint] in
  post_json url data.

Definition listBenchmarks : Async t JsVal :=
  _request "/benchmarks/list" (JObj []).

Definition viewBenchmark (benchmark : JsVal) : Async t JsVal :=
  _request "/benchmarks/view" (JObj [("benchmark", benchmark)]).

Definition startSession (options : JsVal) : Async t JsVal :=
  lift (destructurable options "benchmark") ;;
  benchmark <- lift (Get options "benchmark") ;;
  workspace <- lift (Get options "workspace") ;;
  name <- lift (Get options "name") ;;
  architecture <- lift (Get options "architecture") ;;
  let architecture := default_param architecture (JStr "x86_64") in
  self <- get_this ;;
  _request "/sessions/start"
    (JObj [("account_key", apiKey self);
           ("benchmark", benchmark);
           ("workspace", workspace);
           ("name", name);
           ("architecture", architecture)]).

Definition sessionStatus (sessionId : JsVal) : Async t JsVal :=
  _request "/sessions/status" (JObj [("session_id", sessionId)]).

Definition searchSessions (criteria : JsVal) : Async t JsVal :=
  self <- get_this ;;
  _request "/sessions/search"
    (JObj (spread [("account_key", apiKey self)] criteria)).

Definition submitSession (sessionId : JsVal) : Async t JsVal :=
  _request "/sessions/submit" (JObj [("session_id", sessionId)]).

(** [typeof taskOrId === 'string' ? taskOrId : taskOrId.task_id], the
    expression of lines 234, 251, 322 and 339. *)
Definition task_id_of (taskOrId : JsVal) : Completion JsVal :=
  if is_string taskOrId then Normal taskOrId else Get taskOrId "task_id".

Definition startTask (taskOrId : JsVal) : Async t JsVal :=
  taskId <- lift (task_id_of taskOrId) ;;
  _request "/tasks/start" (JObj [("task_id", taskId)]).

Definition completeTask (taskOrId : JsVal) : Async t JsVal :=
  taskId <- lift (task_id_of taskOrId) ;;
  _request "/tasks/complete" (JObj [("task_id", taskId)]).

Definition viewTask (taskId since : JsVal) : Async t JsVal :=
  let since := default_param since JNull in
  let data := [("task_id", taskId)] in
  let data :=
    if negb (is_null since) then (data ++ [("since", since)])%list else data in
  _request "/tasks/view" (JObj data).

Definition logLLM (options : JsVal) : Async t JsVal :=
  lift (destructurable options "taskId") ;;
  taskId <- lift (Get options "taskId") ;;
  model <- lift (Get options "model") ;;
  usage <- lift (Get options "usage") ;;
  durationSec <- lift (Get options "durationSec") ;;
  prompt <- lift (a <- Get usage "prompt_tokens" ;;
                  or_else a (b <- Get usage "input_tokens" ;;
                             or_else b (Normal (JNum 0)))) ;;
  completion <- lift (a <- Get usage "completion_tokens" ;;
                      or_else a (b <- Get usage "output_tokens" ;;
                                 or_else b (Normal (JNum 0)))) ;;
  total <- lift (a <- Get usage "total_tokens" ;;
                 or_else a (Normal (JNum 0))) ;;
  _request "/tasks/log"
    (JObj [("task_id", taskId);
           ("model", model);
           ("usage", JObj [("prompt_tokens", prompt);
                           ("completion_tokens", completion);
                           ("total_tokens", total)]);
           ("duration_sec", durationSec)]).

(** The two factory methods build a client and send nothing. *)
Definition getStoreClient (taskOrId : JsVal) : Async t StoreClient.t :=
  taskId <- lift (task_id_of taskOrId) ;;
  self <- get_this ;;
  ret (StoreClient.constructor (baseUrl self) taskId).

Definition getDemoClient (taskOrId : JsVal) : Async t DemoClient.t :=
  taskId <- lift (task_id_of taskOrId) ;;
  self <- get_this ;;
  ret (DemoClient.constructor (baseUrl self) taskId).

(** The ten operations that send a request, as calls with their
    arguments; a missing argument is [JUndefined]. *)
Inductive Call : Type :=
| ListBenchmarks
| ViewBenchmark (benchmark : JsVal)
| StartSession (options : JsVal)
| SessionStatus (sessionId : JsVal)
| SearchSessions (criteria : JsVal)
| SubmitSession (sessionId : JsVal)
| StartTask (taskOrId : JsVal)
| CompleteTask (taskOrId : JsVal)
| ViewTask (taskId since : JsVal)
| LogLLM (options : JsVal).

Definition invoke (c : Call) : Async t JsVal :=
  match c with
  | ListBenchmarks => listBenchmarks
  | ViewBenchmark benchmark => viewBenchmark benchmark
  | StartSession options => startSession options
  | SessionStatus sessionId => sessionStatus sessionId
  | SearchSessions criteria => searchSessions criteria
  | SubmitSession sessionId => submitSession sessionId
  | StartTask taskOrId => startTask taskOrId
  | CompleteTask taskOrId => completeTask taskOrId
  | ViewTask taskId since => viewTask taskId since
  | LogLLM options => logLLM options
  end.

(** The arguments an operation can take apart: an options object or a
    task that is neither [undefined] nor [null], and for [logLLM] a
    [usage] that is neither. *)
Definition accepts (c : Call) : bool :=
  match c with
  | StartSession options => negb (nullish options)
  | StartTask taskOrId | CompleteTask taskOrId => negb (nullish taskOrId)
  | LogLLM options =>
      negb (nullish options) && negb (nullish (prop options "usage"))
  | _ => true
  end.

End ERC3.

(** ** The three facades side by side *)

Inductive Facade : Type := Core | Store | Demo.

Definition Self (f : Facade) : Type :=
  match f with
  | Core => ERC3.t
  | Store => StoreClient.t
  | Demo => DemoClient.t
  end.

Definition Call (f : Facade) : Type :=
  match f with
  | Core => ERC3.Call
  | Store => StoreClient.Call
  | Demo => DemoClient.Call
  end.

(** The facade's private [_request] method. *)
Definition request (f : Facade) : string -> JsVal -> Async (Self f) JsVal :=
  match f with
  | Core => ERC3._request
  | Store => StoreClient._request
  | Demo => DemoClient._request
  end.

(** The facade's public operations. *)
Definition invoke (f : Facade) : Call f -> Async (Self f) JsVal :=
  match f with
  | Core => ERC3.invoke
  | Store => StoreClient.invoke
  | Demo => DemoClient.invoke
  end.

Definition accepts (f : Facade) : Call f -> bool :=
  match f with
  | Core => ERC3.accepts
  | Store => StoreClient.accepts
  | Demo => DemoClient.accepts
  end.

(** The state after one more request. *)
Definition after {S : Type} (s : Env S) (r : FetchRequest) : Env S :=
  Build_Env (this s) (server s) (sent s ++ [r])%list.

(** ** The pagination loop of the store example
    ([examples/store-example.js], lines 45-65) *)

Module StoreExample.

(** The loop's variables. *)
Record Browse : Type := {
  allProducts : list JsVal;
  offset : JsVal;
  pageNum : Z
}.



(** The callback that prints one product reads four of its properties
    into a template literal, each turned into text as it is read. *)
Definition show_product (p : JsVal) : Completion unit :=
  name <- Get p "name" ;;
  _ <- js_String name ;;
  sku <- Get p "sku" ;;
  _ <- js_String sku ;;
  price <- Get p "price" ;;
  _ <- js_String price ;;
  available <- Get p "available" ;;
  _ <- js_String available ;;
  Normal tt.

Fixpoint for_each (f : JsVal -> Completion unit) (l : list JsVal)
  : Completion unit :=
  match l with
  | [] => Normal tt
  | x :: rest => f x ;; for_each f rest
  end.



Definition start : Browse :=
  {| allProducts := []; offset := JNum 0; pageNum := 1%Z |}.


End StoreExample.

(** ** The key helper ([src/client.js], lines 359-369) *)

(** [getApiKey(email, baseUrl)]: a bare [fetch], with no [try] around it
    and no look at the body's status. *)
Definition getApiKey {S : Type} (email baseUrl : JsVal) : Async S JsVal :=
  let baseUrl := default_param baseUrl (JStr "https://erc.timetoact-group.at") in
  fetch_json (post (template [baseUrl; JStr "/get_key"])
                (JObj [("email", email)])).

(** ** Calling a method on an object *)

(** [obj.m(...)] from code that runs on another object, or on none: the
    method runs with [this] bound to [obj], on the same network. *)
Definition call {S T A : Type} (obj : T) (m : Async T A) : Async S A :=
  fun s =>
    let (c, s') := m (Build_Env obj (server s) (sent s)) in
    (c, Build_Env (this s) (server s') (sent s')).

(** ** The rest of the store example ([examples/store-example.js]) *)

Module StoreExampleMain.

(** The callback [(min, p) => p.price < min.price ? p : min]. *)
Definition cheaper (min p : JsVal) : Completion JsVal :=
  price <- Get p "price" ;;
  least <- Get min "price" ;;
  less <- js_lt price least ;;
  Normal (if (less : bool) then p else min).

Fixpoint reduce_from (f : JsVal -> JsVal -> Completion JsVal)
  (acc : JsVal) (l : list JsVal) : Completion JsVal :=
  match l with
  | [] => Normal acc
  | x :: rest => acc' <- f acc x ;; reduce_from f acc' rest
  end.

(** [array.reduce(f)] with no initial value. *)
Definition reduce (f : JsVal -> JsVal -> Completion JsVal) (l : list JsVal)
  : Completion JsVal :=
  match l with
  | [] => Throws (TypeError "Reduce of empty array with no initial value")
  | x :: rest => reduce_from f x rest
  end.

(** [const cheapest = allProducts.reduce(...)], lines 69-71. *)
Definition cheapest (allProducts : list JsVal) : Completion JsVal :=
  reduce cheaper allProducts.

End StoreExampleMain.

(** ** The command-line front ends ([bin/commands/core.js],
    [bin/commands/store.js], [bin/commands/demo.js], [bin/erc3.js],
    [bin/erc3-store.js], [bin/erc3-demo.js])

    What the commands print is not modelled; the property reads, the
    conversions to text and the calls that printing makes are, since they
    can throw.  [console.log] of a value that is no template literal
    converts nothing and cannot throw, and neither can [JSON.stringify] of
    a parsed value. *)

Module Cli.

(** The environment variables the front ends read. *)
Record ProcessEnv : Type := {
  ERC3_API_KEY : option string;
  ERC3_BASE_URL : option string
}.

(** The engine's number parsing and addition.  Their results (NaN, a
    fraction) are not all numbers of this model, so the handlers take them
    from outside. *)
Record Runtime : Type := {
  parseInt : JsVal -> JsVal;
  parseFloat : JsVal -> JsVal;
  add : JsVal -> JsVal -> JsVal
}.

(** How a command ends when it does not throw: it returns, or it makes
    the process exit with a code. *)
Inductive Ending : Type :=
| Returned
| Exited (code : Z).

(** The status the process ends with: the code of [process.exit], and [0]
    when [main] returns, which leaves the process nothing to wait for. *)
Definition exit_status (ending : Ending) : Z :=
  match ending with
  | Returned => 0
  | Exited code => code
  end.

(** [s.startsWith(p)] and [s.slice(2)] *)
Definition startsWith (s p : string) : bool := String.prefix p s.

Definition slice2 (s : string) : string :=
  substring 2 (String.length s - 2) s.

(** [parsed[key] = value], for a value that is a string or [undefined]:
    assigning such a value to [__proto__] does nothing. *)
Definition assign (key : string) (value : JsVal)
  (parsed : list (string * JsVal)) : list (string * JsVal) :=
  if key =? "__proto__" then parsed else set_prop key value parsed.

(** [parsed._.push(arg)] *)
Definition push_positional (arg : string) (parsed : list (string * JsVal))
  : Completion (list (string * JsVal)) :=
  match field "_" parsed with
  | JArr elems =>
      Normal (set_prop "_" (JArr (elems ++ [JStr arg])%list) parsed)
  | JUndefined | JNull =>
      _ <- Get (field "_" parsed) "push" ;; Normal parsed
  | _ => Throws (TypeError "parsed._.push is not a function")
  end.

(** The loop of [parseArgs] from index [i] on, [args] being what is left
    of the array from there. *)
Fixpoint parse_from (args : list string) (parsed : list (string * JsVal))
  : Completion (list (string * JsVal)) :=
  match args with
  | [] => Normal parsed
  | arg :: rest =>
      if startsWith arg "--" then
        let key := slice2 arg in
        match rest with
        | [] => Normal (assign key JUndefined parsed)
        | value :: rest' => parse_from rest' (assign key (JStr value) parsed)
        end
      else
        parsed' <- push_positional arg parsed ;;
        parse_from rest parsed'
  end.

(** [parseArgs(args)], the same function in the three command files. *)
Definition parseArgs (args : list string) : Completion JsVal :=
  parsed <- parse_from args [("_", JArr [])] ;;
  Normal (JObj parsed).

(** [getClient()], the same function in the three command files. *)
Definition getClient (env : ProcessEnv) : Completion ERC3.t :=
  let apiKey := ERC3.env_var (ERC3_API_KEY env) in
  let baseUrl := ERC3.env_var (ERC3_BASE_URL env) in
  if negb (truthy apiKey) then
    Throws (Error "ERC3_API_KEY environment variable is required")
  else
    ERC3.constructor (ERC3_API_KEY env)
      (JObj [("apiKey", apiKey); ("baseUrl", baseUrl)]).

(** [if (!v) { throw new Error(message); }] *)
Definition require {S : Type} (v : JsVal) (message : string) : Async S unit :=
  if negb (truthy v) then raise (Error message) else ret tt.

(** The [catch] block the three handlers share: an [ApiException] is
    printed and the process exits with code 1; any other error is thrown
    on. *)
Definition on_error {S : Type} (error : JsError) : Async S Ending :=
  if instanceof_ApiException error then ret (Exited 1) else raise error.

(** [handleDemoCommand(command, args)] *)
Definition handleDemoCommand (env : ProcessEnv) (command : string)
  (args : list string) : Async unit Ending :=
  parsed <- lift (parseArgs args) ;;
  client <- lift (getClient env) ;;
  catch
    (positional <- lift (Get parsed "_") ;;
     taskId <- lift (Get positional "0") ;;
     require taskId "Task ID is required" ;;
     demo <- call client (ERC3.getDemoClient taskId) ;;
     if command =? "demo:secret" then
       result <- call demo DemoClient.getSecret ;;
       json <- lift (Get parsed "json") ;;
       (if truthy json then ret tt
        else value <- lift (Get result "value") ;;
             lift (js_String value) ;;
             ret tt) ;;
       ret Returned
     else if command =? "demo:answer" then
       answer <- lift (Get parsed "answer") ;;
       require answer "--answer is required" ;;
       call demo (DemoClient.submitAnswer answer) ;;
       ret Returned
     else
       raise (Error ("Unknown command: " ++ command)))
    on_error.

(** [handleCoreCommand(command, args)] *)
Definition handleCoreCommand (rt : Runtime) (env : ProcessEnv)
  (command : string) (args : list string) : Async unit Ending :=
  parsed <- lift (parseArgs args) ;;
  client <- lift (getClient env) ;;
  catch
    (if command =? "benchmarks" then
       call client ERC3.listBenchmarks ;;
       ret Returned
     else if command =? "benchmark" then
       positional <- lift (Get parsed "_") ;;
       benchmarkId <- lift (Get positional "0") ;;
       require benchmarkId "Benchmark ID is required" ;;
       call client (ERC3.viewBenchmark benchmarkId) ;;
       ret Returned
     else if command =? "session:start" then
       positional <- lift (Get parsed "_") ;;
       benchmark <- lift (Get positional "0") ;;
       workspace <- lift (Get parsed "workspace") ;;
       name <- lift (Get parsed "name") ;;
       given <- lift (Get parsed "architecture") ;;
       let architecture := js_or given (JStr "x86_64") in
       require benchmark "Benchmark ID is required" ;;
       require workspace "--workspace is required" ;;
       require name "--name is required" ;;
       call client (ERC3.startSession
                      (JObj [("benchmark", benchmark);
                             ("workspace", workspace);
                             ("name", name);
                             ("architecture", architecture)])) ;;
       ret Returned
     else if command =? "session:status" then
       positional <- lift (Get parsed "_") ;;
       sessionId <- lift (Get positional "0") ;;
       require sessionId "Session ID is required" ;;
       call client (ERC3.sessionStatus sessionId) ;;
       ret Returned
     else if command =? "session:search" then
       workspace <- lift (Get parsed "workspace") ;;
       let criteria :=
         if truthy workspace then set_prop "workspace" workspace [] else [] in
       benchmark <- lift (Get parsed "benchmark") ;;
       let criteria :=
         if truthy benchmark then set_prop "benchmark" benchmark criteria
         else criteria in
       call client (ERC3.searchSessions (JObj criteria)) ;;
       ret Returned
     else if command =? "session:submit" then
       positional <- lift (Get parsed "_") ;;
       sessionId <- lift (Get positional "0") ;;
       require sessionId "Session ID is required" ;;
       call client (ERC3.submitSession sessionId) ;;
       ret Returned
     else if command =? "task:start" then
       positional <- lift (Get parsed "_") ;;
       taskId <- lift (Get positional "0") ;;
       require taskId "Task ID is required" ;;
       call client (ERC3.startTask taskId) ;;
       ret Returned
     else if command =? "task:view" then
       positional <- lift (Get parsed "_") ;;
       taskId <- lift (Get positional "0") ;;
       given <- lift (Get parsed "since") ;;
       let since := if truthy given then parseInt rt given else JNull in
       require taskId "Task ID is required" ;;
       call client (ERC3.viewTask taskId since) ;;
       ret Returned
     else if command =? "task:complete" then
       positional <- lift (Get parsed "_") ;;
       taskId <- lift (Get positional "0") ;;
       require taskId "Task ID is required" ;;
       call client (ERC3.completeTask taskId) ;;
       ret Returned
     else if command =? "task:log" then
       positional <- lift (Get parsed "_") ;;
       taskId <- lift (Get positional "0") ;;
       model <- lift (Get parsed "model") ;;
       promptTokens <- lift (Get parsed "prompt-tokens") ;;
       completionTokens <- lift (Get parsed "completion-tokens") ;;
       duration <- lift (Get parsed "duration") ;;
       require taskId "Task ID is required" ;;
       require model "--model is required" ;;
       require promptTokens "--prompt-tokens is required" ;;
       require completionTokens "--completion-tokens is required" ;;
       require duration "--duration is required" ;;
       call client (ERC3.logLLM
                      (JObj [("taskId", taskId);
                             ("model", model);
                             ("usage",
                              JObj [("prompt_tokens", parseInt rt promptTokens);
                                    ("completion_tokens",
                                     parseInt rt completionTokens);
                                    ("total_tokens",
                                     add rt (parseInt rt promptTokens)
                                       (parseInt rt completionTokens))]);
                             ("durationSec", parseFloat rt duration)])) ;;
       ret Returned
     else
       raise (Error ("Unknown command: " ++ command)))
    on_error.


(** [v.toFixed(2)], [what] being the text of [v] in the source, which
    the engine's message quotes: only a number has the method. *)
Definition toFixed (v : JsVal) (what : string) : Completion unit :=
  match v with
  | JNum _ => Normal tt
  | JUndefined | JNull => _ <- Get v "toFixed" ;; Normal tt
  | _ => Throws (TypeError (what ++ ".toFixed is not a function"))
  end.

(** [v.forEach(f)], [what] being the text of [v] in the source: only an
    array has the method. *)
Definition forEach (v : JsVal) (what : string)
  (f : JsVal -> Completion unit) : Completion unit :=
  match v with
  | JArr elems => StoreExample.for_each f elems
  | JUndefined | JNull => _ <- Get v "forEach" ;; Normal tt
  | _ => Throws (TypeError (what ++ ".forEach is not a function"))
  end.

(** [`${v.items?.length || 0}`]: the length of the items when there are
    items, which is printed unless it is falsy. *)
Definition show_count (items : JsVal) : Completion unit :=
  len <- (if nullish items then Normal JUndefined else Get items "length") ;;
  _ <- js_String (js_or len (JNum 0)) ;;
  Normal tt.

(** [if (items && items.length > 0) { items.forEach(f) }] *)
Definition show_each (items : JsVal) (what : string)
  (f : JsVal -> Completion unit) : Completion unit :=
  if truthy items then
    len <- Get items "length" ;;
    some <- js_gt len 0 ;;
    if (some : bool) then forEach items what f else Normal tt
  else Normal tt.

(** The line printed for one basket item: its [sku] and [quantity] as
    text, and its price formatted. *)
Definition show_item (item : JsVal) : Completion unit :=
  sku <- Get item "sku" ;;
  _ <- js_String sku ;;
  quantity <- Get item "quantity" ;;
  _ <- js_String quantity ;;
  price <- Get item "price" ;;
  toFixed price "item.price".

(** The lines printed for one product. *)
Definition show_product (product : JsVal) : Completion unit :=
  name <- Get product "name" ;;
  _ <- js_String name ;;
  sku <- Get product "sku" ;;
  _ <- js_String sku ;;
  price <- Get product "price" ;;
  toFixed price "product.price" ;;
  available <- Get product "available" ;;
  _ <- js_String available ;;
  Normal tt.

(** The totals and the items of a basket, as [formatBasket] and the
    [store:checkout] case print them ([what] is [basket] or [result]): the
    number of items, the three amounts formatted, zero standing in for a
    falsy one, the coupon when there is one, and the items when there are
    some. *)
Definition show_basket (basket : JsVal) (what : string) : Completion unit :=
  items <- Get basket "items" ;;
  show_count items ;;
  subtotal <- Get basket "subtotal" ;;
  toFixed (js_or subtotal (JNum 0)) ("(" ++ what ++ ".subtotal || 0)") ;;
  discount <- Get basket "discount" ;;
  toFixed (js_or discount (JNum 0)) ("(" ++ what ++ ".discount || 0)") ;;
  total <- Get basket "total" ;;
  toFixed (js_or total (JNum 0)) ("(" ++ what ++ ".total || 0)") ;;
  coupon <- Get basket "coupon" ;;
  (if truthy coupon then _ <- js_String coupon ;; Normal tt else Normal tt) ;;
  items <- Get basket "items" ;;
  show_each items (what ++ ".items") show_item.

(** [formatBasket(basket)] *)
Definition formatBasket (basket : JsVal) : Completion unit :=
  show_basket basket "basket".

(** [formatProducts(result)] *)
Definition formatProducts (result : JsVal) : Completion unit :=
  products <- Get result "products" ;;
  show_count products ;;
  next_offset <- Get result "next_offset" ;;
  _ <- js_String next_offset ;;
  products <- Get result "products" ;;
  show_each products "result.products" show_product.

(** [handleStoreCommand(command, args)] *)
Definition handleStoreCommand (rt : Runtime) (env : ProcessEnv)
  (command : string) (args : list string) : Async unit Ending :=
  parsed <- lift (parseArgs args) ;;
  client <- lift (getClient env) ;;
  catch
    (positional <- lift (Get parsed "_") ;;
     taskId <- lift (Get positional "0") ;;
     require taskId "Task ID is required" ;;
     store <- call client (ERC3.getStoreClient taskId) ;;
     if command =? "store:products" then
       given <- lift (Get parsed "offset") ;;
       let offset := if truthy given then parseInt rt given else JNum 0 in
       given <- lift (Get parsed "limit") ;;
       let limit := if truthy given then parseInt rt given else JNum 20 in
       result <- call store (StoreClient.listProducts
                               (JObj [("offset", offset); ("limit", limit)])) ;;
       json <- lift (Get parsed "json") ;;
       (if truthy json then ret tt else lift (formatProducts result)) ;;
       ret Returned
     else if command =? "store:basket" then
       result <- call store StoreClient.viewBasket ;;
       json <- lift (Get parsed "json") ;;
       (if truthy json then ret tt else lift (formatBasket result)) ;;
       ret Returned
     else if command =? "store:add" then
       sku <- lift (Get parsed "sku") ;;
       given <- lift (Get parsed "quantity") ;;
       let quantity := if truthy given then parseInt rt given else JNum 1 in
       require sku "--sku is required" ;;
       result <- call store (StoreClient.addToBasket sku quantity) ;;
       lift (js_String quantity) ;;
       lift (js_String sku) ;;
       line_count <- lift (Get result "line_count") ;;
       lift (js_String line_count) ;;
       item_count <- lift (Get result "item_count") ;;
       lift (js_String item_count) ;;
       ret Returned
     else if command =? "store:remove" then
       sku <- lift (Get parsed "sku") ;;
       given <- lift (Get parsed "quantity") ;;
       let quantity := if truthy given then parseInt rt given else JNum 1 in
       require sku "--sku is required" ;;
       result <- call store (StoreClient.removeFromBasket sku quantity) ;;
       lift (js_String quantity) ;;
       lift (js_String sku) ;;
       line_count <- lift (Get result "line_count") ;;
       lift (js_String line_count) ;;
       item_count <- lift (Get result "item_count") ;;
       lift (js_String item_count) ;;
       ret Returned
     else if command =? "store:coupon:apply" then
       coupon <- lift (Get parsed "coupon") ;;
       require coupon "--coupon is required" ;;
       call store (StoreClient.applyCoupon coupon) ;;
       lift (js_String coupon) ;;
       basket <- call store StoreClient.viewBasket ;;
       lift (formatBasket basket) ;;
       ret Returned
     else if command =? "store:coupon:remove" then
       call store StoreClient.removeCoupon ;;
       basket <- call store StoreClient.viewBasket ;;
       lift (formatBasket basket) ;;
       ret Returned
     else if command =? "store:checkout" then
       result <- call store StoreClient.checkout ;;
       lift (show_basket result "result") ;;
       ret Returned
     else
       raise (Error ("Unknown command: " ++ command)))
    on_error.

(** The names every object literal inherits from [Object.prototype]. *)
Definition Object_prototype_names : list string :=
  ["constructor"; "__defineGetter__"; "__defineSetter__"; "hasOwnProperty";
   "__lookupGetter__"; "__lookupSetter__"; "isPrototypeOf";
   "propertyIsEnumerable"; "toString"; "valueOf"; "__proto__";
   "toLocaleString"].

(** [COMMANDS[command]] is truthy: the table has the key, or inherits the
    name. *)
Definition listed (keys : list string) (command : string) : bool :=
  existsb (String.eqb command) keys
  || existsb (String.eqb command) Object_prototype_names.

(** The commands of the three groups, as [bin/erc3.js] names them. *)
Definition core_COMMANDS : list string :=
  ["benchmarks"; "benchmark"; "session:start"; "session:status";
   "session:search"; "session:submit"; "task:start"; "task:view";
   "task:complete"; "task:log"].

Definition store_group : list string :=
  ["store:products"; "store:basket"; "store:add"; "store:remove";
   "store:coupon:apply"; "store:coupon:remove"; "store:checkout"].

Definition demo_group : list string := ["demo:secret"; "demo:answer"].

(** The table of the first version of [bin/erc3.js] (lines 11-36). *)
Definition erc3_COMMANDS : list string :=
  (core_COMMANDS ++ store_group ++ demo_group)%list.

(** The tables of [bin/erc3-store.js] and [bin/erc3-demo.js]. *)
Definition store_COMMANDS : list string :=
  ["products"; "basket"; "add"; "remove"; "coupon:apply"; "coupon:remove";
   "checkout"].

Definition demo_COMMANDS : list string := ["secret"; "answer"].

(** The [main] the executables share, but for the table of commands and
    the handler it calls; [args] is [process.argv.slice(2)].  With no
    argument, [--help] or [-h] it prints the help and exits with code 0;
    with a command that is not listed it exits with code 1; an error the
    handler throws is printed and the process exits with code 1. *)
Definition run_main (keys : list string)
  (handler : string -> list string -> Async unit Ending)
  (args : list string) : Async unit Ending :=
  match args with
  | [] => ret (Exited 0)
  | command :: commandArgs =>
      if (command =? "--help") || (command =? "-h") then ret (Exited 0)
      else if negb (listed keys command) then ret (Exited 1)
      else catch (handler command commandArgs) (fun _ => ret (Exited 1))
  end.

(** [COMMANDS[command].handler(command, commandArgs)] in the first
    version of [bin/erc3.js]: the table gives every command the handler of
    its group; a name the table only inherits has no [handler], and
    calling it throws. *)
Definition erc3_handler (rt : Runtime) (env : ProcessEnv)
  (command : string) (commandArgs : list string) : Async unit Ending :=
  if existsb (String.eqb command) core_COMMANDS then
    handleCoreCommand rt env command commandArgs
  else if existsb (String.eqb command) store_group then
    handleStoreCommand rt env command commandArgs
  else if existsb (String.eqb command) demo_group then
    handleDemoCommand env command commandArgs
  else
    raise (TypeError "COMMANDS[command].handler is not a function").

(** [bin/erc3.js] holds two versions of the executable.  [main] of the
    first (lines 1-139), the front end of the whole SDK, calls the handler
    its table names. *)
Definition erc3_main (rt : Runtime) (env : ProcessEnv) (args : list string)
  : Async unit Ending :=
  run_main erc3_COMMANDS (erc3_handler rt env) args.

(** [main] of the second version (lines 140-263), the front end of the
    core API: its table has the ten core commands, and it calls
    [handleCoreCommand]. *)
Definition erc3_core_main (rt : Runtime) (env : ProcessEnv)
  (args : list string) : Async unit Ending :=
  run_main core_COMMANDS (handleCoreCommand rt env) args.

(** [main] of [bin/erc3-store.js] *)
Definition erc3_store_main (rt : Runtime) (env : ProcessEnv)
  (args : list string) : Async unit Ending :=
  run_main store_COMMANDS
    (fun command => handleStoreCommand rt env ("store:" ++ command)) args.

(** [main] of [bin/erc3-demo.js] *)
Definition erc3_demo_main (env : ProcessEnv) (args : list string)
  : Async unit Ending :=
  run_main demo_COMMANDS
    (fun command => handleDemoCommand env ("demo:" ++ command)) args.

End Cli.


(** * Specification vocabulary *)

(** ** Requests and their answers *)

(** The URL a facade builds for an endpoint: its prefix, then the path. *)
Definition endpoint_url (f : Facade) : Self f -> string -> string :=
  match f with
  | Core => fun c e => ToString (ERC3.baseUrl c) ++ e
  | Store => fun c e =>
      ToString (StoreClient.baseUrl c) ++ "/store/" ++
      ToString (StoreClient.taskId c) ++ e
  | Demo => fun c e =>
      ToString (DemoClient.baseUrl c) ++ "/demo/" ++
      ToString (DemoClient.taskId c) ++ e
  end.

(** Running [m] from [s] sends exactly one request, which the server
    answers with [res]. *)
Definition answered {S A : Type} (m : Async S A) (s : Env S)
  (res : FetchResult) : Prop :=
  exists r : FetchRequest, snd (m s) = after s r /\ server s (sent s) r = res.

(** The error a transport failure with message [m] is wrapped into. *)
Definition request_failed (m : string) : ApiException.t :=
  {| ApiException.name := "ApiException";
     ApiException.message := "Request failed: " ++ m;
     ApiException.status := JNum 500;
     ApiException.code := JStr "REQUEST_FAILED";
     ApiException.detail := JStr m |}.

(** The body declares a failure: its status is truthy and, as a number,
    400 or more ([result.status && result.status >= 400]).  Reading the
    status of [null] throws, and so does the comparison of a status that
    has no primitive value. *)
Definition declares_failure (body : JsVal) : Completion bool :=
  status <- Get body "status" ;;
  if truthy status then js_ge status 400 else Normal false.

(** The message of the error a failure is turned into: the text of
    [result.error || 'API Error'], which [Error] makes of its argument. *)
Definition error_text (body : JsVal) : Completion string :=
  js_String (js_or (prop body "error") (JStr "API Error")).

(** The error a parsed body that declares a failure is turned into. *)
Definition api_error_of (body : JsVal) (message : string) : ApiException.t :=
  {| ApiException.name := "ApiException";
     ApiException.message := message;
     ApiException.status := prop body "status";
     ApiException.code := prop body "code";
     ApiException.detail := JSON_stringify_val body |}.

(** How [_request] completes on each answer of the server. *)
Definition settle (res : FetchResult) : Completion JsVal :=
  match res with
  | NetworkFailure m | NotJson m => Throws (ApiError (request_failed m))
  | JsonBody body =>
      match declares_failure body with
      | Throws e => Throws (ApiError (request_failed (error_message e)))
      | Normal false => Normal body
      | Normal true =>
          match error_text body with
          | Throws e => Throws (ApiError (request_failed (error_message e)))
          | Normal message => Throws (ApiError (api_error_of body message))
          end
      end
  end.



(** ** Usage logging *)

(** The first truthy value of the list, [0] when there is none: what a
    chain [a || b || 0] evaluates to. *)
Fixpoint first_truthy (l : list JsVal) : JsVal :=
  match l with
  | [] => JNum 0
  | v :: rest => if truthy v then v else first_truthy rest
  end.

(** The usage object [logLLM] sends for the caller's [usage]. *)
Definition normalized_usage (usage : JsVal) : JsVal :=
  JObj [("prompt_tokens",
         js_or (prop usage "prompt_tokens")
           (js_or (prop usage "input_tokens") (JNum 0)));
        ("completion_tokens",
         js_or (prop usage "completion_tokens")
           (js_or (prop usage "output_tokens") (JNum 0)));
        ("total_tokens", js_or (prop usage "total_tokens") (JNum 0))].

(** A token count that is [0], or missing. *)
Definition zero_or_missing (v : JsVal) : Prop := v = JNum 0 \/ v = JUndefined.

(** ** Tool dispatch *)

Definition store_tools : list string :=
  ["/products/list"; "/basket/view"; "/basket/add"; "/basket/remove";
   "/basket/checkout"; "/coupon/apply"; "/coupon/remove"].

Definition demo_tools : list string := ["/secret"; "/answer"].

(** The tool a request names is none of [tools]. *)
Definition unrecognized (tools : list string) (tool : JsVal) : Prop :=
  forall name : string, In name tools -> tool <> JStr name.

(** ** Client configuration *)

(** The API key the constructor settles on: the option, else the
    environment variable. *)
Definition configured_key (ERC3_API_KEY : option string) (options : JsVal)
  : JsVal :=
  js_or (prop (default_param options (JObj [])) "apiKey")
        (ERC3.env_var ERC3_API_KEY).

(** The base URL the constructor settles on: the option, else the
    production host. *)
Definition configured_url (options : JsVal) : JsVal :=
  js_or (prop (default_param options (JObj [])) "baseUrl")
        (JStr "https://erc.timetoact-group.at").

(** ** Pagination *)




(** ** Sample inputs *)

Module Sample.

Definition core : ERC3.t :=
  {| ERC3.apiKey := JStr "key-1"; ERC3.baseUrl := JStr "https://erc.example" |}.

Definition store : StoreClient.t :=
  StoreClient.constructor (JStr "https://erc.example") (JStr "t1").

Definition demo : DemoClient.t :=
  DemoClient.constructor (JStr "https://erc.example") (JStr "t1").

(** A server that gives one answer to everything. *)
Definition always (res : FetchResult) : Server := fun _ _ => res.


Definition benchmark : JsVal :=
  JObj [("id", JStr "store"); ("status", JNum 200)].


(** [logLLM] options in the first naming, with no [total_tokens]. *)
Definition log_no_total : JsVal :=
  JObj [("taskId", JStr "t1");
        ("model", JStr "gpt-4");
        ("usage", JObj [("prompt_tokens", JNum 100);
                        ("completion_tokens", JNum 50)]);
        ("durationSec", JNum 2)].

(** [logLLM] options in the second naming, with zeroes in the first. *)
Definition log_second_naming : JsVal :=
  JObj [("taskId", JStr "t1");
        ("model", JStr "claude");
        ("usage", JObj [("prompt_tokens", JNum 0);
                        ("input_tokens", JNum 120);
                        ("output_tokens", JNum 30);
                        ("total_tokens", JNum 0)]);
        ("durationSec", JNum 3)].

Definition task : list (string * JsVal) :=
  [("task_id", JStr "t1"); ("status", JStr "new")].




Definition item (sku : string) (price : Z) : JsVal :=
  JObj [("sku", JStr sku); ("name", JStr "product"); ("price", JNum price);
        ("available", JNum 1)].




End Sample.

(** ** Vocabulary of the further properties *)

(** The request [getApiKey(email, baseUrl)] sends. *)
Definition key_request (email baseUrl : JsVal) : FetchRequest :=
  post (ToString (default_param baseUrl (JStr "https://erc.timetoact-group.at"))
        ++ "/get_key")
    (JObj [("email", email)]).

(** The task a task-or-id argument resolves to. *)
Definition resolved_task (taskOrId : JsVal) : JsVal :=
  if is_string taskOrId then taskOrId else prop taskOrId "task_id".

(** The endpoint inventory of the core client: each operation's path and
    the body it sends, [self] being the client. *)
Definition core_path (c : ERC3.Call) : string :=
  match c with
  | ERC3.ListBenchmarks => "/benchmarks/list"
  | ERC3.ViewBenchmark _ => "/benchmarks/view"
  | ERC3.StartSession _ => "/sessions/start"
  | ERC3.SessionStatus _ => "/sessions/status"
  | ERC3.SearchSessions _ => "/sessions/search"
  | ERC3.SubmitSession _ => "/sessions/submit"
  | ERC3.StartTask _ => "/tasks/start"
  | ERC3.CompleteTask _ => "/tasks/complete"
  | ERC3.ViewTask _ _ => "/tasks/view"
  | ERC3.LogLLM _ => "/tasks/log"
  end.

Definition core_body (self : ERC3.t) (c : ERC3.Call) : JsVal :=
  match c with
  | ERC3.ListBenchmarks => JObj []
  | ERC3.ViewBenchmark benchmark => JObj [("benchmark", benchmark)]
  | ERC3.StartSession options =>
      JObj [("account_key", ERC3.apiKey self);
            ("benchmark", prop options "benchmark");
            ("workspace", prop options "workspace");
            ("name", prop options "name");
            ("architecture",
             default_param (prop options "architecture") (JStr "x86_64"))]
  | ERC3.SessionStatus sessionId | ERC3.SubmitSession sessionId =>
      JObj [("session_id", sessionId)]
  | ERC3.SearchSessions criteria =>
      JObj (spread [("account_key", ERC3.apiKey self)] criteria)
  | ERC3.StartTask taskOrId | ERC3.CompleteTask taskOrId =>
      JObj [("task_id", resolved_task taskOrId)]
  | ERC3.ViewTask taskId since =>
      JObj (("task_id", taskId)
              :: if nullish since then [] else [("since", since)])
  | ERC3.LogLLM options =>
      JObj [("task_id", prop options "taskId");
            ("model", prop options "model");
            ("usage", normalized_usage (prop options "usage"));
            ("duration_sec", prop options "durationSec")]
  end.

(** The endpoint inventory of the demo client. *)
Definition demo_path (c : DemoClient.Call) : string :=
  match c with
  | DemoClient.GetSecret => "/secret"
  | DemoClient.SubmitAnswer _ => "/answer"
  end.

Definition demo_body (c : DemoClient.Call) : JsVal :=
  match c with
  | DemoClient.GetSecret => JObj [("tool", JStr "/secret")]
  | DemoClient.SubmitAnswer answer =>
      JObj [("tool", JStr "/answer"); ("answer", JStr (ToString answer))]
  end.

(** A JSON value that is no object and not [null]: a number, a string, a
    boolean or an array. *)
Definition plain_value (v : JsVal) : bool :=
  match v with
  | JBool _ | JNum _ | JStr _ | JArr _ => true
  | _ => false
  end.

(** A product that has the numeric price [n]. *)
Definition priced (p : JsVal) (n : Z) : Prop :=
  nullish p = false /\ prop p "price" = JNum n.

(** A command line, token by token: a positional argument, or a flag
    [--key] with the value that follows it. *)
Inductive Token : Type :=
| Positional (arg : string)
| Flag (key value : string).

(** The arguments a command line is typed as. *)
Fixpoint render (tokens : list Token) : list string :=
  match tokens with
  | [] => []
  | Positional arg :: rest => arg :: render rest
  | Flag key value :: rest => ("--" ++ key) :: value :: render rest
  end.

Fixpoint positionals (tokens : list Token) : list JsVal :=
  match tokens with
  | [] => []
  | Positional arg :: rest => JStr arg :: positionals rest
  | Flag _ _ :: rest => positionals rest
  end.

(** The value of the last flag [--key]. *)
Fixpoint last_value (key : string) (tokens : list Token) : option string :=
  match tokens with
  | [] => None
  | token :: rest =>
      match last_value key rest with
      | Some v => Some v
      | None =>
          match token with
          | Flag k v => if k =? key then Some v else None
          | Positional _ => None
          end
      end
  end.

(** A positional argument does not start with two dashes; a flag is
    named neither [_] nor [__proto__]. *)
Definition well_formed (token : Token) : Prop :=
  match token with
  | Positional arg => Cli.startsWith arg "--" = false
  | Flag key _ => key <> "_" /\ key <> "__proto__"
  end.

(** A command that throws before it has sent anything, and not an
    [ApiException]. *)
Definition refused {S : Type} (s : Env S)
  (out : Completion Cli.Ending * Env S) : Prop :=
  exists e : JsError,
    out = (Throws e, s) /\ instanceof_ApiException e = false.

(** A command that has sent the one request [r] and ended on its answer:
    it returns when the request does, and the process exits with code 1
    when the request throws. *)
Definition ended_on {S : Type} (s : Env S) (r : FetchRequest)
  (out : Completion Cli.Ending * Env S) : Prop :=
  out = (match settle (server s (sent s) r) with
         | Normal _ => Normal Cli.Returned
         | Throws _ => Normal (Cli.Exited 1)
         end, after s r).

(** A command that has sent the one request [r], got the answer
    [result], and thrown [e] while it printed the answer. *)
Definition threw_on {S : Type} (s : Env S) (r : FetchRequest)
  (result : JsVal) (e : JsError) (out : Completion Cli.Ending * Env S)
  : Prop :=
  settle (server s (sent s) r) = Normal result
  /\ out = (Throws e, after s r).

(** The body of a handler's [try]: it throws before it sends anything, or
    it sends one request among [P], throws what the request throws and,
    when the request returns, returns or throws an error [Q] tells of the
    answer, which is no [ApiException]. *)
Definition one_request {S : Type} (P : FetchRequest -> Prop)
  (Q : JsVal -> JsError -> Prop) (m : Async S Cli.Ending) : Prop :=
  forall s : Env S,
    (exists e : JsError,
        m s = (Throws e, s) /\ instanceof_ApiException e = false)
    \/ (exists r : FetchRequest,
           P r
           /\ (m s = (match settle (server s (sent s) r) with
                      | Normal _ => Normal Cli.Returned
                      | Throws e => Throws e
                      end, after s r)
               \/ exists (result : JsVal) (e : JsError),
                   Q result e
                   /\ instanceof_ApiException e = false
                   /\ threw_on s r result e (m s))).

(** The requests of the core client [client]. *)
Definition core_request (client : ERC3.t) (r : FetchRequest) : Prop :=
  exists c : ERC3.Call,
    ERC3.accepts c = true
    /\ r = post (endpoint_url Core client (core_path c)) (core_body client c).

(** The requests of a demo client made from [client] for a task named by a
    string. *)
Definition demo_request (client : ERC3.t) (r : FetchRequest) : Prop :=
  exists (taskId : string) (c : DemoClient.Call),
    r = post (endpoint_url Demo
                (DemoClient.constructor (ERC3.baseUrl client) (JStr taskId))
                (demo_path c))
          (demo_body c).

(** What [parseArgs] can hold: under [_] the array of the positional
    arguments, or what a flag [--_] left there; under any other key a
    string, or [undefined]. *)
Definition text_or_undefined (v : JsVal) : Prop :=
  match v with
  | JStr _ | JUndefined => True
  | _ => False
  end.

Definition parsed_shape (parsed : list (string * JsVal)) : Prop :=
  forall k : string,
    text_or_undefined (field k parsed)
    \/ (k = "_"
        /\ exists elems : list JsVal,
            field k parsed = JArr elems /\ Forall text_or_undefined elems).

(** The command line asks for the help. *)
Definition asks_help (args : list string) : bool :=
  match args with
  | [] => true
  | first :: _ => (first =? "--help") || (first =? "-h")
  end.

(** A computation that, when it does not throw, returns: the process is
    not made to exit. *)
Definition returns_only {S : Type} (m : Async S Cli.Ending) : Prop :=
  forall (s s' : Env S) (ending : Cli.Ending),
    m s = (Normal ending, s') -> ending = Cli.Returned.

(** A completion that throws no [ApiException]. *)
Definition throws_no_api {A : Type} (c : Completion A) : Prop :=
  forall e : JsError, c = Throws e -> instanceof_ApiException e = false.

(** ** Sample command lines *)

Module CliSample.

(** An environment that names the key and the host of [Sample.core]. *)
Definition env : Cli.ProcessEnv :=
  {| Cli.ERC3_API_KEY := Some "key-1";
     Cli.ERC3_BASE_URL := Some "https://erc.example" |}.

(** An engine for command lines whose numbers are decimal integers, and
    that are not empty.  On any other text the engine answers NaN, a
    fraction or the digits it could read, which this sample has no use
    for: it answers [undefined] there. *)
Definition decimal (v : JsVal) : JsVal :=
  match v with
  | JNum n => JNum n
  | JStr text =>
      match NilZero.uint_of_string text with
      | Some u => if text =? "" then JUndefined else JNum (Z.of_N (N.of_uint u))
      | None => JUndefined
      end
  | _ => JUndefined
  end.

Definition runtime : Cli.Runtime :=
  {| Cli.parseInt := decimal;
     Cli.parseFloat := decimal;
     Cli.add := fun a b =>
       match a, b with
       | JNum x, JNum y => JNum (x + y)
       | _, _ => JUndefined
       end |}.

(** The process before it has sent anything, on a server that gives one
    answer to everything. *)
Definition start (res : FetchResult) : Env unit :=
  Build_Env tt (Sample.always res) [].

(** [erc3 task:log t1 --model gpt-4 --prompt-tokens 100
    --completion-tokens 50 --duration 2] *)
Definition task_log : list Token :=
  [Positional "t1"; Flag "model" "gpt-4"; Flag "prompt-tokens" "100";
   Flag "completion-tokens" "50"; Flag "duration" "2"].

(** A secret whose [value] is an object with a [toString] of its own. *)
Definition textless_secret : JsVal :=
  JObj [("value", JObj [("toString", JNum 1)])].

(** A basket whose amounts are texts. *)
Definition text_basket : list (string * JsVal) :=
  [("subtotal", JStr "12.50"); ("total", JStr "12.50")].

(** Three products, the second the cheapest. *)
Definition products : list JsVal :=
  [JObj [("sku", JStr "a"); ("price", JNum 30)];
   JObj [("sku", JStr "b"); ("price", JNum 10)];
   JObj [("sku", JStr "c"); ("price", JNum 20)]].

End CliSample.

(** * Properties *)

#[local] Arguments JSON_stringify : simpl never.
#[local] Arguments JSON_stringify_val : simpl never.
#[local] Arguments ToString : simpl never.
#[local] Arguments js_ge : simpl never.
#[local] Arguments append : simpl never.

(** ** Reading properties *)

Lemma Get_prop :
  forall (v : JsVal) (k : string),
    nullish v = false -> Get v k = Normal (prop v k).
Proof.
  intros v k H. unfold prop. destruct v; cbn in *; try discriminate; reflexivity.
Qed.

Lemma Get_Normal_prop :
  forall (v x : JsVal) (k : string), Get v k = Normal x -> prop v k = x.
Proof.
  intros v x k H. unfold prop. rewrite H. reflexivity.
Qed.

Lemma destructurable_ok :
  forall (v : JsVal) (k : string),
    nullish v = false -> destructurable v k = Normal tt.
Proof.
  intros v k H. destruct v; cbn in *; try discriminate; reflexivity.
Qed.

Lemma or_else_Normal :
  forall a b : JsVal, or_else a (Normal b) = Normal (js_or a b).
Proof.
  intros a b. unfold or_else, js_or. destruct (truthy a); reflexivity.
Qed.

Lemma task_id_of_ok :
  forall v : JsVal,
    nullish v = false ->
    ERC3.task_id_of v = Normal (if is_string v then v else prop v "task_id").
Proof.
  intros v H. unfold ERC3.task_id_of.
  destruct (is_string v); [reflexivity | apply Get_prop, H].
Qed.

Lemma strict_eq_str_false :
  forall (v : JsVal) (s : string), v <> JStr s -> strict_eq_str v s = false.
Proof.
  intros v s H. destruct v as [ | | b | n | t | l | l ]; cbn; try reflexivity.
  destruct (String.eqb_spec t s); [subst; contradiction | reflexivity].
Qed.


(** ** The monad *)

Lemma bind_Normal_inv :
  forall (S A B : Type) (m : Async S A) (k : A -> Async S B) (s s' : Env S)
         (b : B),
    (x <- m ;; k x) s = (Normal b, s') ->
    exists (a : A) (s1 : Env S), m s = (Normal a, s1) /\ k a s1 = (Normal b, s').
Proof.
  intros S A B m k s s' b H. cbn in H.
  destruct (m s) as [[a | e] s1]; [eauto | discriminate].
Qed.


Lemma lift_bind_keeps :
  forall (S A B : Type) (c : Completion A) (k : A -> Async S B) (s : Env S),
    (forall a s', this (snd (k a s')) = this s') ->
    this (snd ((x <- lift c ;; k x) s)) = this s.
Proof.
  intros S A B c k s Hk. cbn. destruct c; cbn; [apply Hk | reflexivity].
Qed.

Lemma after_inj :
  forall (S : Type) (s : Env S) (r r' : FetchRequest),
    after s r = after s r' -> r = r'.
Proof.
  intros S s r r' H. unfold after in H. inversion H as [H1].
  apply app_inj_tail in H1. apply H1.
Qed.

(** ** The request executor in closed form *)

Lemma js_String_throws :
  forall (v : JsVal) (e : JsError),
    js_String v = Throws e ->
    e = TypeError "Cannot convert object to primitive value".
Proof.
  intros v e H. unfold js_String in H.
  destruct (printable v); inversion H. reflexivity.
Qed.

Lemma ToPrimitive_throws :
  forall (v : JsVal) (e : JsError),
    ToPrimitive v = Throws e ->
    e = TypeError "Cannot convert object to primitive value".
Proof.
  intros v e H. destruct v; try discriminate; cbn in H;
    match type of H with
    | context [js_String ?x] =>
        destruct (js_String x) eqn:E; [discriminate |];
        inversion H; subst; apply (js_String_throws _ _ E)
    end.
Qed.

Lemma ToNumber_throws :
  forall (v : JsVal) (e : JsError),
    ToNumber v = Throws e ->
    e = TypeError "Cannot convert object to primitive value".
Proof.
  intros v e H. unfold ToNumber in H.
  destruct (ToPrimitive v) eqn:E; [discriminate |].
  inversion H; subst. apply (ToPrimitive_throws _ _ E).
Qed.

Lemma js_ge_throws :
  forall (v : JsVal) (k : Z) (e : JsError),
    js_ge v k = Throws e ->
    e = TypeError "Cannot convert object to primitive value".
Proof.
  intros v k e H. unfold js_ge in H.
  destruct (ToNumber v) eqn:E; [discriminate |].
  inversion H; subst. apply (ToNumber_throws _ _ E).
Qed.

Lemma js_or_defined :
  forall a b : JsVal, b <> JUndefined -> js_or a b <> JUndefined.
Proof.
  intros a b Hb. unfold js_or. destruct (truthy a) eqn:Ht; [ | exact Hb].
  intro E. subst a. discriminate.
Qed.

Lemma new_api_error :
  forall body : JsVal,
    new_ApiException (js_or (prop body "error") (JStr "API Error"))
      (prop body "status") (prop body "code") (JSON_stringify_val body)
    = match error_text body with
      | Normal message => Normal (api_error_of body message)
      | Throws e => Throws e
      end.
Proof.
  intro body. unfold new_ApiException, error_text, api_error_of.
  assert (H : js_or (prop body "error") (JStr "API Error") <> JUndefined)
    by (apply js_or_defined; discriminate).
  destruct (js_or (prop body "error") (JStr "API Error"));
    try contradiction; cbn [bind Monad_Completion];
    match goal with
    | |- context [js_String ?v] => destruct (js_String v); reflexivity
    end.
Qed.

Lemma new_request_failed :
  forall m : string,
    new_ApiException (JStr ("Request failed: " ++ m)) (JNum 500)
      (JStr "REQUEST_FAILED") (JStr m)
    = Normal (request_failed m).
Proof. reflexivity. Qed.

(** The try/catch of [_request], run: one request is sent, and the method
    completes as [settle] tells on the server's answer. *)
Lemma post_json_run :
  forall (S : Type) (url : string) (data : JsVal) (s : Env S),
    post_json url data s
    = (settle (server s (sent s) (post url data)), after s (post url data)).
Proof.
  intros S u d s.
  unfold post_json, after, fetch_json, settle, declares_failure.
  cbn [catch Exc_Async bind Monad_Async].
  destruct (server s (sent s) (post u d)) as [m | m | v];
    cbn [instanceof_ApiException TypeError SyntaxError error_message lift
         raise Exc_Async bind Monad_Async];
    try (rewrite new_request_failed; reflexivity).
  destruct (Get v "status") as [status | e] eqn:Hstatus;
    cbn [bind Monad_Completion].
  2:{ destruct v; cbn in Hstatus; try discriminate; inversion Hstatus;
        reflexivity. }
  assert (Hnn : Get v "error" = Normal (prop v "error")
                /\ Get v "code" = Normal (prop v "code")
                /\ prop v "status" = status).
  { unfold prop. rewrite Hstatus.
    destruct v; cbn in *; try discriminate; auto. }
  destruct Hnn as (Herror & Hcode & Hst).
  destruct (truthy status); cbn [ret Monad_Async]; [ | reflexivity].
  cbn [bind Monad_Completion].
  destruct (js_ge status 400) as [[ | ] | e] eqn:Hge;
    cbn [bind Monad_Completion]; [ | reflexivity | ].
  - rewrite Herror, Hcode. cbn [bind Monad_Completion].
    rewrite <- Hst, new_api_error.
    destruct (error_text v) as [message | e] eqn:He; cbn; [reflexivity |].
    rewrite (js_String_throws _ _ He). reflexivity.
  - rewrite (js_ge_throws _ _ _ Hge). reflexivity.
Qed.

Lemma request_closed :
  forall (f : Facade) (endpoint : string) (data : JsVal) (s : Env (Self f)),
    request f endpoint data s
    = (settle (server s (sent s)
                 (post (endpoint_url f (this s) endpoint)
                    (default_param data (JObj [])))),
       after s (post (endpoint_url f (this s) endpoint)
                  (default_param data (JObj [])))).
Proof.
  intros f e d s. rewrite <- post_json_run. destruct f; reflexivity.
Qed.

Lemma request_settles :
  forall (f : Facade) (endpoint : string) (data : JsVal) (s : Env (Self f)),
    exists r : FetchRequest,
      request f endpoint data s = (settle (server s (sent s) r), after s r).
Proof.
  intros f e d s. rewrite request_closed. eexists; reflexivity.
Qed.

(** A method that is one request completes as [settle] tells on the answer
    it got. *)
Lemma settled :
  forall (S : Type) (m : Async S JsVal) (s : Env S) (r : FetchRequest)
         (res : FetchResult),
    m s = (settle (server s (sent s) r), after s r) ->
    answered m s res ->
    fst (m s) = settle res.
Proof.
  intros S m s r res Hm (r' & Hs & Hres). rewrite Hm in Hs |- *. cbn in *.
  apply after_inj in Hs. subst r'. rewrite Hres. reflexivity.
Qed.

Lemma settle_throws_api :
  forall (res : FetchResult) (e : JsError),
    settle res = Throws e -> instanceof_ApiException e = true.
Proof.
  intros res e H. unfold settle in H.
  destruct res as [m | m | v]; try (inversion H; reflexivity).
  destruct (declares_failure v) as [[ | ] | e']; try (inversion H; reflexivity).
  destruct (error_text v); inversion H; reflexivity.
Qed.


Lemma settle_Normal_not_nullish :
  forall (res : FetchResult) (v : JsVal),
    settle res = Normal v -> nullish v = false.
Proof.
  intros res v H. unfold settle, declares_failure in H.
  destruct res as [m | m | b]; try discriminate.
  destruct (Get b "status") as [st | e] eqn:Hst; [ | discriminate].
  assert (Hb : nullish b = false)
    by (destruct b; cbn in Hst; try discriminate; reflexivity).
  cbn [bind Monad_Completion] in H.
  destruct (if truthy st then js_ge st 400 else Normal false)
    as [[ | ] | e]; try discriminate.
  - destruct (error_text b); discriminate.
  - inversion H; subst. exact Hb.
Qed.

(** A body that is JSON [null] has no [status] to read: the [TypeError]
    of the read is caught and wrapped like a transport failure. *)
Lemma null_body_is_wrapped :
  settle (JsonBody JNull)
  = Throws (ApiError
      (request_failed "Cannot read properties of null (reading 'status')")).
Proof. reflexivity. Qed.



(** ** Every operation is one request *)

Lemma logLLM_run :
  forall (options : JsVal) (s : Env ERC3.t),
    nullish options = false ->
    nullish (prop options "usage") = false ->
    ERC3.logLLM options s
    = ERC3._request "/tasks/log"
        (JObj [("task_id", prop options "taskId");
               ("model", prop options "model");
               ("usage", normalized_usage (prop options "usage"));
               ("duration_sec", prop options "durationSec")]) s.
Proof.
  intros options s Ho Hu. unfold ERC3.logLLM.
  cbn [bind Monad_Async lift].
  rewrite (destructurable_ok _ _ Ho), !(Get_prop options _ Ho).
  cbn [bind Monad_Completion].
  rewrite !(Get_prop _ _ Hu). cbn [bind Monad_Completion].
  rewrite !or_else_Normal. reflexivity.
Qed.

Lemma logLLM_sends :
  forall (options : JsVal) (s : Env ERC3.t),
    nullish options = false ->
    nullish (prop options "usage") = false ->
    snd (ERC3.logLLM options s)
    = after s (post (ToString (ERC3.baseUrl (this s)) ++ "/tasks/log")
                 (JObj [("task_id", prop options "taskId");
                        ("model", prop options "model");
                        ("usage", normalized_usage (prop options "usage"));
                        ("duration_sec", prop options "durationSec")])).
Proof.
  intros options s Ho Hu. rewrite (logLLM_run _ _ Ho Hu).
  match goal with
  | |- context [ERC3._request ?e ?d s] =>
      change (ERC3._request e d s) with (request Core e d s)
  end.
  rewrite request_closed. reflexivity.
Qed.

Lemma listProducts_run :
  forall (options : JsVal) (s : Env StoreClient.t),
    is_null options = false ->
    StoreClient.listProducts options s
    = StoreClient._request "/products/list"
        (JObj (("tool", JStr "/products/list")
                 :: StoreClient.parameters (StoreClient.ListProducts options))) s.
Proof.
  intros options s Hn. unfold StoreClient.listProducts.
  assert (Ho : nullish (default_param options (JObj [])) = false)
    by (destruct options; cbn in *; congruence).
  cbn [bind Monad_Async lift].
  rewrite (destructurable_ok _ _ Ho), !(Get_prop _ _ Ho). reflexivity.
Qed.

Lemma invoke_one_request :
  forall (f : Facade) (c : Call f) (s : Env (Self f)),
    accepts f c = true ->
    exists (endpoint : string) (data : JsVal),
      invoke f c s = request f endpoint data s.
Proof.
  intros f c s Hc. destruct f; destruct c; cbn in Hc;
    cbn [invoke request ERC3.invoke StoreClient.invoke DemoClient.invoke];
    try (do 2 eexists; reflexivity).
  - apply negb_true_iff in Hc. unfold ERC3.startSession.
    cbn [bind Monad_Async lift].
    rewrite (destructurable_ok _ _ Hc), !(Get_prop _ _ Hc).
    do 2 eexists; reflexivity.
  - apply negb_true_iff in Hc. unfold ERC3.startTask.
    cbn [bind Monad_Async lift]. rewrite (task_id_of_ok _ Hc).
    do 2 eexists; reflexivity.
  - apply negb_true_iff in Hc. unfold ERC3.completeTask.
    cbn [bind Monad_Async lift]. rewrite (task_id_of_ok _ Hc).
    do 2 eexists; reflexivity.
  - apply andb_true_iff in Hc. destruct Hc as [Ho Hu].
    apply negb_true_iff in Ho, Hu.
    rewrite (logLLM_run _ _ Ho Hu). do 2 eexists; reflexivity.
  - apply negb_true_iff in Hc. rewrite (listProducts_run _ _ Hc).
    do 2 eexists; reflexivity.
  - unfold DemoClient.submitAnswer, js_String. rewrite Hc.
    cbn [bind Monad_Async lift]. do 2 eexists; reflexivity.
Qed.

Lemma invoke_settles :
  forall (f : Facade) (c : Call f) (s : Env (Self f)),
    accepts f c = true ->
    exists r : FetchRequest,
      invoke f c s = (settle (server s (sent s) r), after s r).
Proof.
  intros f c s Hc. destruct (invoke_one_request f c s Hc) as (e & d & H).
  rewrite H. apply request_settles.
Qed.

(** ** Error translation *)






(** ** Task identifiers and task views *)

(** C4.  For every identifier [X] and every object whose [task_id] is [X]:
    both forms resolve to [X]; [startTask] and [completeTask] run alike on
    the two forms; and the request they send goes to [/tasks/start] and
    [/tasks/complete] with the body [{task_id: X}], which is
    [{"task_id":"X"}] on the wire. *)
Theorem task_argument_forms_agree :
  forall (X : string) (task : list (string * JsVal)) (s : Env ERC3.t),
    field "task_id" task = JStr X ->
    ERC3.task_id_of (JStr X) = Normal (JStr X)
    /\ ERC3.task_id_of (JObj task) = Normal (JStr X)
    /\ ERC3.startTask (JObj task) s = ERC3.startTask (JStr X) s
    /\ ERC3.completeTask (JObj task) s = ERC3.completeTask (JStr X) s
    /\ snd (ERC3.startTask (JStr X) s)
       = after s (post (ToString (ERC3.baseUrl (this s)) ++ "/tasks/start")
                    (JObj [("task_id", JStr X)]))
    /\ snd (ERC3.completeTask (JStr X) s)
       = after s (post (ToString (ERC3.baseUrl (this s)) ++ "/tasks/complete")
                    (JObj [("task_id", JStr X)]))
    /\ (forall url : string,
           body (post url (JObj [("task_id", JStr X)]))
           = Some ("{" ++ QuoteJSONString "task_id" ++ ":" ++
                   QuoteJSONString X ++ "}")).
Proof.
  intros X task s H.
  assert (Ho : ERC3.task_id_of (JObj task) = Normal (JStr X))
    by (cbn; rewrite H; reflexivity).
  repeat match goal with |- _ /\ _ => split end;
    try assumption; try reflexivity.
  - unfold ERC3.startTask. cbn [bind Monad_Async lift]. rewrite Ho. reflexivity.
  - unfold ERC3.completeTask. cbn [bind Monad_Async lift]. rewrite Ho.
    reflexivity.
  - change (ERC3.startTask (JStr X) s)
      with (request Core "/tasks/start" (JObj [("task_id", JStr X)]) s).
    rewrite request_closed. reflexivity.
  - change (ERC3.completeTask (JStr X) s)
      with (request Core "/tasks/complete" (JObj [("task_id", JStr X)]) s).
    rewrite request_closed. reflexivity.
Qed.

(** C4, witness: the task [{task_id: 't1', status: 'new'}] and the bare
    ['t1']. *)
Lemma task_argument_forms_agree_witness :
  ERC3.startTask (JObj Sample.task)
    (Build_Env Sample.core (Sample.always (JsonBody (JObj []))) [])
  = ERC3.startTask (JStr "t1")
      (Build_Env Sample.core (Sample.always (JsonBody (JObj []))) [])
  /\ snd (ERC3.completeTask (JStr "t1")
            (Build_Env Sample.core (Sample.always (JsonBody (JObj []))) []))
     = Build_Env Sample.core (Sample.always (JsonBody (JObj [])))
         [post "https://erc.example/tasks/complete"
            (JObj [("task_id", JStr "t1")])].
Proof.
  pose proof (task_argument_forms_agree "t1" Sample.task
                (Build_Env Sample.core (Sample.always (JsonBody (JObj []))) [])
                eq_refl) as H.
  split; [exact (proj1 (proj2 (proj2 H))) |].
  exact (proj1 (proj2 (proj2 (proj2 (proj2 (proj2 H)))))).
Defined.

(** C9.  [viewTask(taskId, since)] sends one request to [/tasks/view].
    When [since] is given (neither [null] nor left out) its body is exactly
    [{task_id, since}]; otherwise its body is exactly [{task_id}] and has no
    [since] property at all. *)
Theorem viewTask_since_optional :
  forall (taskId since : JsVal) (s : Env ERC3.t),
    exists r : FetchRequest,
      snd (ERC3.viewTask taskId since s) = after s r
      /\ url r = ToString (ERC3.baseUrl (this s)) ++ "/tasks/view"
      /\ (nullish since = false ->
          data r = JObj [("task_id", taskId); ("since", since)])
      /\ (nullish since = true ->
          data r = JObj [("task_id", taskId)]
          /\ lookup "since" (own_enumerable (data r)) = None).
Proof.
  intros taskId since s. unfold ERC3.viewTask.
  match goal with
  | |- context [ERC3._request ?e ?d s] =>
      change (ERC3._request e d s) with (request Core e d s)
  end.
  eexists. rewrite request_closed. split; [reflexivity |].
  split; [reflexivity |].
  destruct since; cbn; split; intro H; try discriminate; try reflexivity;
    split; reflexivity.
Qed.

(** C9, witness: [viewTask('t1', 1700000000)] and [viewTask('t1')]. *)
Lemma viewTask_since_optional_witness :
  (exists r : FetchRequest,
      snd (ERC3.viewTask (JStr "t1") (JNum 1700000000)
             (Build_Env Sample.core (Sample.always (JsonBody (JObj []))) []))
      = Build_Env Sample.core (Sample.always (JsonBody (JObj []))) [r]
      /\ data r = JObj [("task_id", JStr "t1"); ("since", JNum 1700000000)])
  /\ (exists r : FetchRequest,
         snd (ERC3.viewTask (JStr "t1") JUndefined
                (Build_Env Sample.core (Sample.always (JsonBody (JObj []))) []))
         = Build_Env Sample.core (Sample.always (JsonBody (JObj []))) [r]
         /\ data r = JObj [("task_id", JStr "t1")]).
Proof.
  split.
  - destruct (viewTask_since_optional (JStr "t1") (JNum 1700000000)
                (Build_Env Sample.core (Sample.always (JsonBody (JObj []))) []))
      as (r & Hs & _ & Hgiven & _).
    exists r. split; [exact Hs | exact (Hgiven eq_refl)].
  - destruct (viewTask_since_optional (JStr "t1") JUndefined
                (Build_Env Sample.core (Sample.always (JsonBody (JObj []))) []))
      as (r & Hs & _ & _ & Hleft).
    exists r. split; [exact Hs | exact (proj1 (Hleft eq_refl))].
Defined.

(** ** Usage logging *)

(** C3, as amended.  [logLLM], given options and a usage that are objects,
    sends one request to [/tasks/log] whose body is
    [{task_id, model, usage, duration_sec}]: [task_id] and [duration_sec]
    are the caller's [taskId] and [durationSec]; the usage holds exactly
    [prompt_tokens], [completion_tokens] and [total_tokens];
    [prompt_tokens] is the caller's [prompt_tokens] when truthy, else the
    caller's [input_tokens] when truthy, else [0]; [completion_tokens]
    likewise from [completion_tokens] and [output_tokens]; [total_tokens]
    is the caller's [total_tokens] when truthy and [0] otherwise (it is not
    computed from the other two). *)
Theorem logLLM_normalizes_usage :
  forall (options : JsVal) (s : Env ERC3.t),
    nullish options = false ->
    nullish (prop options "usage") = false ->
    exists (r : FetchRequest) (prompt completion total : JsVal),
      snd (ERC3.logLLM options s) = after s r
      /\ url r = ToString (ERC3.baseUrl (this s)) ++ "/tasks/log"
      /\ data r = JObj [("task_id", prop options "taskId");
                        ("model", prop options "model");
                        ("usage", JObj [("prompt_tokens", prompt);
                                        ("completion_tokens", completion);
                                        ("total_tokens", total)]);
                        ("duration_sec", prop options "durationSec")]
      /\ prompt = first_truthy [prop (prop options "usage") "prompt_tokens";
                                prop (prop options "usage") "input_tokens"]
      /\ completion
         = first_truthy [prop (prop options "usage") "completion_tokens";
                         prop (prop options "usage") "output_tokens"]
      /\ total = first_truthy [prop (prop options "usage") "total_tokens"].
Proof.
  intros options s Ho Hu. do 4 eexists.
  rewrite (logLLM_sends _ _ Ho Hu).
  split; [reflexivity |]. split; [reflexivity |]. split; [reflexivity |].
  unfold first_truthy, js_or.
  repeat match goal with |- _ /\ _ => split end;
    repeat match goal with |- context [truthy ?v] => destruct (truthy v) end;
    reflexivity.
Qed.

(** C3, witness: a usage in the second naming, with zeroes in the first. *)
Lemma logLLM_normalizes_usage_witness :
  exists r : FetchRequest,
    snd (ERC3.logLLM Sample.log_second_naming
           (Build_Env Sample.core (Sample.always (JsonBody (JObj []))) []))
    = Build_Env Sample.core (Sample.always (JsonBody (JObj []))) [r]
    /\ url r = "https://erc.example/tasks/log"
    /\ data r = JObj [("task_id", JStr "t1");
                      ("model", JStr "claude");
                      ("usage", JObj [("prompt_tokens", JNum 120);
                                      ("completion_tokens", JNum 30);
                                      ("total_tokens", JNum 0)]);
                      ("duration_sec", JNum 3)].
Proof.
  destruct (logLLM_normalizes_usage Sample.log_second_naming
              (Build_Env Sample.core (Sample.always (JsonBody (JObj []))) [])
              eq_refl eq_refl)
    as (r & p & c & t & Hs & Hu & Hd & Hp & Hc & Ht).
  exists r. split; [exact Hs |]. split; [exact Hu |].
  rewrite Hd, Hp, Hc, Ht. reflexivity.
Defined.

(** C3, counterexample: a usage of 100 prompt and 50 completion tokens
    with no [total_tokens].  The total that is sent is [0], not their
    sum. *)
Lemma logLLM_total_is_not_computed :
  exists r : FetchRequest,
    snd (ERC3.logLLM Sample.log_no_total
           (Build_Env Sample.core (Sample.always (JsonBody (JObj []))) []))
    = Build_Env Sample.core (Sample.always (JsonBody (JObj []))) [r]
    /\ prop (data r) "usage"
       = JObj [("prompt_tokens", JNum 100);
               ("completion_tokens", JNum 50);
               ("total_tokens", JNum 0)]
    /\ prop (prop (data r) "usage") "total_tokens" <> JNum (100 + 50).
Proof.
  eexists. split; [reflexivity |]. split; [reflexivity | discriminate].
Qed.

(** C10.  In the usage [logLLM] sends, a count of [0] is treated like a
    missing one: when [prompt_tokens] is [0] or missing and [input_tokens]
    is a number other than [0], the [prompt_tokens] sent is
    [input_tokens]; likewise [completion_tokens] falls back to
    [output_tokens]; and a [total_tokens] of [0] or missing is sent as
    [0]. *)
Theorem zero_token_counts_fall_back :
  forall (options : JsVal) (usage : list (string * JsVal)) (s : Env ERC3.t),
    nullish options = false ->
    prop options "usage" = JObj usage ->
    exists (r : FetchRequest) (sent_usage : list (string * JsVal)),
      snd (ERC3.logLLM options s) = after s r
      /\ prop (data r) "usage" = JObj sent_usage
      /\ (forall n : Z,
             zero_or_missing (field "prompt_tokens" usage) ->
             field "input_tokens" usage = JNum n -> n <> 0%Z ->
             field "prompt_tokens" sent_usage = JNum n)
      /\ (forall n : Z,
             zero_or_missing (field "completion_tokens" usage) ->
             field "output_tokens" usage = JNum n -> n <> 0%Z ->
             field "completion_tokens" sent_usage = JNum n)
      /\ (zero_or_missing (field "total_tokens" usage) ->
          field "total_tokens" sent_usage = JNum 0).
Proof.
  intros options usage s Ho Hu.
  assert (Hn : nullish (prop options "usage") = false)
    by (rewrite Hu; reflexivity).
  do 2 eexists. rewrite (logLLM_sends _ _ Ho Hn). rewrite Hu.
  split; [reflexivity |]. split; [reflexivity |].
  cbn [prop Get normalized_usage].
  repeat match goal with |- _ /\ _ => split end.
  - intros n Hz Hi Hnz. cbn. rewrite Hi.
    assert (Hf : truthy (field "prompt_tokens" usage) = false)
      by (destruct Hz as [-> | ->]; reflexivity).
    unfold js_or. rewrite Hf. cbn.
    apply Z.eqb_neq in Hnz. rewrite Hnz. reflexivity.
  - intros n Hz Hi Hnz. cbn. rewrite Hi.
    assert (Hf : truthy (field "completion_tokens" usage) = false)
      by (destruct Hz as [-> | ->]; reflexivity).
    unfold js_or. rewrite Hf. cbn.
    apply Z.eqb_neq in Hnz. rewrite Hnz. reflexivity.
  - intros Hz. cbn.
    assert (Hf : truthy (field "total_tokens" usage) = false)
      by (destruct Hz as [-> | ->]; reflexivity).
    unfold js_or. rewrite Hf. reflexivity.
Qed.

(** C10, witness: [prompt_tokens: 0] with [input_tokens: 120], no
    [completion_tokens] with [output_tokens: 30], and [total_tokens: 0]. *)
Lemma zero_token_counts_fall_back_witness :
  exists (r : FetchRequest) (sent_usage : list (string * JsVal)),
    snd (ERC3.logLLM Sample.log_second_naming
           (Build_Env Sample.core (Sample.always (JsonBody (JObj []))) []))
    = Build_Env Sample.core (Sample.always (JsonBody (JObj []))) [r]
    /\ prop (data r) "usage" = JObj sent_usage
    /\ field "prompt_tokens" sent_usage = JNum 120
    /\ field "completion_tokens" sent_usage = JNum 30
    /\ field "total_tokens" sent_usage = JNum 0.
Proof.
  destruct (zero_token_counts_fall_back Sample.log_second_naming
              [("prompt_tokens", JNum 0); ("input_tokens", JNum 120);
               ("output_tokens", JNum 30); ("total_tokens", JNum 0)]
              (Build_Env Sample.core (Sample.always (JsonBody (JObj []))) [])
              eq_refl eq_refl)
    as (r & u & Hs & Hu & Hp & Hc & Ht).
  exists r, u. split; [exact Hs |]. split; [exact Hu |].
  split; [ | split ].
  - apply (Hp 120%Z); [left; reflexivity | reflexivity | discriminate].
  - apply (Hc 30%Z); [right; reflexivity | reflexivity | discriminate].
  - apply Ht. left; reflexivity.
Defined.

(** ** Tool dispatch and the store wire contract *)

(** C5.  For every request object: when its [tool] is one of the seven
    store tools, [StoreClient.dispatch] runs exactly as the method of that
    name called with the fields of the request ([listProducts] with
    [{offset, limit}] taken from it, which is also [listProducts] of the
    request itself); when it is one of the two demo tools,
    [DemoClient.dispatch] runs exactly as [getSecret] or [submitAnswer];
    the methods apply their own defaults to fields that are missing.  For
    any other [tool], [dispatch] throws [Error('Unknown tool: ...')], which
    is no [ApiException], and leaves the state as it was: no request is
    sent. *)
Theorem dispatch_routes :
  forall (request : list (string * JsVal)),
    (forall s : Env StoreClient.t,
        (field "tool" request = JStr "/products/list" ->
         StoreClient.dispatch (JObj request) s
         = StoreClient.listProducts
             (JObj [("offset", field "offset" request);
                    ("limit", field "limit" request)]) s
         /\ StoreClient.dispatch (JObj request) s
            = StoreClient.listProducts (JObj request) s)
        /\ (field "tool" request = JStr "/basket/view" ->
            StoreClient.dispatch (JObj request) s = StoreClient.viewBasket s)
        /\ (field "tool" request = JStr "/basket/add" ->
            StoreClient.dispatch (JObj request) s
            = StoreClient.addToBasket (field "sku" request)
                (field "quantity" request) s)
        /\ (field "tool" request = JStr "/basket/remove" ->
            StoreClient.dispatch (JObj request) s
            = StoreClient.removeFromBasket (field "sku" request)
                (field "quantity" request) s)
        /\ (field "tool" request = JStr "/basket/checkout" ->
            StoreClient.dispatch (JObj request) s = StoreClient.checkout s)
        /\ (field "tool" request = JStr "/coupon/apply" ->
            StoreClient.dispatch (JObj request) s
            = StoreClient.applyCoupon (field "coupon" request) s)
        /\ (field "tool" request = JStr "/coupon/remove" ->
            StoreClient.dispatch (JObj request) s = StoreClient.removeCoupon s)
        /\ (unrecognized store_tools (field "tool" request) ->
            StoreClient.dispatch (JObj request) s
            = (Throws (Error ("Unknown tool: " ++
                              ToString (field "tool" request))), s)))
    /\ (forall s : Env DemoClient.t,
           (field "tool" request = JStr "/secret" ->
            DemoClient.dispatch (JObj request) s = DemoClient.getSecret s)
           /\ (field "tool" request = JStr "/answer" ->
               DemoClient.dispatch (JObj request) s
               = DemoClient.submitAnswer (field "answer" request) s)
           /\ (unrecognized demo_tools (field "tool" request) ->
               DemoClient.dispatch (JObj request) s
               = (Throws (Error ("Unknown tool: " ++
                                 ToString (field "tool" request))), s)))
    /\ (forall m : string, instanceof_ApiException (Error m) = false).
Proof.
  intro request. split; [ | split ].
  - intro s. unfold StoreClient.dispatch. cbn [bind Monad_Async lift Get].
    repeat match goal with |- _ /\ _ => split end;
      try (intros ->; try split; reflexivity).
    intro Hun.
    rewrite !strict_eq_str_false by (apply Hun; cbn; tauto). reflexivity.
  - intro s. unfold DemoClient.dispatch. cbn [bind Monad_Async lift Get].
    repeat match goal with |- _ /\ _ => split end;
      try (intros ->; try split; reflexivity).
    intro Hun.
    rewrite !strict_eq_str_false by (apply Hun; cbn; tauto). reflexivity.
  - reflexivity.
Qed.

(** C5, witness: [{tool: '/basket/add', sku: 'gpu-h100'}] is
    [addToBasket('gpu-h100')], and [{tool: '/nope'}] is refused by the demo
    client with nothing sent. *)
Lemma dispatch_routes_witness :
  StoreClient.dispatch
    (JObj [("tool", JStr "/basket/add"); ("sku", JStr "gpu-h100")])
    (Build_Env Sample.store (Sample.always (JsonBody (JObj []))) [])
  = StoreClient.addToBasket (JStr "gpu-h100") JUndefined
      (Build_Env Sample.store (Sample.always (JsonBody (JObj []))) [])
  /\ DemoClient.dispatch (JObj [("tool", JStr "/nope")])
       (Build_Env Sample.demo (Sample.always (JsonBody (JObj []))) [])
     = (Throws (Error "Unknown tool: /nope"),
        Build_Env Sample.demo (Sample.always (JsonBody (JObj []))) []).
Proof.
  split.
  - exact (proj1 (proj2 (proj2
             (proj1 (dispatch_routes
                       [("tool", JStr "/basket/add"); ("sku", JStr "gpu-h100")])
                (Build_Env Sample.store
                   (Sample.always (JsonBody (JObj []))) []))))
             eq_refl).
  - refine (proj2 (proj2
              (proj1 (proj2 (dispatch_routes [("tool", JStr "/nope")]))
                 (Build_Env Sample.demo
                    (Sample.always (JsonBody (JObj []))) [])))
              _).
    intros name [<- | [<- | []]]; discriminate.
Defined.

(** C6.  For a store client built on the base URL [base] and the task
    [task], every operation whose arguments it accepts sends one request:
    a POST to [base ++ "/store/" ++ task ++ path], with [path] the
    operation's path, whose body is the [tool] field, equal to that path,
    followed by the operation's own parameters. *)
Theorem store_wire_contract :
  forall (base task : string) (srv : Server) (hist : list FetchRequest)
         (c : StoreClient.Call),
    StoreClient.accepts c = true ->
    exists r : FetchRequest,
      snd (StoreClient.invoke c
             (Build_Env (StoreClient.constructor (JStr base) (JStr task))
                srv hist))
      = Build_Env (StoreClient.constructor (JStr base) (JStr task))
          srv (hist ++ [r])%list
      /\ method r = "POST"
      /\ url r = base ++ "/store/" ++ task ++ StoreClient.path c
      /\ data r = JObj (("tool", JStr (StoreClient.path c))
                          :: StoreClient.parameters c)
      /\ prop (data r) "tool" = JStr (StoreClient.path c).
Proof.
  intros base task srv hist c Hc.
  set (s := Build_Env (StoreClient.constructor (JStr base) (JStr task)) srv hist).
  assert (H : StoreClient.invoke c s
              = request Store (StoreClient.path c)
                  (JObj (("tool", JStr (StoreClient.path c))
                           :: StoreClient.parameters c)) s).
  { destruct c; try reflexivity.
    cbn in Hc. apply negb_true_iff in Hc.
    apply (listProducts_run _ _ Hc). }
  rewrite H, request_closed. eexists. split; [reflexivity |].
  repeat match goal with |- _ /\ _ => split end; reflexivity.
Qed.

(** C6, witness: [addToBasket('gpu-h100')] on the task [t1]. *)
Lemma store_wire_contract_witness :
  exists r : FetchRequest,
    snd (StoreClient.addToBasket (JStr "gpu-h100") JUndefined
           (Build_Env Sample.store (Sample.always (JsonBody (JObj []))) []))
    = Build_Env Sample.store (Sample.always (JsonBody (JObj []))) [r]
    /\ method r = "POST"
    /\ url r = "https://erc.example/store/t1/basket/add"
    /\ data r = JObj [("tool", JStr "/basket/add");
                      ("sku", JStr "gpu-h100");
                      ("quantity", JNum 1)]
    /\ prop (data r) "tool" = JStr "/basket/add".
Proof.
  exact (store_wire_contract "https://erc.example" "t1"
           (Sample.always (JsonBody (JObj []))) []
           (StoreClient.AddToBasket (JStr "gpu-h100") JUndefined) eq_refl).
Defined.

(** ** Client configuration *)

Lemma constructor_run :
  forall (key : option string) (options : JsVal),
    is_null options = false ->
    ERC3.constructor key options
    = if truthy (configured_key key options)
      then Normal {| ERC3.apiKey := configured_key key options;
                     ERC3.baseUrl := configured_url options |}
      else Throws (Error
        "API key is required. Set ERC3_API_KEY env var or pass apiKey option.").
Proof.
  intros key options Hn.
  unfold ERC3.constructor, configured_key, configured_url.
  assert (Ho : nullish (default_param options (JObj [])) = false)
    by (destruct options; cbn in *; congruence).
  rewrite !(Get_prop _ _ Ho). cbn [bind Monad_Completion].
  destruct (truthy _); reflexivity.
Qed.

Lemma request_keeps_this :
  forall (f : Facade) (endpoint : string) (data : JsVal) (s : Env (Self f)),
    this (snd (request f endpoint data s)) = this s.
Proof.
  intros. rewrite request_closed. reflexivity.
Qed.

(** C8.  Constructing the core client throws when no API key is
    configured, neither by the [apiKey] option nor by the environment
    variable [ERC3_API_KEY]: with options that are not [null] it throws
    [Error('API key is required. ...')].  A client that is constructed
    holds that key, which is truthy, and the [baseUrl] option, or the
    production host [https://erc.timetoact-group.at] when the option is not
    supplied.  No operation of the client changes the object it is called
    on: the configuration after a call is the configuration before it. *)
Theorem configuration_fixed_at_construction :
  (forall (key : option string) (options : JsVal),
      truthy (configured_key key options) = false ->
      exists e : JsError, ERC3.constructor key options = Throws e)
  /\ (forall (key : option string) (options : JsVal),
         is_null options = false ->
         truthy (configured_key key options) = false ->
         ERC3.constructor key options
         = Throws (Error
             "API key is required. Set ERC3_API_KEY env var or pass apiKey option."))
  /\ (forall (key : option string) (options : JsVal) (c : ERC3.t),
         ERC3.constructor key options = Normal c ->
         ERC3.apiKey c = configured_key key options
         /\ truthy (ERC3.apiKey c) = true
         /\ ERC3.baseUrl c = configured_url options
         /\ (truthy (prop (default_param options (JObj [])) "baseUrl") = false ->
             ERC3.baseUrl c = JStr "https://erc.timetoact-group.at"))
  /\ (forall (call : ERC3.Call) (s : Env ERC3.t),
         this (snd (ERC3.invoke call s)) = this s)
  /\ (forall (taskOrId : JsVal) (s : Env ERC3.t),
         snd (ERC3.getStoreClient taskOrId s) = s
         /\ snd (ERC3.getDemoClient taskOrId s) = s).
Proof.
  repeat match goal with |- _ /\ _ => split end.
  - intros key options Hk. destruct (is_null options) eqn:Hn.
    + destruct options; try discriminate. eexists; reflexivity.
    + rewrite (constructor_run _ _ Hn), Hk. eexists; reflexivity.
  - intros key options Hn Hk. rewrite (constructor_run _ _ Hn), Hk. reflexivity.
  - intros key options c Hc. destruct (is_null options) eqn:Hn.
    + destruct options; discriminate.
    + rewrite (constructor_run _ _ Hn) in Hc.
      destruct (truthy (configured_key key options)) eqn:Hk; inversion Hc.
      cbn. repeat match goal with |- _ /\ _ => split end; try reflexivity.
      * exact Hk.
      * intro Hf. unfold configured_url, js_or. rewrite Hf. reflexivity.
  - intros call s.
    pose proof (request_keeps_this Core) as Hr. cbn [Self request] in Hr.
    destruct call; cbn [ERC3.invoke];
      try (apply Hr);
      unfold ERC3.startSession, ERC3.searchSessions, ERC3.startTask,
        ERC3.completeTask, ERC3.logLLM;
      repeat (first [ apply Hr
                    | apply lift_bind_keeps; intros
                    | progress cbn [bind Monad_Async get_this] ]).
  - intros taskOrId s. unfold ERC3.getStoreClient, ERC3.getDemoClient. cbn.
    destruct (ERC3.task_id_of taskOrId); split; reflexivity.
Qed.

(** C8, witness: [new ERC3({})] with no environment variable throws;
    [new ERC3({})] with [ERC3_API_KEY=key-1] has the production host; and
    [submitSession('s1')] leaves the client as it was. *)
Lemma configuration_fixed_at_construction_witness :
  ERC3.constructor None (JObj [])
  = Throws (Error
      "API key is required. Set ERC3_API_KEY env var or pass apiKey option.")
  /\ (exists c : ERC3.t,
         ERC3.constructor (Some "key-1") (JObj []) = Normal c
         /\ ERC3.apiKey c = JStr "key-1"
         /\ ERC3.baseUrl c = JStr "https://erc.timetoact-group.at")
  /\ this (snd (ERC3.submitSession (JStr "s1")
                  (Build_Env Sample.core
                     (Sample.always (JsonBody (JObj []))) [])))
     = Sample.core.
Proof.
  destruct configuration_fixed_at_construction
    as (_ & Hthrow & Hmade & Hkeeps & _).
  split; [exact (Hthrow None (JObj []) eq_refl eq_refl) |].
  split.
  - exists {| ERC3.apiKey := JStr "key-1";
              ERC3.baseUrl := JStr "https://erc.timetoact-group.at" |}.
    split; [reflexivity |].
    pose proof (Hmade (Some "key-1") (JObj []) _ eq_refl) as (Hk & _ & _ & Hurl).
    split; [exact Hk | exact (Hurl eq_refl)].
  - exact (Hkeeps (ERC3.SubmitSession (JStr "s1"))
             (Build_Env Sample.core (Sample.always (JsonBody (JObj []))) [])).
Defined.

(** ** Pagination *)









(** * Further properties *)

(** ** The key helper *)

(** X1.  [getApiKey] sends one POST to [{baseUrl}/get_key] (the
    production host when no base URL is given) with the body [{email}], and
    has none of the guards of the clients' [_request]: whatever JSON the
    server answers is returned as it is, with no look at a [status] field,
    a network failure or a body that is no JSON is thrown as the engine's
    own error, and nothing it throws is an [ApiException]. *)
Theorem getApiKey_is_unguarded :
  forall (S : Type) (email baseUrl : JsVal) (s : Env S),
    snd (getApiKey email baseUrl s) = after s (key_request email baseUrl)
    /\ (forall body : JsVal,
           server s (sent s) (key_request email baseUrl) = JsonBody body ->
           fst (getApiKey email baseUrl s) = Normal body)
    /\ (forall m : string,
           server s (sent s) (key_request email baseUrl) = NetworkFailure m ->
           fst (getApiKey email baseUrl s) = Throws (TypeError m))
    /\ (forall m : string,
           server s (sent s) (key_request email baseUrl) = NotJson m ->
           fst (getApiKey email baseUrl s) = Throws (SyntaxError m))
    /\ (forall e : JsError,
           fst (getApiKey email baseUrl s) = Throws e ->
           instanceof_ApiException e = false).
Proof.
  intros S email baseUrl s.
  assert (H : getApiKey email baseUrl s
              = fetch_json (key_request email baseUrl) s) by reflexivity.
  rewrite H. unfold fetch_json.
  destruct (server s (sent s) (key_request email baseUrl)) as [m | m | v];
    cbn [fst snd];
    repeat match goal with |- _ /\ _ => split end;
    try reflexivity; intros; try discriminate;
    repeat match goal with
           | E : _ = _ |- _ => inversion E; clear E; subst
           end;
    reflexivity.
Qed.


(** ** The wire protocol of the core and demo clients *)

Lemma core_invoke_run :
  forall (c : ERC3.Call) (s : Env ERC3.t),
    ERC3.accepts c = true ->
    ERC3.invoke c s
    = request Core (core_path c) (core_body (this s) c) s.
Proof.
  intros c s Hc. destruct c; cbn in Hc; cbn [ERC3.invoke core_path core_body];
    try reflexivity.
  - apply negb_true_iff in Hc. unfold ERC3.startSession.
    cbn [bind Monad_Async lift].
    rewrite (destructurable_ok _ _ Hc), !(Get_prop _ _ Hc). reflexivity.
  - apply negb_true_iff in Hc. unfold ERC3.startTask.
    cbn [bind Monad_Async lift]. rewrite (task_id_of_ok _ Hc). reflexivity.
  - apply negb_true_iff in Hc. unfold ERC3.completeTask.
    cbn [bind Monad_Async lift]. rewrite (task_id_of_ok _ Hc). reflexivity.
  - destruct since; reflexivity.
  - apply andb_true_iff in Hc. destruct Hc as [Ho Hu].
    apply negb_true_iff in Ho, Hu. apply (logLLM_run _ _ Ho Hu).
Qed.

(** X2.  The wire protocol of the core client: each of its ten
    operations, on arguments it can take apart, sends exactly one POST to
    the base URL followed by the operation's path, with the operation's
    body, and completes as the answer settles. *)
Theorem core_wire_contract :
  forall (c : ERC3.Call) (s : Env ERC3.t),
    ERC3.accepts c = true ->
    exists r : FetchRequest,
      snd (ERC3.invoke c s) = after s r
      /\ fst (ERC3.invoke c s) = settle (server s (sent s) r)
      /\ method r = "POST"
      /\ url r = ToString (ERC3.baseUrl (this s)) ++ core_path c
      /\ data r = core_body (this s) c.
Proof.
  intros c s Hc. rewrite (core_invoke_run c s Hc), request_closed.
  eexists. repeat match goal with |- _ /\ _ => split end; try reflexivity.
  destruct c; reflexivity.
Qed.

(** X2, witness: [viewBenchmark('store')] posts [{benchmark: 'store'}]
    to [/benchmarks/view]. *)
Lemma core_wire_contract_witness :
  exists r : FetchRequest,
    snd (ERC3.viewBenchmark (JStr "store")
           (Build_Env Sample.core (Sample.always (JsonBody (JObj []))) []))
    = Build_Env Sample.core (Sample.always (JsonBody (JObj []))) [r]
    /\ url r = "https://erc.example/benchmarks/view"
    /\ data r = JObj [("benchmark", JStr "store")].
Proof.
  destruct (core_wire_contract (ERC3.ViewBenchmark (JStr "store"))
              (Build_Env Sample.core (Sample.always (JsonBody (JObj []))) [])
              eq_refl) as (r & Hs & _ & _ & Hu & Hd).
  exists r. split; [exact Hs |]. split; [exact Hu | exact Hd].
Defined.






(** ** Misuse and odd answers *)

Lemma Get_nullish :
  forall (v : JsVal) (k : string),
    nullish v = true -> exists m : string, Get v k = Throws (TypeError m).
Proof.
  intros v k H. destruct v; try discriminate; eexists; reflexivity.
Qed.

Lemma destructurable_nullish :
  forall (v : JsVal) (k : string),
    nullish v = true ->
    exists m : string, destructurable v k = Throws (TypeError m).
Proof.
  intros v k H. destruct v; try discriminate; eexists; reflexivity.
Qed.

(** X5.  Misuse is refused before anything is sent: an operation called
    on arguments it cannot take apart ([startSession] or [logLLM] with
    [null] or no options object, [listProducts] with [null] for its
    options, [startTask] or [completeTask] with no task, [logLLM] with no
    usage, [submitAnswer] with an answer that has no string), a [dispatch]
    of [null] or [undefined], and a factory called with no task each throw
    a plain [TypeError], not an [ApiException], and leave the list of
    requests as it was. *)
Theorem misuse_throws_before_sending :
  (forall (f : Facade) (c : Call f) (s : Env (Self f)),
      accepts f c = false ->
      exists m : string, invoke f c s = (Throws (TypeError m), s))
  /\ (forall (request : JsVal) (s : Env StoreClient.t),
         nullish request = true ->
         exists m : string,
           StoreClient.dispatch request s = (Throws (TypeError m), s))
  /\ (forall (request : JsVal) (s : Env DemoClient.t),
         nullish request = true ->
         exists m : string,
           DemoClient.dispatch request s = (Throws (TypeError m), s))
  /\ (forall (taskOrId : JsVal) (s : Env ERC3.t),
         nullish taskOrId = true ->
         (exists m : string,
             ERC3.getStoreClient taskOrId s = (Throws (TypeError m), s))
         /\ (exists m : string,
                ERC3.getDemoClient taskOrId s = (Throws (TypeError m), s))).
Proof.
  repeat match goal with |- _ /\ _ => split end.
  - intros f c s Hc. destruct f; destruct c; cbn in Hc; try discriminate;
      cbn [invoke ERC3.invoke StoreClient.invoke].
    + apply negb_false_iff in Hc.
      destruct (destructurable_nullish options "benchmark" Hc) as (m & Hm).
      exists m. unfold ERC3.startSession. cbn [bind Monad_Async lift].
      rewrite Hm. reflexivity.
    + apply negb_false_iff in Hc.
      destruct taskOrId; try discriminate; eexists; reflexivity.
    + apply negb_false_iff in Hc.
      destruct taskOrId; try discriminate; eexists; reflexivity.
    + unfold ERC3.logLLM. cbn [bind Monad_Async lift].
      destruct (nullish options) eqn:Ho.
      * destruct (destructurable_nullish options "taskId" Ho) as (m & Hm).
        exists m. rewrite Hm. reflexivity.
      * cbn in Hc. apply negb_false_iff in Hc.
        rewrite (destructurable_ok _ _ Ho), !(Get_prop options _ Ho).
        cbn [bind Monad_Completion].
        destruct (Get_nullish _ "prompt_tokens" Hc) as (m & Hm).
        exists m. rewrite Hm. reflexivity.
    + apply negb_false_iff in Hc. destruct options; try discriminate.
      eexists; reflexivity.
    + cbn [DemoClient.invoke]. unfold DemoClient.submitAnswer, js_String.
      rewrite Hc. eexists; reflexivity.
  - intros request s H. destruct request; try discriminate; eexists; reflexivity.
  - intros request s H. destruct request; try discriminate; eexists; reflexivity.
  - intros t s H. destruct t; try discriminate; split; eexists; reflexivity.
Qed.

(** X5, witness: [startTask(null)] and [getStoreClient(undefined)]. *)
Lemma misuse_throws_before_sending_witness :
  (exists m : string,
      ERC3.startTask JNull
        (Build_Env Sample.core (Sample.always (JsonBody (JObj []))) [])
      = (Throws (TypeError m),
         Build_Env Sample.core (Sample.always (JsonBody (JObj []))) []))
  /\ (exists m : string,
         ERC3.getStoreClient JUndefined
           (Build_Env Sample.core (Sample.always (JsonBody (JObj []))) [])
         = (Throws (TypeError m),
            Build_Env Sample.core (Sample.always (JsonBody (JObj []))) [])).
Proof.
  split.
  - exact (proj1 misuse_throws_before_sending Core (ERC3.StartTask JNull)
             (Build_Env Sample.core (Sample.always (JsonBody (JObj []))) [])
             eq_refl).
  - exact (proj1 (proj2 (proj2 (proj2 misuse_throws_before_sending))
                    JUndefined
                    (Build_Env Sample.core
                       (Sample.always (JsonBody (JObj []))) [])
                    eq_refl)).
Defined.


Lemma settle_plain :
  forall body : JsVal, plain_value body = true -> settle (JsonBody body) = Normal body.
Proof.
  intros body H. destruct body; try discriminate; reflexivity.
Qed.

(** X6.  Answers that are no JSON object: a body that is JSON [null] makes
    every [_request] and every operation throw the wrapped failure (code
    [REQUEST_FAILED], status 500), since reading its [status] throws inside
    the [try]; a body that is a number, a string, a boolean or an array has
    no [status] and is returned unchanged. *)
Theorem odd_bodies :
  forall f : Facade,
    (forall (endpoint : string) (data : JsVal) (s : Env (Self f)),
        (answered (request f endpoint data) s (JsonBody JNull) ->
         exists m : string,
           fst (request f endpoint data s)
           = Throws (ApiError (request_failed m)))
        /\ (forall body : JsVal,
               plain_value body = true ->
               answered (request f endpoint data) s (JsonBody body) ->
               fst (request f endpoint data s) = Normal body))
    /\ (forall (c : Call f) (s : Env (Self f)),
           accepts f c = true ->
           (answered (invoke f c) s (JsonBody JNull) ->
            exists m : string,
              fst (invoke f c s) = Throws (ApiError (request_failed m)))
           /\ (forall body : JsVal,
                  plain_value body = true ->
                  answered (invoke f c) s (JsonBody body) ->
                  fst (invoke f c s) = Normal body)).
Proof.
  assert (H : forall (S : Type) (m : Async S JsVal) (s : Env S),
             (exists r, m s = (settle (server s (sent s) r), after s r)) ->
             (answered m s (JsonBody JNull) ->
              exists msg, fst (m s) = Throws (ApiError (request_failed msg)))
             /\ (forall body, plain_value body = true ->
                              answered m s (JsonBody body) ->
                              fst (m s) = Normal body)).
  { intros S m s (r & Hr). split.
    - intro Ha. rewrite (settled _ _ _ _ _ Hr Ha). eexists. reflexivity.
    - intros body Hp Ha. rewrite (settled _ _ _ _ _ Hr Ha).
      apply settle_plain, Hp. }
  intro f. split.
  - intros e d s. apply H, request_settles.
  - intros c s Hc. apply H, invoke_settles, Hc.
Qed.

(** X6, witness: the answers [null] and [[]] to [listBenchmarks()]. *)
Lemma odd_bodies_witness :
  (exists m : string,
      fst (ERC3.listBenchmarks
             (Build_Env Sample.core (Sample.always (JsonBody JNull)) []))
      = Throws (ApiError (request_failed m)))
  /\ fst (ERC3.listBenchmarks
            (Build_Env Sample.core (Sample.always (JsonBody (JArr []))) []))
     = Normal (JArr []).
Proof.
  split.
  - refine (proj1 (proj2 (odd_bodies Core) ERC3.ListBenchmarks
                     (Build_Env Sample.core (Sample.always (JsonBody JNull)) [])
                     eq_refl) _).
    eexists. split; reflexivity.
  - refine (proj2 (proj2 (odd_bodies Core) ERC3.ListBenchmarks
                     (Build_Env Sample.core
                        (Sample.always (JsonBody (JArr []))) [])
                     eq_refl) (JArr []) eq_refl _).
    eexists. split; reflexivity.
Defined.


(** ** Tasks and factories *)

Lemma store_invoke_run :
  forall (c : StoreClient.Call) (s : Env StoreClient.t),
    StoreClient.accepts c = true ->
    StoreClient.invoke c s
    = request Store (StoreClient.path c)
        (JObj (("tool", JStr (StoreClient.path c))
                 :: StoreClient.parameters c)) s.
Proof.
  intros c s Hc. destruct c; try reflexivity.
  cbn in Hc. apply negb_true_iff in Hc. apply (listProducts_run _ _ Hc).
Qed.

(** X7.  The factories [getStoreClient] and [getDemoClient] take a task
    object or a task ID alike: for a task whose [task_id] is the string X
    both forms give the same client, made of the core client's base URL and
    X, without sending anything, and every request of that client, made
    by an operation on arguments it accepts, goes to [{baseUrl}/store/X] or
    [{baseUrl}/demo/X] followed by the operation's path. *)
Theorem factories_bind_the_task :
  forall (X : string) (task : list (string * JsVal)) (s : Env ERC3.t),
    field "task_id" task = JStr X ->
    ERC3.getStoreClient (JStr X) s
    = (Normal (StoreClient.constructor (ERC3.baseUrl (this s)) (JStr X)), s)
    /\ ERC3.getStoreClient (JObj task) s = ERC3.getStoreClient (JStr X) s
    /\ ERC3.getDemoClient (JStr X) s
       = (Normal (DemoClient.constructor (ERC3.baseUrl (this s)) (JStr X)), s)
    /\ ERC3.getDemoClient (JObj task) s = ERC3.getDemoClient (JStr X) s
    /\ (forall c : StoreClient.Call,
           StoreClient.accepts c = true ->
           exists r : FetchRequest,
             snd ((store <- ERC3.getStoreClient (JObj task) ;;
                   call store (StoreClient.invoke c)) s)
             = after s r
             /\ url r = ToString (ERC3.baseUrl (this s)) ++ "/store/" ++ X ++
                        StoreClient.path c)
    /\ (forall c : DemoClient.Call,
           DemoClient.accepts c = true ->
           exists r : FetchRequest,
             snd ((demo <- ERC3.getDemoClient (JObj task) ;;
                   call demo (DemoClient.invoke c)) s)
             = after s r
             /\ url r = ToString (ERC3.baseUrl (this s)) ++ "/demo/" ++ X ++
                        demo_path c).
Proof.
  intros X task s H.
  assert (Ho : ERC3.task_id_of (JObj task) = Normal (JStr X))
    by (cbn; rewrite H; reflexivity).
  assert (Hs : ERC3.getStoreClient (JObj task) s
               = (Normal (StoreClient.constructor (ERC3.baseUrl (this s))
                            (JStr X)), s)).
  { unfold ERC3.getStoreClient. cbn [bind Monad_Async lift]. rewrite Ho.
    reflexivity. }
  assert (Hd : ERC3.getDemoClient (JObj task) s
               = (Normal (DemoClient.constructor (ERC3.baseUrl (this s))
                            (JStr X)), s)).
  { unfold ERC3.getDemoClient. cbn [bind Monad_Async lift]. rewrite Ho.
    reflexivity. }
  repeat match goal with |- _ /\ _ => split end;
    try reflexivity; try assumption.
  - intros c Hc. cbn [bind Monad_Async]. rewrite Hs.
    unfold call. rewrite (store_invoke_run _ _ Hc), request_closed.
    eexists. split; reflexivity.
  - intros c Hc. cbn [bind Monad_Async]. rewrite Hd.
    assert (Hi : forall s', DemoClient.invoke c s'
                            = request Demo (demo_path c) (demo_body c) s').
    { intro s'. destruct c; [reflexivity |]. cbn in Hc.
      cbn [DemoClient.invoke]. unfold DemoClient.submitAnswer, js_String.
      rewrite Hc. reflexivity. }
    unfold call. rewrite Hi, request_closed.
    eexists. split; reflexivity.
Qed.

(** X7, witness: the task [{task_id: 't1', status: 'new'}] and the bare
    ['t1']. *)
Lemma factories_bind_the_task_witness :
  ERC3.getStoreClient (JObj Sample.task)
    (Build_Env Sample.core (Sample.always (JsonBody (JObj []))) [])
  = (Normal Sample.store,
     Build_Env Sample.core (Sample.always (JsonBody (JObj []))) [])
  /\ ERC3.getDemoClient (JObj Sample.task)
       (Build_Env Sample.core (Sample.always (JsonBody (JObj []))) [])
     = (Normal Sample.demo,
        Build_Env Sample.core (Sample.always (JsonBody (JObj []))) []).
Proof.
  destruct (factories_bind_the_task "t1" Sample.task
              (Build_Env Sample.core (Sample.always (JsonBody (JObj []))) [])
              eq_refl) as (Hs & Hso & Hd & Hdo & _).
  split.
  - rewrite Hso. exact Hs.
  - rewrite Hdo. exact Hd.
Defined.

(** X8.  A task object with no [task_id] is not refused: [startTask] and
    [completeTask] send the body [{task_id: undefined}], which goes on the
    wire as [{}], and [getStoreClient] makes a client whose requests go to
    [{baseUrl}/store/undefined]. *)
Theorem task_without_id_is_sent_empty :
  forall (taskOrId : JsVal) (s : Env ERC3.t),
    nullish taskOrId = false ->
    is_string taskOrId = false ->
    prop taskOrId "task_id" = JUndefined ->
    snd (ERC3.startTask taskOrId s)
    = after s (post (ToString (ERC3.baseUrl (this s)) ++ "/tasks/start")
                 (JObj [("task_id", JUndefined)]))
    /\ snd (ERC3.completeTask taskOrId s)
       = after s (post (ToString (ERC3.baseUrl (this s)) ++ "/tasks/complete")
                    (JObj [("task_id", JUndefined)]))
    /\ (forall url : string,
           body (post url (JObj [("task_id", JUndefined)])) = Some "{}")
    /\ ERC3.getStoreClient taskOrId s
       = (Normal (StoreClient.constructor (ERC3.baseUrl (this s)) JUndefined),
          s)
    /\ (forall endpoint : string,
           endpoint_url Store
             (StoreClient.constructor (ERC3.baseUrl (this s)) JUndefined)
             endpoint
           = ToString (ERC3.baseUrl (this s)) ++ "/store/undefined" ++ endpoint).
Proof.
  intros t s Hn Hs Hu.
  assert (Ht : ERC3.task_id_of t = Normal JUndefined).
  { rewrite (task_id_of_ok _ Hn), Hs, Hu. reflexivity. }
  repeat match goal with |- _ /\ _ => split end.
  - unfold ERC3.startTask. cbn [bind Monad_Async lift]. rewrite Ht.
    change (ERC3._request "/tasks/start" (JObj [("task_id", JUndefined)]) s)
      with (request Core "/tasks/start" (JObj [("task_id", JUndefined)]) s).
    rewrite request_closed. reflexivity.
  - unfold ERC3.completeTask. cbn [bind Monad_Async lift]. rewrite Ht.
    change (ERC3._request "/tasks/complete" (JObj [("task_id", JUndefined)]) s)
      with (request Core "/tasks/complete" (JObj [("task_id", JUndefined)]) s).
    rewrite request_closed. reflexivity.
  - reflexivity.
  - unfold ERC3.getStoreClient. cbn [bind Monad_Async lift]. rewrite Ht.
    reflexivity.
  - intro endpoint. reflexivity.
Qed.

(** X8, witness: the object [{id: 't1'}], which names its task under
    the wrong key. *)
Lemma task_without_id_is_sent_empty_witness :
  snd (ERC3.startTask (JObj [("id", JStr "t1")])
         (Build_Env Sample.core (Sample.always (JsonBody (JObj []))) []))
  = Build_Env Sample.core (Sample.always (JsonBody (JObj [])))
      [post "https://erc.example/tasks/start" (JObj [("task_id", JUndefined)])]
  /\ body (post "https://erc.example/tasks/start"
             (JObj [("task_id", JUndefined)]))
     = Some "{}".
Proof.
  destruct (task_without_id_is_sent_empty (JObj [("id", JStr "t1")])
              (Build_Env Sample.core (Sample.always (JsonBody (JObj []))) [])
              eq_refl eq_refl eq_refl) as (Hs & _ & Hb & _).
  split; [exact Hs | apply Hb].
Defined.


(** ** Writing and reading properties *)

Lemma lookup_app :
  forall (k : string) (ps qs : list (string * JsVal)),
    lookup k (ps ++ qs)%list
    = match lookup k ps with
      | Some v => Some v
      | None => lookup k qs
      end.
Proof.
  intros k ps qs. induction ps as [ | [k' v'] ps IH]; [reflexivity |].
  cbn. destruct (k' =? k); [reflexivity | exact IH].
Qed.

Lemma lookup_replace_prop :
  forall (k k' : string) (v : JsVal) (ps : list (string * JsVal)),
    lookup k ps <> None ->
    lookup k' (replace_prop k v ps)
    = if k =? k' then Some v else lookup k' ps.
Proof.
  intros k k' v ps. induction ps as [ | [k0 v0] ps IH]; intro H.
  - cbn in H. contradiction.
  - cbn in H |- *. destruct (String.eqb_spec k0 k) as [-> | Hne].
    + cbn. destruct (k =? k'); reflexivity.
    + cbn. destruct (String.eqb_spec k0 k') as [-> | Hne'].
      * destruct (String.eqb_spec k k'); [subst; contradiction | reflexivity].
      * apply IH, H.
Qed.

Lemma lookup_insert_index :
  forall (i : N) (k k' : string) (v : JsVal) (ps : list (string * JsVal)),
    lookup k ps = None ->
    lookup k' (insert_index i k v ps)
    = if k =? k' then Some v else lookup k' ps.
Proof.
  intros i k k' v ps. induction ps as [ | [k0 v0] ps IH]; intro H.
  - cbn. destruct (k =? k'); reflexivity.
  - cbn in H. destruct (String.eqb_spec k0 k) as [-> | Hne]; [discriminate |].
    cbn [insert_index].
    destruct (array_index k0) as [j | ].
    + destruct (i <? j)%N.
      * cbn. destruct (k =? k'); reflexivity.
      * cbn. destruct (String.eqb_spec k0 k') as [-> | Hne'].
        -- destruct (String.eqb_spec k k'); [subst; contradiction | reflexivity].
        -- apply IH, H.
    + cbn. destruct (k =? k'); reflexivity.
Qed.

(** Reading after writing: the property written reads as the value
    written, every other property as before. *)
Lemma lookup_set_prop :
  forall (k k' : string) (v : JsVal) (ps : list (string * JsVal)),
    lookup k' (set_prop k v ps) = if k =? k' then Some v else lookup k' ps.
Proof.
  intros k k' v ps. unfold set_prop.
  destruct (lookup k ps) as [x | ] eqn:Hk.
  - apply lookup_replace_prop. rewrite Hk. discriminate.
  - destruct (array_index k) as [i | ].
    + apply lookup_insert_index, Hk.
    + rewrite lookup_app. cbn.
      destruct (String.eqb_spec k k') as [-> | Hne].
      * rewrite Hk. reflexivity.
      * destruct (lookup k' ps); reflexivity.
Qed.

Lemma lookup_absent :
  forall (k : string) (ps : list (string * JsVal)),
    ~ In k (map fst ps) -> lookup k ps = None.
Proof.
  intros k ps. induction ps as [ | [k0 v0] ps IH]; intro H; [reflexivity |].
  cbn in H |- *. destruct (String.eqb_spec k0 k) as [-> | Hne].
  - exfalso. apply H. left; reflexivity.
  - apply IH. intro Hin. apply H. right; exact Hin.
Qed.

(** An object spread over the properties already written: a property of
    the source wins over one written before. *)
Lemma lookup_spread :
  forall (k : string) (source target : list (string * JsVal)),
    NoDup (map fst source) ->
    lookup k (spread target (JObj source))
    = match lookup k source with
      | Some v => Some v
      | None => lookup k target
      end.
Proof.
  intros k source. unfold spread. cbn [own_enumerable].
  induction source as [ | [k0 v0] source IH]; intros target Hnd.
  - reflexivity.
  - cbn [fold_left fst snd]. inversion Hnd as [ | ? ? Hnotin Hnd']; subst.
    rewrite (IH _ Hnd'). rewrite lookup_set_prop. cbn [lookup].
    destruct (String.eqb_spec k0 k) as [-> | Hne].
    + rewrite (lookup_absent _ _ Hnotin). reflexivity.
    + reflexivity.
Qed.

(** X9.  [searchSessions] spreads the criteria after the account key:
    every criterion is sent as given, the client's API key is sent as
    [account_key] only when the criteria have no [account_key] of their own
    (one they have replaces the client's), and nothing else is sent. *)
Theorem searchSessions_criteria_win :
  forall (criteria : list (string * JsVal)) (s : Env ERC3.t),
    NoDup (map fst criteria) ->
    exists r : FetchRequest,
      snd (ERC3.searchSessions (JObj criteria) s) = after s r
      /\ url r = ToString (ERC3.baseUrl (this s)) ++ "/sessions/search"
      /\ (forall (k : string) (v : JsVal),
             lookup k criteria = Some v -> prop (data r) k = v)
      /\ (lookup "account_key" criteria = None ->
          prop (data r) "account_key" = ERC3.apiKey (this s))
      /\ (forall k : string,
             k <> "account_key" -> lookup k criteria = None ->
             prop (data r) k = JUndefined).
Proof.
  intros criteria s Hnd.
  change (ERC3.searchSessions (JObj criteria) s)
    with (request Core "/sessions/search"
            (JObj (spread [("account_key", ERC3.apiKey (this s))]
                     (JObj criteria))) s).
  rewrite request_closed. eexists. split; [reflexivity |].
  split; [reflexivity |].
  cbn [data post default_param prop Get]. unfold field.
  repeat match goal with |- _ /\ _ => split end.
  - intros k v Hk. rewrite (lookup_spread _ _ _ Hnd), Hk. reflexivity.
  - intro Hk. rewrite (lookup_spread _ _ _ Hnd), Hk. reflexivity.
  - intros k Hne Hk. rewrite (lookup_spread _ _ _ Hnd), Hk. cbn [lookup].
    destruct (String.eqb_spec "account_key" k) as [E | E];
      [symmetry in E; contradiction | reflexivity].
Qed.

(** X9, witness: criteria that name another account. *)
Lemma searchSessions_criteria_win_witness :
  exists r : FetchRequest,
    snd (ERC3.searchSessions
           (JObj [("account_key", JStr "other"); ("workspace", JStr "w")])
           (Build_Env Sample.core (Sample.always (JsonBody (JObj []))) []))
    = Build_Env Sample.core (Sample.always (JsonBody (JObj []))) [r]
    /\ prop (data r) "account_key" = JStr "other"
    /\ prop (data r) "workspace" = JStr "w".
Proof.
  assert (Hnd : NoDup (map fst [("account_key", JStr "other");
                                ("workspace", JStr "w")])).
  { constructor.
    - cbn. intros [H | []]. discriminate H.
    - constructor; [intros [] | constructor]. }
  destruct (searchSessions_criteria_win
              [("account_key", JStr "other"); ("workspace", JStr "w")]
              (Build_Env Sample.core (Sample.always (JsonBody (JObj []))) [])
              Hnd) as (r & Hs & _ & Hc & _).
  exists r. split; [exact Hs |]. split.
  - apply (Hc "account_key" (JStr "other")). reflexivity.
  - apply (Hc "workspace" (JStr "w")). reflexivity.
Defined.


(** ** The cheapest product of the store example *)

Lemma number_lt_integers :
  forall k n : Z, number_lt (Finite k 0) (Finite n 0) = (k <? n)%Z.
Proof.
  intros k n. unfold number_lt, compare_finite. cbn [Z.min Z.compare Z.sub
    Z.opp Z.add Z.pow Z.pow_pos Pos.iter].
  change (2 ^ 0)%Z with 1%Z. rewrite !Z.mul_1_r. unfold Z.ltb.
  destruct (k ?= n)%Z; reflexivity.
Qed.

Lemma js_lt_integers :
  forall k n : Z, js_lt (JNum k) (JNum n) = Normal (k <? n)%Z.
Proof.
  intros k n. unfold js_lt, ToPrimitive, ToNumber.
  cbn [bind Monad_Completion ToPrimitive]. rewrite number_lt_integers.
  reflexivity.
Qed.

Lemma cheaper_priced :
  forall (min p : JsVal) (n k : Z),
    priced min n -> priced p k ->
    StoreExampleMain.cheaper min p = Normal (if (k <? n)%Z then p else min).
Proof.
  intros min p n k [Hm Hn] [Hp Hk]. unfold StoreExampleMain.cheaper.
  rewrite (Get_prop _ _ Hp), (Get_prop _ _ Hm), Hn, Hk.
  cbn [bind Monad_Completion]. rewrite js_lt_integers. reflexivity.
Qed.

Lemma reduce_from_minimum :
  forall (rest : list JsVal) (acc : JsVal) (n : Z),
    priced acc n ->
    (forall p, In p rest -> exists k, priced p k) ->
    exists (best : JsVal) (m : Z),
      StoreExampleMain.reduce_from StoreExampleMain.cheaper acc rest
      = Normal best
      /\ (best = acc \/ In best rest)
      /\ priced best m
      /\ (m <= n)%Z
      /\ (forall p k, In p rest -> priced p k -> (m <= k)%Z).
Proof.
  induction rest as [ | x rest IH]; intros acc n Hacc Hall.
  - exists acc, n. cbn. repeat split; try tauto; try apply Hacc; lia.
  - destruct (Hall x (or_introl eq_refl)) as (k & Hx).
    cbn [StoreExampleMain.reduce_from bind Monad_Completion].
    rewrite (cheaper_priced _ _ _ _ Hacc Hx).
    assert (Hrest : forall p, In p rest -> exists k', priced p k')
      by (intros p Hp; apply Hall; right; exact Hp).
    destruct (k <? n)%Z eqn:Hlt.
    + destruct (IH x k Hx Hrest) as (best & m & Hrun & Hin & Hb & Hle & Hmin).
      exists best, m. split; [exact Hrun |]. split; [ | split; [exact Hb |]].
      * destruct Hin as [-> | Hin]; [right; left; reflexivity | right; right; exact Hin].
      * split; [lia |]. intros p k' [<- | Hp] Hpk.
        -- destruct Hx as [_ Hxk], Hpk as [_ Hpk']. rewrite Hxk in Hpk'.
           inversion Hpk'. lia.
        -- apply (Hmin p k' Hp Hpk).
    + destruct (IH acc n Hacc Hrest) as (best & m & Hrun & Hin & Hb & Hle & Hmin).
      exists best, m. split; [exact Hrun |]. split; [ | split; [exact Hb |]].
      * destruct Hin as [-> | Hin]; [left; reflexivity | right; right; exact Hin].
      * split; [lia |]. intros p k' [<- | Hp] Hpk.
        -- destruct Hx as [_ Hxk], Hpk as [_ Hpk']. rewrite Hxk in Hpk'.
           inversion Hpk'. lia.
        -- apply (Hmin p k' Hp Hpk).
Qed.

(** X10.  The store example's [reduce] for the cheapest product: on an
    empty product list it throws the [TypeError] of a [reduce] with no
    initial value; on products that all have a numeric price it returns one
    of them, and no product has a lower price. *)
Theorem cheapest_is_a_minimum :
  StoreExampleMain.cheapest []
  = Throws (TypeError "Reduce of empty array with no initial value")
  /\ forall (first : JsVal) (rest : list JsVal),
      (forall p, In p (first :: rest) -> exists k, priced p k) ->
      exists (best : JsVal) (m : Z),
        StoreExampleMain.cheapest (first :: rest) = Normal best
        /\ In best (first :: rest)
        /\ priced best m
        /\ (forall p k, In p (first :: rest) -> priced p k -> (m <= k)%Z).
Proof.
  split; [reflexivity |]. intros first rest Hall.
  destruct (Hall first (or_introl eq_refl)) as (n & Hfirst).
  destruct (reduce_from_minimum rest first n Hfirst) as
    (best & m & Hrun & Hin & Hb & Hle & Hmin).
  { intros p Hp. apply Hall. right; exact Hp. }
  exists best, m. split; [exact Hrun |]. split; [ | split; [exact Hb |]].
  - destruct Hin as [-> | Hin]; [left; reflexivity | right; exact Hin].
  - intros p k [<- | Hp] Hpk.
    + destruct Hfirst as [_ Hf], Hpk as [_ Hpk']. rewrite Hf in Hpk'.
      inversion Hpk'. lia.
    + apply (Hmin p k Hp Hpk).
Qed.

(** X10, witness: of three products at 30, 10 and 20, the one at 10. *)
Lemma cheapest_is_a_minimum_witness :
  exists (best : JsVal) (m : Z),
    StoreExampleMain.cheapest CliSample.products = Normal best
    /\ priced best m
    /\ (m <= 10)%Z.
Proof.
  destruct (proj2 cheapest_is_a_minimum
              (JObj [("sku", JStr "a"); ("price", JNum 30)])
              [JObj [("sku", JStr "b"); ("price", JNum 10)];
               JObj [("sku", JStr "c"); ("price", JNum 20)]])
    as (best & m & Hrun & _ & Hb & Hmin).
  - intros p [<- | [<- | [<- | []]]]; eexists; split; reflexivity.
  - exists best, m. split; [exact Hrun |]. split; [exact Hb |].
    apply (Hmin (JObj [("sku", JStr "b"); ("price", JNum 10)]) 10%Z).
    + right. left. reflexivity.
    + split; reflexivity.
Defined.


(** ** Command-line arguments *)

Lemma substring_whole :
  forall s : string, substring 0 (String.length s) s = s.
Proof.
  induction s as [ | c s IH]; [reflexivity |]. cbn. rewrite IH. reflexivity.
Qed.

Lemma slice2_flag : forall key : string, Cli.slice2 ("--" ++ key) = key.
Proof.
  intro key. unfold Cli.slice2.
  change ("--" ++ key) with (String "-" (String "-" key)).
  cbn [String.length Nat.sub substring]. rewrite Nat.sub_0_r.
  apply substring_whole.
Qed.

Lemma startsWith_flag :
  forall key : string, Cli.startsWith ("--" ++ key) "--" = true.
Proof. intro key. destruct key; reflexivity. Qed.

Lemma field_set_prop :
  forall (k k' : string) (v : JsVal) (ps : list (string * JsVal)),
    field k' (set_prop k v ps) = if k =? k' then v else field k' ps.
Proof.
  intros k k' v ps. unfold field. rewrite lookup_set_prop.
  destruct (k =? k'); reflexivity.
Qed.

(** Parsing a rendered command line, from any state of the loop. *)
Lemma parse_render :
  forall (tokens : list Token) (tail : list string)
         (parsed : list (string * JsVal)) (pos : list JsVal),
    Forall well_formed tokens ->
    field "_" parsed = JArr pos ->
    exists parsed' : list (string * JsVal),
      Cli.parse_from (render tokens ++ tail)%list parsed
      = Cli.parse_from tail parsed'
      /\ field "_" parsed' = JArr (pos ++ positionals tokens)%list
      /\ forall k : string,
          k <> "_" ->
          lookup k parsed'
          = match last_value k tokens with
            | Some v => Some (JStr v)
            | None => lookup k parsed
            end.
Proof.
  induction tokens as [ | token tokens IH]; intros tail parsed pos Hwf Hpos.
  - exists parsed. cbn. rewrite app_nil_r. repeat split; auto.
  - inversion Hwf as [ | ? ? Htok Hrest]; subst.
    destruct token as [arg | key value]; cbn [well_formed] in Htok.
    + cbn [render app Cli.parse_from]. rewrite Htok.
      unfold Cli.push_positional. rewrite Hpos.
      cbn [bind Monad_Completion].
      destruct (IH tail (set_prop "_" (JArr (pos ++ [JStr arg])%list) parsed)
                  (pos ++ [JStr arg])%list Hrest) as (parsed' & Hrun & Hp & Hk).
      { rewrite field_set_prop. reflexivity. }
      exists parsed'. split; [exact Hrun |]. split.
      * rewrite Hp. cbn [positionals]. rewrite <- app_assoc. reflexivity.
      * intros k Hne. rewrite (Hk k Hne). cbn [last_value].
        destruct (last_value k tokens); [reflexivity |].
        rewrite lookup_set_prop.
        destruct (String.eqb_spec "_" k) as [E | E];
          [symmetry in E; contradiction | reflexivity].
    + destruct Htok as [Hu Hproto].
      change (render (Flag key value :: tokens) ++ tail)%list
        with (("--" ++ key)%string :: value :: (render tokens ++ tail))%list.
      cbn [Cli.parse_from].
      rewrite startsWith_flag, slice2_flag. unfold Cli.assign.
      destruct (String.eqb_spec key "__proto__") as [E | _]; [contradiction |].
      destruct (IH tail (set_prop key (JStr value) parsed) pos Hrest)
        as (parsed' & Hrun & Hp & Hk).
      { rewrite field_set_prop.
        destruct (String.eqb_spec key "_") as [E | _]; [contradiction |].
        exact Hpos. }
      exists parsed'. split; [exact Hrun |]. split; [exact Hp |].
      intros k Hne. rewrite (Hk k Hne). cbn [last_value].
      destruct (last_value k tokens); [reflexivity |].
      rewrite lookup_set_prop. destruct (key =? k); reflexivity.
Qed.

(** The loop on a whole command line. *)
Lemma parsed_tokens :
  forall tokens : list Token,
    Forall well_formed tokens ->
    exists parsed : list (string * JsVal),
      Cli.parse_from (render tokens) [("_", JArr [])] = Normal parsed
      /\ field "_" parsed = JArr (positionals tokens)
      /\ forall k : string,
          k <> "_" ->
          field k parsed
          = match last_value k tokens with
            | Some v => JStr v
            | None => JUndefined
            end.
Proof.
  intros tokens Hwf.
  destruct (parse_render tokens [] [("_", JArr [])] [] Hwf eq_refl)
    as (parsed & Hrun & Hp & Hk).
  exists parsed. rewrite app_nil_r in Hrun.
  split; [exact Hrun |]. split; [exact Hp |].
  intros k Hne. unfold field. rewrite (Hk k Hne).
  destruct (last_value k tokens); [reflexivity |].
  cbn [lookup].
  destruct (String.eqb_spec "_" k) as [E | E];
    [symmetry in E; contradiction | reflexivity].
Qed.

Lemma parseArgs_of_loop :
  forall (args : list string) (parsed : list (string * JsVal)),
    Cli.parse_from args [("_", JArr [])] = Normal parsed ->
    Cli.parseArgs args = Normal (JObj parsed).
Proof.
  intros args parsed H. unfold Cli.parseArgs. rewrite H. reflexivity.
Qed.

(** X11.  [parseArgs] reads a command line back: when no positional
    argument starts with two dashes and no flag is named [_] or
    [__proto__], the object it returns holds under [_] the positional
    arguments in their order, under each flag's name the value of the last
    flag of that name, and nothing under any other name. *)
Theorem parseArgs_reads_back :
  forall tokens : list Token,
    Forall well_formed tokens ->
    exists parsed : list (string * JsVal),
      Cli.parseArgs (render tokens) = Normal (JObj parsed)
      /\ field "_" parsed = JArr (positionals tokens)
      /\ forall k : string,
          k <> "_" ->
          field k parsed
          = match last_value k tokens with
            | Some v => JStr v
            | None => JUndefined
            end.
Proof.
  intros tokens Hwf.
  destruct (parsed_tokens tokens Hwf) as (parsed & Hloop & Hpos & Hk).
  exists parsed. split; [ | split; [exact Hpos | exact Hk]].
  unfold Cli.parseArgs. rewrite Hloop.
  cbn [bind Monad_Completion]. reflexivity.
Qed.

(** X11, witness: [t1 --sku gpu x --sku cpu]. *)
Lemma parseArgs_reads_back_witness :
  exists parsed : list (string * JsVal),
    Cli.parseArgs ["t1"; "--sku"; "gpu"; "x"; "--sku"; "cpu"]
    = Normal (JObj parsed)
    /\ field "_" parsed = JArr [JStr "t1"; JStr "x"]
    /\ field "sku" parsed = JStr "cpu"
    /\ field "json" parsed = JUndefined.
Proof.
  assert (Hwf : Forall well_formed
                  [Positional "t1"; Flag "sku" "gpu"; Positional "x";
                   Flag "sku" "cpu"]).
  { repeat constructor; discriminate. }
  destruct (parseArgs_reads_back _ Hwf) as (parsed & Hrun & Hpos & Hk).
  exists parsed. split; [exact Hrun |]. split; [exact Hpos |]. split.
  - apply (Hk "sku"). discriminate.
  - apply (Hk "json"). discriminate.
Defined.

(** X12.  A flag is always given the token after it as its value, so a
    flag that ends the command line is [undefined], which is falsy: the
    object has the flag's name, and reads it as if the flag were not
    there. *)
Theorem parseArgs_dangling_flag :
  forall (tokens : list Token) (key : string),
    Forall well_formed tokens ->
    key <> "_" -> key <> "__proto__" ->
    exists parsed : list (string * JsVal),
      Cli.parseArgs (render tokens ++ [("--" ++ key)%string])%list
      = Normal (JObj parsed)
      /\ field key parsed = JUndefined
      /\ truthy (field key parsed) = false
      /\ field "_" parsed = JArr (positionals tokens).
Proof.
  intros tokens key Hwf Hu Hproto.
  destruct (parse_render tokens [("--" ++ key)%string] [("_", JArr [])] [] Hwf eq_refl)
    as (parsed & Hrun & Hp & Hk).
  exists (set_prop key JUndefined parsed). unfold Cli.parseArgs.
  rewrite Hrun. cbn [Cli.parse_from].
  rewrite startsWith_flag, slice2_flag. unfold Cli.assign.
  destruct (String.eqb_spec key "__proto__") as [E | _]; [contradiction |].
  cbn [bind Monad_Completion]. split; [reflexivity |].
  rewrite !field_set_prop, String.eqb_refl.
  split; [reflexivity |]. split; [reflexivity |].
  destruct (String.eqb_spec key "_") as [E | _]; [contradiction |].
  exact Hp.
Qed.

(** X12, witness: [t1 --json]. *)
Lemma parseArgs_dangling_flag_witness :
  exists parsed : list (string * JsVal),
    Cli.parseArgs ["t1"; "--json"] = Normal (JObj parsed)
    /\ truthy (field "json" parsed) = false
    /\ field "_" parsed = JArr [JStr "t1"].
Proof.
  assert (Hwf : Forall well_formed [Positional "t1"]).
  { repeat constructor. }
  destruct (parseArgs_dangling_flag [Positional "t1"] "json" Hwf)
    as (parsed & Hrun & _ & Hf & Hpos); try discriminate.
  exists parsed. split; [exact Hrun |]. split; [exact Hf | exact Hpos].
Defined.

(** X13.  A flag named [_] overwrites the array of the positional
    arguments with its value: the next positional argument then makes
    [parseArgs] throw a [TypeError], [parsed._.push] being no function. *)
Theorem parseArgs_underscore_flag_breaks :
  forall (tokens : list Token) (value arg : string) (rest : list string),
    Forall well_formed tokens ->
    Cli.startsWith arg "--" = false ->
    Cli.parseArgs (render tokens ++ "--_" :: value :: arg :: rest)%list
    = Throws (TypeError "parsed._.push is not a function").
Proof.
  intros tokens value arg rest Hwf Harg.
  destruct (parse_render tokens ("--_" :: value :: arg :: rest)
              [("_", JArr [])] [] Hwf eq_refl)
    as (parsed & Hrun & Hp & Hk).
  unfold Cli.parseArgs. rewrite Hrun.
  change "--_" with ("--" ++ "_"). cbn [Cli.parse_from].
  rewrite startsWith_flag, slice2_flag, Harg. unfold Cli.assign, Cli.push_positional.
  cbn [String.eqb Ascii.eqb Bool.eqb].
  rewrite field_set_prop. cbn [String.eqb Ascii.eqb Bool.eqb].
  reflexivity.
Qed.

(** X13, witness: [--_ v t1]. *)
Lemma parseArgs_underscore_flag_breaks_witness :
  Cli.parseArgs ["--_"; "v"; "t1"]
  = Throws (TypeError "parsed._.push is not a function").
Proof.
  exact (parseArgs_underscore_flag_breaks [] "v" "t1" [] (Forall_nil _)
           eq_refl).
Defined.


(** ** The client of the command line *)

(** X14.  [getClient] of the command files: with [ERC3_API_KEY] unset or
    empty it throws [ERC3_API_KEY environment variable is required], and it
    throws nothing else (the constructor's own error about the key cannot
    occur); otherwise it returns the client of that key, at the host
    [ERC3_BASE_URL] names, or at the production host when that variable is
    unset or empty. *)
Theorem getClient_reads_the_environment :
  forall env : Cli.ProcessEnv,
    (truthy (ERC3.env_var (Cli.ERC3_API_KEY env)) = false ->
     Cli.getClient env
     = Throws (Error "ERC3_API_KEY environment variable is required"))
    /\ (forall key : string,
           Cli.ERC3_API_KEY env = Some key ->
           key <> "" ->
           Cli.getClient env
           = Normal {| ERC3.apiKey := JStr key;
                       ERC3.baseUrl :=
                         match Cli.ERC3_BASE_URL env with
                         | Some url =>
                             if url =? "" then configured_url JUndefined
                             else JStr url
                         | None => configured_url JUndefined
                         end |})
    /\ (forall e : JsError,
           Cli.getClient env = Throws e ->
           e = Error "ERC3_API_KEY environment variable is required").
Proof.
  intro env. destruct env as [key url]. unfold Cli.getClient.
  cbn [Cli.ERC3_API_KEY Cli.ERC3_BASE_URL].
  repeat match goal with |- _ /\ _ => split end.
  - intros ->. reflexivity.
  - intros k -> Hk. apply String.eqb_neq in Hk.
    cbn [ERC3.env_var truthy]. rewrite Hk. cbn [negb].
    unfold ERC3.constructor.
    cbn [default_param Get field lookup String.eqb Ascii.eqb Bool.eqb
         bind Monad_Completion].
    unfold js_or at 1 2. cbn [truthy]. rewrite Hk. cbn [negb truthy].
    rewrite Hk. cbn [negb].
    destruct url as [u | ]; [ | reflexivity].
    unfold js_or. cbn [ERC3.env_var truthy]. destruct (u =? ""); reflexivity.
  - intros e. destruct key as [k | ]; cbn [ERC3.env_var truthy negb];
      [destruct (k =? "") eqn:Hk; cbn [negb] | ];
      try (intro H; inversion H; reflexivity).
    unfold ERC3.constructor.
    cbn [default_param Get field lookup String.eqb Ascii.eqb Bool.eqb
         bind Monad_Completion].
    unfold js_or at 1 2. cbn [truthy]. rewrite Hk. cbn [negb truthy].
    rewrite Hk. cbn [negb]. discriminate.
Qed.

(** X14, witness: the sample environment gives the sample client. *)
Lemma getClient_reads_the_environment_witness :
  Cli.getClient CliSample.env = Normal Sample.core.
Proof.
  refine (proj1 (proj2 (getClient_reads_the_environment CliSample.env))
            "key-1" eq_refl _).
  discriminate.
Defined.


(** ** The command handlers *)

Lemma Get_throws_other :
  forall (o : JsVal) (k : string) (e : JsError),
    Get o k = Throws e -> instanceof_ApiException e = false.
Proof.
  intros o k e H. destruct o; cbn in H; inversion H; reflexivity.
Qed.

Lemma truthy_not_nullish :
  forall v : JsVal, truthy v = true -> nullish v = false.
Proof. intros v H. destruct v; cbn in *; congruence. Qed.

Lemma push_positional_throws_other :
  forall (arg : string) (parsed : list (string * JsVal)) (e : JsError),
    Cli.push_positional arg parsed = Throws e ->
    instanceof_ApiException e = false.
Proof.
  intros arg parsed e H. unfold Cli.push_positional in H.
  destruct (field "_" parsed); cbn in H; inversion H; reflexivity.
Qed.

Lemma parse_from_throws_other :
  forall (n : nat) (args : list string) (parsed : list (string * JsVal))
         (e : JsError),
    List.length args <= n ->
    Cli.parse_from args parsed = Throws e ->
    instanceof_ApiException e = false.
Proof.
  induction n as [ | n IH]; intros args parsed e Hn H.
  - destruct args; [discriminate | cbn in Hn; lia].
  - destruct args as [ | arg rest]; [discriminate |].
    cbn [Cli.parse_from] in H. cbn [List.length] in Hn.
    destruct (Cli.startsWith arg "--").
    + destruct rest as [ | value rest']; [discriminate |].
      eapply IH; [ | exact H]. cbn [List.length] in Hn. lia.
    + destruct (Cli.push_positional arg parsed) as [parsed' | e'] eqn:Hp;
        cbn [bind Monad_Completion] in H.
      * eapply IH; [ | exact H]. lia.
      * inversion H; subst. apply (push_positional_throws_other _ _ _ Hp).
Qed.

Lemma parseArgs_throws_other :
  forall (args : list string) (e : JsError),
    Cli.parseArgs args = Throws e -> instanceof_ApiException e = false.
Proof.
  intros args e H. unfold Cli.parseArgs in H.
  destruct (Cli.parse_from args [("_", JArr [])]) as [parsed | e'] eqn:Hp;
    cbn [bind Monad_Completion] in H; [discriminate |].
  inversion H; subst.
  apply (parse_from_throws_other (List.length args) args _ _ (le_n _) Hp).
Qed.

Lemma getClient_throws_other :
  forall (env : Cli.ProcessEnv) (e : JsError),
    Cli.getClient env = Throws e -> instanceof_ApiException e = false.
Proof.
  intros env e H. unfold Cli.getClient in H.
  destruct (negb (truthy (ERC3.env_var (Cli.ERC3_API_KEY env)))).
  - inversion H. reflexivity.
  - rewrite constructor_run in H by reflexivity.
    destruct (truthy _); inversion H. reflexivity.
Qed.

Lemma bind_lift :
  forall (S A B : Type) (c : Completion A) (k : A -> Async S B) (s : Env S),
    bind (lift c) k s
    = match c with
      | Normal a => k a s
      | Throws e => (Throws e, s)
      end.
Proof. intros S A B c k s. destruct c; reflexivity. Qed.

Section OneRequest.

Context {S : Type} (P : FetchRequest -> Prop) (Q : JsVal -> JsError -> Prop).

Lemma one_request_lift :
  forall (A : Type) (c : Completion A) (k : A -> Async S Cli.Ending),
    (forall e : JsError, c = Throws e -> instanceof_ApiException e = false) ->
    (forall a : A, c = Normal a -> one_request P Q (k a)) ->
    one_request P Q (bind (lift c) k).
Proof.
  intros A c k He Hk s. cbn [bind Monad_Async lift].
  destruct c as [a | e].
  - apply (Hk a eq_refl).
  - left. exists e. split; [reflexivity | apply He; reflexivity].
Qed.

Lemma one_request_Get :
  forall (o : JsVal) (key : string) (k : JsVal -> Async S Cli.Ending),
    (forall v : JsVal, one_request P Q (k v)) ->
    one_request P Q (bind (lift (Get o key)) k).
Proof.
  intros o key k Hk. apply one_request_lift.
  - intros e. apply Get_throws_other.
  - intros v _. apply Hk.
Qed.

Lemma one_request_require :
  forall (v : JsVal) (message : string) (k : unit -> Async S Cli.Ending),
    (truthy v = true -> one_request P Q (k tt)) ->
    one_request P Q (bind (Cli.require v message) k).
Proof.
  intros v message k Hk s. unfold Cli.require.
  destruct (truthy v); cbn [negb bind Monad_Async ret raise Exc_Async].
  - apply (Hk eq_refl).
  - left. eexists. split; reflexivity.
Qed.

Lemma one_request_raise :
  forall message : string,
    one_request (S := S) P Q (raise (Error message)).
Proof.
  intros message s. left. eexists. split; reflexivity.
Qed.

Lemma one_request_if :
  forall (b : bool) (m1 m2 : Async S Cli.Ending),
    one_request P Q m1 -> one_request P Q m2 ->
    one_request P Q (if b then m1 else m2).
Proof. intros b m1 m2 H1 H2. destruct b; assumption. Qed.

Lemma one_request_call :
  forall (T : Type) (obj : T) (m : Async T JsVal) (r : FetchRequest)
         (k : JsVal -> Async S Cli.Ending),
    (forall s : Env T,
        this s = obj -> m s = (settle (server s (sent s) r), after s r)) ->
    P r ->
    (forall (v : JsVal) (s : Env S),
        nullish v = false ->
        k v s = (Normal Cli.Returned, s)
        \/ exists e : JsError,
            Q v e /\ instanceof_ApiException e = false
            /\ k v s = (Throws e, s)) ->
    one_request P Q (bind (call obj m) k).
Proof.
  intros T obj m r k Hm Hr Hk s. right. exists r. split; [exact Hr |].
  cbn [bind Monad_Async]. unfold call.
  rewrite (Hm (Build_Env obj (server s) (sent s)) eq_refl).
  cbn [server sent this after].
  destruct (settle (server s (sent s) r)) as [v | e] eqn:Hv.
  - destruct (Hk v (Build_Env (this s) (server s) (sent s ++ [r])%list)
                (settle_Normal_not_nullish _ _ Hv))
      as [Hret | (e & Hq & He & Hthrow)].
    + left. exact Hret.
    + right. exists v, e. split; [exact Hq |]. split; [exact He |].
      split; [exact Hv | exact Hthrow].
  - left. reflexivity.
Qed.

(** The [catch] block of the handlers on such a body. *)
Lemma one_request_caught :
  forall (m : Async S Cli.Ending) (s : Env S),
    one_request P Q m ->
    refused s (catch m Cli.on_error s)
    \/ exists r : FetchRequest,
        P r
        /\ (ended_on s r (catch m Cli.on_error s)
            \/ exists (result : JsVal) (e : JsError),
                Q result e
                /\ instanceof_ApiException e = false
                /\ threw_on s r result e (catch m Cli.on_error s)).
Proof.
  intros m s Hm. cbn [catch Exc_Async].
  destruct (Hm s) as [(e & -> & He) | (r & Hr & [-> | (v & e & Hq & He & Hv & ->)])].
  - left. exists e. unfold Cli.on_error. rewrite He. split; reflexivity.
  - right. exists r. split; [exact Hr |]. left. unfold ended_on.
    destruct (settle (server s (sent s) r)) as [v | e] eqn:Hv;
      [reflexivity |].
    unfold Cli.on_error. rewrite (settle_throws_api _ _ Hv). reflexivity.
  - right. exists r. split; [exact Hr |]. right. exists v, e.
    split; [exact Hq |]. split; [exact He |]. split; [exact Hv |].
    unfold Cli.on_error. rewrite He. reflexivity.
Qed.

End OneRequest.

(** A handler that prints nothing that can throw ends on its request. *)
Lemma one_request_ended :
  forall (S : Type) (P : FetchRequest -> Prop) (m : Async S Cli.Ending)
         (s : Env S),
    one_request P (fun _ _ => False) m ->
    refused s (catch m Cli.on_error s)
    \/ exists r : FetchRequest, P r /\ ended_on s r (catch m Cli.on_error s).
Proof.
  intros S P m s Hm.
  destruct (one_request_caught P _ m s Hm)
    as [H | (r & Hr & [H | (v & e & [] & _)])].
  - left. exact H.
  - right. exists r. split; assumption.
Qed.

Lemma core_call_settles :
  forall (client : ERC3.t) (c : ERC3.Call) (s : Env ERC3.t),
    ERC3.accepts c = true ->
    this s = client ->
    ERC3.invoke c s
    = (settle (server s (sent s)
                 (post (endpoint_url Core client (core_path c))
                    (core_body client c))),
       after s (post (endpoint_url Core client (core_path c))
                  (core_body client c))).
Proof.
  intros client c s Hc <-. rewrite (core_invoke_run c s Hc), request_closed.
  assert (Hd : default_param (core_body (this s) c) (JObj [])
               = core_body (this s) c) by (destruct c; reflexivity).
  rewrite Hd. reflexivity.
Qed.

Lemma one_request_core :
  forall (S : Type) (Q : JsVal -> JsError -> Prop) (client : ERC3.t)
         (c : ERC3.Call),
    ERC3.accepts c = true ->
    one_request (S := S) (core_request client) Q
      (bind (call client (ERC3.invoke c)) (fun _ => ret Cli.Returned)).
Proof.
  intros S Q client c Hc.
  apply (one_request_call _ _ _ client (ERC3.invoke c)
           (post (endpoint_url Core client (core_path c))
              (core_body client c))).
  - intros s Hs. apply (core_call_settles client c s Hc Hs).
  - exists c. split; [exact Hc | reflexivity].
  - intros v s _. left. reflexivity.
Qed.

Ltac one_request_step :=
  cbv zeta;
  match goal with
  | |- one_request _ _ (if _ then _ else _) => apply one_request_if
  | |- one_request _ _ (bind (lift (Get _ _)) _) =>
      apply one_request_Get; intro
  | |- one_request _ _ (bind (Cli.require _ _) _) =>
      apply one_request_require; intro
  | |- one_request _ _ (raise (Error _)) => apply one_request_raise
  end.

(** X15.  Every run of [handleCoreCommand], whatever the command and its
    arguments, ends in one of two ways.  Either it throws before anything
    is sent, and what it throws is no [ApiException] (a missing key, a
    missing argument, an unknown command); or it has sent exactly one
    request, a request of the core client that [getClient] made, and then
    it returns when the request succeeded and the process exits with code 1
    when the request threw. *)
Theorem core_command_outcomes :
  forall (rt : Cli.Runtime) (env : Cli.ProcessEnv) (command : string)
         (args : list string) (s : Env unit),
    refused s (Cli.handleCoreCommand rt env command args s)
    \/ exists client : ERC3.t,
        Cli.getClient env = Normal client
        /\ exists r : FetchRequest,
            core_request client r
            /\ ended_on s r (Cli.handleCoreCommand rt env command args s).
Proof.
  intros rt env command args s. unfold Cli.handleCoreCommand.
  rewrite bind_lift.
  destruct (Cli.parseArgs args) as [parsed | e] eqn:Hp.
  2: { left. exists e. split; [reflexivity |].
       apply (parseArgs_throws_other _ _ Hp). }
  rewrite bind_lift.
  destruct (Cli.getClient env) as [client | e] eqn:Hc.
  2: { left. exists e. split; [reflexivity |].
       apply (getClient_throws_other _ _ Hc). }
  match goal with
  | |- refused s (catch ?m _ s) \/ _ =>
      destruct (one_request_ended _ (core_request client) m s) as [H | H]
  end.
  - repeat one_request_step.
    + apply (one_request_core _ _ client ERC3.ListBenchmarks). reflexivity.
    + apply (one_request_core _ _ client (ERC3.ViewBenchmark _)). reflexivity.
    + apply (one_request_core _ _ client (ERC3.StartSession _)). reflexivity.
    + apply (one_request_core _ _ client (ERC3.SessionStatus _)). reflexivity.
    + apply (one_request_core _ _ client (ERC3.SearchSessions _)). reflexivity.
    + apply (one_request_core _ _ client (ERC3.SubmitSession _)). reflexivity.
    + apply (one_request_core _ _ client (ERC3.StartTask _)).
      cbn [ERC3.accepts]. rewrite truthy_not_nullish by assumption.
      reflexivity.
    + apply (one_request_core _ _ client (ERC3.ViewTask _ _)). reflexivity.
    + apply (one_request_core _ _ client (ERC3.CompleteTask _)).
      cbn [ERC3.accepts]. rewrite truthy_not_nullish by assumption.
      reflexivity.
    + apply (one_request_core _ _ client (ERC3.LogLLM _)). reflexivity.
  - left. exact H.
  - right. exists client. split; [reflexivity | exact H].
Qed.

(** X15, witness: [erc3 benchmarks] with no key in the environment is
    refused before anything is sent. *)
Lemma core_command_outcomes_witness :
  exists e : JsError,
    Cli.handleCoreCommand CliSample.runtime
      {| Cli.ERC3_API_KEY := None; Cli.ERC3_BASE_URL := None |}
      "benchmarks" [] (CliSample.start (JsonBody (JObj [])))
    = (Throws e, CliSample.start (JsonBody (JObj [])))
    /\ instanceof_ApiException e = false.
Proof.
  destruct (core_command_outcomes CliSample.runtime
              {| Cli.ERC3_API_KEY := None; Cli.ERC3_BASE_URL := None |}
              "benchmarks" [] (CliSample.start (JsonBody (JObj []))))
    as [H | (client & Hc & _)].
  - exact H.
  - discriminate Hc.
Defined.

Lemma assign_shape :
  forall (key : string) (value : JsVal) (parsed : list (string * JsVal)),
    text_or_undefined value ->
    parsed_shape parsed ->
    parsed_shape (Cli.assign key value parsed).
Proof.
  intros key value parsed Hv Hs. unfold Cli.assign.
  destruct (key =? "__proto__"); [exact Hs |].
  intro k. rewrite field_set_prop. destruct (key =? k).
  - left. exact Hv.
  - apply Hs.
Qed.

Lemma push_positional_shape :
  forall (arg : string) (parsed parsed' : list (string * JsVal)),
    parsed_shape parsed ->
    Cli.push_positional arg parsed = Normal parsed' ->
    parsed_shape parsed'.
Proof.
  intros arg parsed parsed' Hs H. unfold Cli.push_positional in H.
  destruct (Hs "_") as [Ht | (_ & elems & He & Hall)].
  - destruct (field "_" parsed); cbn in H, Ht; try contradiction;
      discriminate.
  - rewrite He in H. inversion H; subst. intro k. rewrite field_set_prop.
    destruct (String.eqb_spec "_" k) as [<- | _]; [ | apply Hs].
    right. split; [reflexivity |]. eexists. split; [reflexivity |].
    apply Forall_app. split; [exact Hall |]. constructor; [exact I |].
    constructor.
Qed.

Lemma parse_from_shape :
  forall (n : nat) (args : list string) (parsed parsed' : list (string * JsVal)),
    List.length args <= n ->
    parsed_shape parsed ->
    Cli.parse_from args parsed = Normal parsed' ->
    parsed_shape parsed'.
Proof.
  induction n as [ | n IH]; intros args parsed parsed' Hn Hs H.
  - destruct args; [ | cbn in Hn; lia]. inversion H; subst. exact Hs.
  - destruct args as [ | arg rest]; [inversion H; subst; exact Hs |].
    cbn [Cli.parse_from] in H. cbn [List.length] in Hn.
    destruct (Cli.startsWith arg "--").
    + destruct rest as [ | value rest'].
      * inversion H; subst. apply assign_shape; [exact I | exact Hs].
      * eapply IH; [ | | exact H].
        -- cbn [List.length] in Hn. lia.
        -- apply assign_shape; [exact I | exact Hs].
    + destruct (Cli.push_positional arg parsed) as [parsed1 | e] eqn:Hp;
        cbn [bind Monad_Completion] in H; [ | discriminate].
      eapply IH; [ | | exact H].
      * lia.
      * apply (push_positional_shape _ _ _ Hs Hp).
Qed.

Lemma parseArgs_shape :
  forall (args : list string) (v : JsVal),
    Cli.parseArgs args = Normal v ->
    exists parsed : list (string * JsVal),
      v = JObj parsed /\ parsed_shape parsed.
Proof.
  intros args v H. unfold Cli.parseArgs in H.
  destruct (Cli.parse_from args [("_", JArr [])]) as [parsed | e] eqn:Hp;
    cbn [bind Monad_Completion] in H; [ | discriminate].
  inversion H; subst. exists parsed. split; [reflexivity |].
  apply (parse_from_shape (List.length args) args [("_", JArr [])] parsed
           (le_n _)); [ | exact Hp].
  intro k. unfold field. cbn [lookup].
  destruct (String.eqb_spec "_" k) as [<- | _].
  - right. split; [reflexivity |]. exists []. split; [reflexivity |].
    constructor.
  - left. exact I.
Qed.

(** The first positional argument the handlers read, [parsed._[0]], is a
    string when it is truthy. *)
Lemma first_positional_text :
  forall (parsed : list (string * JsVal)) (v : JsVal),
    parsed_shape parsed ->
    Get (field "_" parsed) "0" = Normal v ->
    truthy v = true ->
    exists text : string, v = JStr text.
Proof.
  intros parsed v Hs Hv Ht.
  destruct (Hs "_") as [Htext | (_ & elems & He & Hall)].
  - destruct (field "_" parsed) as [ | | | | text | | ];
      cbn in Htext; try contradiction; [discriminate |].
    cbn in Hv. destruct text as [ | c text]; cbn in Hv; inversion Hv; subst.
    + discriminate.
    + eexists; reflexivity.
  - rewrite He in Hv. cbn in Hv. inversion Hv; subst.
    destruct Hall as [ | x l Hx _]; [discriminate |].
    cbn in Ht |- *. destruct x; cbn in Hx; try contradiction;
      [discriminate | eexists; reflexivity].
Qed.

Lemma demo_call_settles :
  forall (demo : DemoClient.t) (c : DemoClient.Call) (s : Env DemoClient.t),
    DemoClient.accepts c = true ->
    this s = demo ->
    DemoClient.invoke c s
    = (settle (server s (sent s)
                 (post (endpoint_url Demo demo (demo_path c)) (demo_body c))),
       after s (post (endpoint_url Demo demo (demo_path c)) (demo_body c))).
Proof.
  intros demo c s Hc <-.
  assert (H : DemoClient.invoke c s = request Demo (demo_path c) (demo_body c) s).
  { destruct c; [reflexivity |]. cbn in Hc. cbn [DemoClient.invoke].
    unfold DemoClient.submitAnswer, js_String. rewrite Hc. reflexivity. }
  rewrite H, request_closed. destruct c; reflexivity.
Qed.

(** X16.  Every run of [handleDemoCommand] ends in one of three ways.
    Either it throws before anything is sent, and what it throws is no
    [ApiException]; or it has sent exactly one request, to the demo
    endpoint of a task named by a string, and then it returns when the
    request succeeded and the process exits with code 1 when the request
    threw; or, as [demo:secret], it has sent that request, got an answer
    whose [value] has no string, and thrown the [TypeError] of printing
    it. *)
Theorem demo_command_outcomes :
  forall (env : Cli.ProcessEnv) (command : string) (args : list string)
         (s : Env unit),
    refused s (Cli.handleDemoCommand env command args s)
    \/ exists client : ERC3.t,
        Cli.getClient env = Normal client
        /\ exists r : FetchRequest,
            demo_request client r
            /\ (ended_on s r (Cli.handleDemoCommand env command args s)
                \/ exists (result : JsVal) (e : JsError),
                    command = "demo:secret"
                    /\ js_String (prop result "value") = Throws e
                    /\ threw_on s r result e
                         (Cli.handleDemoCommand env command args s)).
Proof.
  intros env command args s. unfold Cli.handleDemoCommand.
  rewrite bind_lift.
  destruct (Cli.parseArgs args) as [parsed | e] eqn:Hp.
  2: { left. exists e. split; [reflexivity |].
       apply (parseArgs_throws_other _ _ Hp). }
  destruct (parseArgs_shape _ _ Hp) as (ps & -> & Hs).
  rewrite bind_lift.
  destruct (Cli.getClient env) as [client | e] eqn:Hc.
  2: { left. exists e. split; [reflexivity |].
       apply (getClient_throws_other _ _ Hc). }
  match goal with
  | |- refused s (catch ?m _ s) \/ _ =>
      destruct (one_request_caught (demo_request client)
                  (fun result e =>
                     command = "demo:secret"
                     /\ js_String (prop result "value") = Throws e) m s)
        as [H | (r & Hr & [H | (result & e & (Hcmd & Hq) & _ & H)])]
  end.
  - apply one_request_lift; [intro e; apply Get_throws_other |].
    intros positional Hpos. cbn in Hpos. inversion Hpos; subst positional.
    apply one_request_lift; [intro e; apply Get_throws_other |].
    intros taskId Hid.
    apply one_request_require. intro Ht.
    destruct (first_positional_text _ _ Hs Hid Ht) as (text & ->).
    match goal with
    | |- one_request ?P ?Q _ =>
        assert (Hdemo : forall (k : DemoClient.t -> Async unit Cli.Ending),
                   one_request P Q
                     (k (DemoClient.constructor (ERC3.baseUrl client)
                           (JStr text))) ->
                   one_request P Q
                     (bind (call client (ERC3.getDemoClient (JStr text))) k))
    end.
    { intros k Hk s0. destruct s0 as [self net log].
      exact (Hk (Build_Env self net log)). }
    apply Hdemo.
    destruct (String.eqb_spec command "demo:secret") as [Hcmd | _].
    + apply (one_request_call _ _ _ _
               (DemoClient.invoke DemoClient.GetSecret)
               (post (endpoint_url Demo
                        (DemoClient.constructor (ERC3.baseUrl client)
                           (JStr text))
                        (demo_path DemoClient.GetSecret))
                  (demo_body DemoClient.GetSecret))).
      * intros s0 Hs0.
        apply (demo_call_settles _ DemoClient.GetSecret _ eq_refl Hs0).
      * exists text, DemoClient.GetSecret. reflexivity.
      * intros v s0 Hv. rewrite bind_lift. cbn [Get].
        destruct (truthy (field "json" ps)); [left; reflexivity |].
        cbn [bind Monad_Async lift]. rewrite (Get_prop _ _ Hv).
        destruct (js_String (prop v "value")) as [shown | e] eqn:Hshow.
        -- left. reflexivity.
        -- right. exists e. split; [split; [exact Hcmd | reflexivity] |].
           split; [ | reflexivity].
           rewrite (js_String_throws _ _ Hshow). reflexivity.
    + apply one_request_if; [ | apply one_request_raise].
      apply one_request_lift; [intro e; apply Get_throws_other |].
      intros v Hanswer. cbn [Get] in Hanswer. inversion Hanswer; subst v.
      apply one_request_require. intro Ha.
      assert (Htext : exists text', field "answer" ps = JStr text').
      { destruct (Hs "answer") as [Hshape | (Habs & _)];
          [ | discriminate Habs].
        destruct (field "answer" ps); cbn in Hshape; try contradiction;
          [discriminate | eexists; reflexivity]. }
      destruct Htext as (text' & Htext). rewrite Htext.
      apply (one_request_call _ _ _ _
               (DemoClient.invoke (DemoClient.SubmitAnswer _))
               (post (endpoint_url Demo
                        (DemoClient.constructor (ERC3.baseUrl client)
                           (JStr text))
                        (demo_path (DemoClient.SubmitAnswer (JStr text'))))
                  (demo_body (DemoClient.SubmitAnswer (JStr text'))))).
      * intros s0 Hs0.
        apply (demo_call_settles _ (DemoClient.SubmitAnswer (JStr text')) _
                 eq_refl Hs0).
      * exists text, (DemoClient.SubmitAnswer (JStr text')). reflexivity.
      * intros v0 s0 _. left. reflexivity.
  - left. exact H.
  - right. exists client. split; [reflexivity |]. exists r.
    split; [exact Hr |]. left. exact H.
  - right. exists client. split; [reflexivity |]. exists r.
    split; [exact Hr |]. right. exists result, e.
    split; [exact Hcmd |]. split; [exact Hq | exact H].
Qed.

(** X16, witness: [demo:secret t1] answered with a secret that has no
    string has sent its request and throws the [TypeError] of printing
    it. *)
Lemma demo_command_outcomes_witness :
  exists r : FetchRequest,
    Cli.handleDemoCommand CliSample.env "demo:secret" ["t1"]
      (CliSample.start (JsonBody CliSample.textless_secret))
    = (Throws (TypeError "Cannot convert object to primitive value"),
       Build_Env tt (Sample.always (JsonBody CliSample.textless_secret)) [r]).
Proof.
  destruct (demo_command_outcomes CliSample.env "demo:secret" ["t1"]
              (CliSample.start (JsonBody CliSample.textless_secret)))
    as [(e & H & _)
       | (client & _ & r & _ & [H | (result & e & _ & _ & _ & H)])].
  - discriminate H.
  - discriminate H.
  - exists r. rewrite H. apply f_equal2; [ | reflexivity].
    inversion H. reflexivity.
Defined.

(** ** The executables *)

(** X17.  The two versions of [bin/erc3.js].  The first runs each
    [store:] and each [demo:] command as [erc3-store] and [erc3-demo] run
    the command without its prefix, and each core command as the second
    version does: the same requests are sent and the process ends the same
    way.  The second version lists none of the seven [store:] and two
    [demo:] commands: on each of them the process exits with code 1
    without sending anything, whatever the arguments and the
    environment. *)
Theorem erc3_versions_and_group_commands :
  forall (rt : Cli.Runtime) (env : Cli.ProcessEnv) (args : list string)
         (s : Env unit),
    (forall command : string,
        In command Cli.store_COMMANDS ->
        Cli.erc3_main rt env (("store:" ++ command) :: args) s
        = Cli.erc3_store_main rt env (command :: args) s)
    /\ (forall command : string,
           In command Cli.demo_COMMANDS ->
           Cli.erc3_main rt env (("demo:" ++ command) :: args) s
           = Cli.erc3_demo_main env (command :: args) s)
    /\ (forall command : string,
           In command Cli.core_COMMANDS ->
           Cli.erc3_main rt env (command :: args) s
           = Cli.erc3_core_main rt env (command :: args) s)
    /\ (forall command : string,
           In command (Cli.store_group ++ Cli.demo_group)%list ->
           Cli.listed Cli.core_COMMANDS command = false
           /\ Cli.erc3_core_main rt env (command :: args) s
              = (Normal (Cli.Exited 1), s)).
Proof.
  intros rt env args s.
  repeat match goal with |- _ /\ _ => split end;
    intros command Hin; cbn in Hin;
    repeat (destruct Hin as [<- | Hin]; [try split; reflexivity |]);
    contradiction.
Qed.

(** X17, witness: [erc3 store:products t1] of the first version runs as
    [erc3-store products t1], and in the second version exits with code
    1. *)
Lemma erc3_versions_and_group_commands_witness :
  Cli.erc3_main CliSample.runtime CliSample.env ["store:products"; "t1"]
    (CliSample.start (JsonBody (JObj [])))
  = Cli.erc3_store_main CliSample.runtime CliSample.env ["products"; "t1"]
      (CliSample.start (JsonBody (JObj [])))
  /\ Cli.erc3_core_main CliSample.runtime CliSample.env
       ["store:products"; "t1"] (CliSample.start (JsonBody (JObj [])))
     = (Normal (Cli.Exited 1), CliSample.start (JsonBody (JObj []))).
Proof.
  destruct (erc3_versions_and_group_commands CliSample.runtime CliSample.env
              ["t1"] (CliSample.start (JsonBody (JObj []))))
    as (Hstore & _ & _ & Hcore).
  split.
  - exact (Hstore "products" (or_introl eq_refl)).
  - exact (proj2 (Hcore "store:products" (or_introl eq_refl))).
Defined.

Section ReturnsOnly.

Context {S : Type}.

Lemma returns_only_bind :
  forall (A : Type) (m : Async S A) (k : A -> Async S Cli.Ending),
    (forall a : A, returns_only (k a)) -> returns_only (bind m k).
Proof.
  intros A m k Hk s s' ending H.
  destruct (bind_Normal_inv _ _ _ m k s s' ending H) as (a & s1 & _ & Hka).
  apply (Hk a s1 s' ending Hka).
Qed.

Lemma returns_only_ret : returns_only (S := S) (ret Cli.Returned).
Proof. intros s s' ending H. inversion H. reflexivity. Qed.

Lemma returns_only_raise :
  forall e : JsError, returns_only (S := S) (raise e).
Proof. intros e s s' ending H. inversion H. Qed.

Lemma returns_only_if :
  forall (b : bool) (m1 m2 : Async S Cli.Ending),
    returns_only m1 -> returns_only m2 ->
    returns_only (if b then m1 else m2).
Proof. intros b m1 m2 H1 H2. destruct b; assumption. Qed.

(** A handler exits with code 1 or not at all. *)
Lemma caught_exit_code :
  forall (A B : Type) (a : Completion A) (b : Completion B)
         (m : A -> B -> Async S Cli.Ending) (s s' : Env S) (code : Z),
    (forall x y, returns_only (m x y)) ->
    (x <- lift a ;; y <- lift b ;; catch (m x y) Cli.on_error) s
    = (Normal (Cli.Exited code), s') ->
    code = 1%Z.
Proof.
  intros A B a b m s s' code Hm H.
  rewrite bind_lift in H. destruct a as [x | e]; [ | discriminate].
  rewrite bind_lift in H. destruct b as [y | e]; [ | discriminate].
  cbn [catch Exc_Async] in H.
  destruct (m x y s) as [[ending | e] s1] eqn:Hr.
  - rewrite (Hm x y s s1 ending Hr) in H. discriminate.
  - unfold Cli.on_error in H.
    destruct (instanceof_ApiException e); inversion H. reflexivity.
Qed.

End ReturnsOnly.

Ltac returns_only_steps :=
  cbv zeta;
  repeat first
    [ apply returns_only_ret
    | apply returns_only_raise
    | apply returns_only_if
    | apply returns_only_bind; intro ].

Lemma core_exit_code :
  forall (rt : Cli.Runtime) (env : Cli.ProcessEnv) (command : string)
         (args : list string) (s s' : Env unit) (code : Z),
    Cli.handleCoreCommand rt env command args s
    = (Normal (Cli.Exited code), s') ->
    code = 1%Z.
Proof.
  intros rt env command args s s' code H. unfold Cli.handleCoreCommand in H.
  eapply caught_exit_code; [ | exact H].
  intros x y. returns_only_steps.
Qed.

Lemma store_exit_code :
  forall (rt : Cli.Runtime) (env : Cli.ProcessEnv) (command : string)
         (args : list string) (s s' : Env unit) (code : Z),
    Cli.handleStoreCommand rt env command args s
    = (Normal (Cli.Exited code), s') ->
    code = 1%Z.
Proof.
  intros rt env command args s s' code H. unfold Cli.handleStoreCommand in H.
  eapply caught_exit_code; [ | exact H].
  intros x y. returns_only_steps.
Qed.

Lemma demo_exit_code :
  forall (env : Cli.ProcessEnv) (command : string)
         (args : list string) (s s' : Env unit) (code : Z),
    Cli.handleDemoCommand env command args s
    = (Normal (Cli.Exited code), s') ->
    code = 1%Z.
Proof.
  intros env command args s s' code H. unfold Cli.handleDemoCommand in H.
  eapply caught_exit_code; [ | exact H].
  intros x y. returns_only_steps.
Qed.

Lemma erc3_handler_exit_code :
  forall (rt : Cli.Runtime) (env : Cli.ProcessEnv) (command : string)
         (args : list string) (s s' : Env unit) (code : Z),
    Cli.erc3_handler rt env command args s
    = (Normal (Cli.Exited code), s') ->
    code = 1%Z.
Proof.
  intros rt env command args s s' code H. unfold Cli.erc3_handler in H.
  destruct (existsb (String.eqb command) Cli.core_COMMANDS);
    [apply (core_exit_code _ _ _ _ _ _ _ H) |].
  destruct (existsb (String.eqb command) Cli.store_group);
    [apply (store_exit_code _ _ _ _ _ _ _ H) |].
  destruct (existsb (String.eqb command) Cli.demo_group);
    [apply (demo_exit_code _ _ _ _ _ _ H) |].
  discriminate H.
Qed.

Lemma run_main_exit_codes :
  forall (keys : list string)
         (handler : string -> list string -> Async unit Cli.Ending)
         (args : list string) (s : Env unit),
    (forall command rest s0 s1 code,
        handler command rest s0 = (Normal (Cli.Exited code), s1) ->
        code = 1%Z) ->
    exists (ending : Cli.Ending) (s' : Env unit),
      Cli.run_main keys handler args s = (Normal ending, s')
      /\ (Cli.exit_status ending = 0%Z \/ Cli.exit_status ending = 1%Z)
      /\ (asks_help args = true -> ending = Cli.Exited 0 /\ s' = s)
      /\ (forall (command : string) (rest : list string),
             args = command :: rest ->
             asks_help args = false ->
             Cli.listed keys command = false ->
             ending = Cli.Exited 1 /\ s' = s)
      /\ (ending <> Cli.Exited 1 ->
          asks_help args = false ->
          exists (command : string) (rest : list string),
            args = command :: rest
            /\ Cli.listed keys command = true
            /\ handler command rest s = (Normal Cli.Returned, s')).
Proof.
  intros keys handler args s Hh. unfold Cli.run_main, asks_help.
  destruct args as [ | command rest].
  - exists (Cli.Exited 0), s.
    repeat match goal with |- _ /\ _ => split end;
      try reflexivity; try discriminate; auto.
  - destruct ((command =? "--help") || (command =? "-h")).
    + exists (Cli.Exited 0), s.
      repeat match goal with |- _ /\ _ => split end;
        try reflexivity; try discriminate; auto.
    + destruct (Cli.listed keys command) eqn:Hl; cbn [negb].
      * cbn [catch Exc_Async].
        destruct (handler command rest s) as [[ending | e] s1] eqn:Hr.
        -- exists ending, s1.
           repeat match goal with |- _ /\ _ => split end.
           ++ reflexivity.
           ++ destruct ending as [ | code]; [left; reflexivity |].
              right. cbn. apply (Hh _ _ _ _ _ Hr).
           ++ discriminate.
           ++ intros c r E _ Hl'. inversion E; subst. congruence.
           ++ intros Hne _. exists command, rest.
              split; [reflexivity |]. split; [exact Hl |].
              destruct ending as [ | code]; [exact Hr |].
              rewrite (Hh _ _ _ _ _ Hr) in Hne. contradiction.
        -- exists (Cli.Exited 1), s1.
           repeat match goal with |- _ /\ _ => split end.
           ++ reflexivity.
           ++ right. reflexivity.
           ++ discriminate.
           ++ intros c r E _ Hl'. inversion E; subst. congruence.
           ++ intros Hne. contradiction.
      * exists (Cli.Exited 1), s.
        repeat match goal with |- _ /\ _ => split end.
        -- reflexivity.
        -- right. reflexivity.
        -- discriminate.
        -- auto.
        -- intros Hne. contradiction.
Qed.

(** X18.  The executables ([erc3] in its two versions, [erc3-store],
    [erc3-demo]) never throw, and every run ends with exit status 0 or 1.
    Asked for the help (no argument, or [--help] or [-h] first) they exit
    with code 0, and on a command their table does not hold they exit with
    code 1, having sent nothing either time.  Any other run that does not
    exit with code 1 is a listed command whose handler returned: the
    process then ends with status 0 without a call of [process.exit]. *)
Theorem executables_exit_codes :
  forall (rt : Cli.Runtime) (env : Cli.ProcessEnv) (keys : list string)
         (handler : string -> list string -> Async unit Cli.Ending)
         (main : list string -> Async unit Cli.Ending),
    In (keys, handler, main)
       [(Cli.erc3_COMMANDS, Cli.erc3_handler rt env, Cli.erc3_main rt env);
        (Cli.core_COMMANDS, Cli.handleCoreCommand rt env,
         Cli.erc3_core_main rt env);
        (Cli.store_COMMANDS,
         fun command => Cli.handleStoreCommand rt env ("store:" ++ command),
         Cli.erc3_store_main rt env);
        (Cli.demo_COMMANDS,
         fun command => Cli.handleDemoCommand env ("demo:" ++ command),
         Cli.erc3_demo_main env)] ->
    forall (args : list string) (s : Env unit),
      exists (ending : Cli.Ending) (s' : Env unit),
        main args s = (Normal ending, s')
        /\ (Cli.exit_status ending = 0%Z \/ Cli.exit_status ending = 1%Z)
        /\ (asks_help args = true -> ending = Cli.Exited 0 /\ s' = s)
        /\ (forall (command : string) (rest : list string),
               args = command :: rest ->
               asks_help args = false ->
               Cli.listed keys command = false ->
               ending = Cli.Exited 1 /\ s' = s)
        /\ (ending <> Cli.Exited 1 ->
            asks_help args = false ->
            exists (command : string) (rest : list string),
              args = command :: rest
              /\ Cli.listed keys command = true
              /\ handler command rest s = (Normal Cli.Returned, s')).
Proof.
  intros rt env keys handler main Hin args s.
  assert (Hmain : main = Cli.run_main keys handler)
    by (destruct Hin as [E | [E | [E | [E | []]]]]; inversion E; reflexivity).
  rewrite Hmain. apply run_main_exit_codes.
  destruct Hin as [E | [E | [E | [E | []]]]]; inversion E; subst;
    intros command rest s0 s1 code.
  - apply erc3_handler_exit_code.
  - apply core_exit_code.
  - apply store_exit_code.
  - apply demo_exit_code.
Qed.

(** X18, witness: [erc3-store --help] exits with code 0, and
    [erc3-demo publish] with code 1. *)
Lemma executables_exit_codes_witness :
  Cli.erc3_store_main CliSample.runtime CliSample.env ["--help"]
    (CliSample.start (JsonBody (JObj [])))
  = (Normal (Cli.Exited 0), CliSample.start (JsonBody (JObj [])))
  /\ Cli.erc3_demo_main CliSample.env ["publish"]
       (CliSample.start (JsonBody (JObj [])))
     = (Normal (Cli.Exited 1), CliSample.start (JsonBody (JObj []))).
Proof.
  split.
  - destruct (executables_exit_codes CliSample.runtime CliSample.env
                Cli.store_COMMANDS
                (fun command =>
                   Cli.handleStoreCommand CliSample.runtime CliSample.env
                     ("store:" ++ command))
                (Cli.erc3_store_main CliSample.runtime CliSample.env)
                (or_intror (or_intror (or_introl eq_refl)))
                ["--help"] (CliSample.start (JsonBody (JObj []))))
      as (ending & s' & Hrun & _ & Hhelp & _).
    destruct (Hhelp eq_refl) as [-> ->]. exact Hrun.
  - destruct (executables_exit_codes CliSample.runtime CliSample.env
                Cli.demo_COMMANDS
                (fun command =>
                   Cli.handleDemoCommand CliSample.env ("demo:" ++ command))
                (Cli.erc3_demo_main CliSample.env)
                (or_intror (or_intror (or_intror (or_introl eq_refl))))
                ["publish"] (CliSample.start (JsonBody (JObj []))))
      as (ending & s' & Hrun & _ & _ & Hunlisted & _).
    destruct (Hunlisted "publish" [] eq_refl eq_refl eq_refl) as [-> ->].
    exact Hrun.
Defined.


(** ** Command lines, end to end *)

Lemma first_positional :
  forall (tokens : list Token) (first : JsVal),
    hd_error (positionals tokens) = Some first ->
    Get (JArr (positionals tokens)) "0" = Normal first.
Proof.
  intros tokens first H. destruct (positionals tokens) as [ | x l];
    inversion H; subst. reflexivity.
Qed.

Lemma truthy_text : forall text : string, text <> "" -> truthy (JStr text) = true.
Proof.
  intros text H. cbn. apply String.eqb_neq in H. rewrite H. reflexivity.
Qed.

Lemma bind_require :
  forall (S B : Type) (v : JsVal) (message : string)
         (k : unit -> Async S B) (s : Env S),
    truthy v = true ->
    bind (Cli.require v message) k s = k tt s.
Proof.
  intros S B v message k s H. unfold Cli.require. rewrite H. reflexivity.
Qed.

Lemma bind_call :
  forall (S T B : Type) (obj : T) (m : Async T JsVal) (r : FetchRequest)
         (k : JsVal -> Async S B) (s : Env S),
    (forall s0 : Env T,
        this s0 = obj -> m s0 = (settle (server s0 (sent s0) r), after s0 r)) ->
    bind (call obj m) k s
    = match settle (server s (sent s) r) with
      | Normal v => k v (after s r)
      | Throws e => (Throws e, after s r)
      end.
Proof.
  intros S T B obj m r k s Hm. cbn [bind Monad_Async]. unfold call.
  rewrite (Hm (Build_Env obj (server s) (sent s)) eq_refl).
  cbn [server sent this after].
  destruct (settle (server s (sent s) r)); reflexivity.
Qed.

Lemma store_call_settles :
  forall (store : StoreClient.t) (c : StoreClient.Call)
         (s : Env StoreClient.t),
    StoreClient.accepts c = true ->
    this s = store ->
    StoreClient.invoke c s
    = (settle (server s (sent s)
                 (post (endpoint_url Store store (StoreClient.path c))
                    (JObj (("tool", JStr (StoreClient.path c))
                             :: StoreClient.parameters c)))),
       after s (post (endpoint_url Store store (StoreClient.path c))
                  (JObj (("tool", JStr (StoreClient.path c))
                           :: StoreClient.parameters c)))).
Proof.
  intros store c s Hc <-. rewrite (store_invoke_run c s Hc), request_closed.
  reflexivity.
Qed.

Lemma bind_getStoreClient :
  forall (B : Type) (client : ERC3.t) (text : string)
         (k : StoreClient.t -> Async unit B) (s : Env unit),
    bind (call client (ERC3.getStoreClient (JStr text))) k s
    = k (StoreClient.constructor (ERC3.baseUrl client) (JStr text)) s.
Proof. intros B client text k s. destruct s. reflexivity. Qed.

(** X19.  The [task:log] command, end to end: given a task, a model, the
    two token counts and a duration, it sends one request to [/tasks/log]
    whose usage holds the two counts as [parseInt] reads them and, as
    [total_tokens], their sum, which the command computes itself
    ([logLLM] would send 0 for a missing total); a count or a sum that is
    falsy goes out as 0.  The command returns when the request succeeded
    and the process exits with code 1 when it threw. *)
Theorem task_log_command_sends_the_sum :
  forall (rt : Cli.Runtime) (env : Cli.ProcessEnv) (client : ERC3.t)
         (tokens : list Token) (s : Env unit)
         (task model prompt completion duration : string),
    Forall well_formed tokens ->
    Cli.getClient env = Normal client ->
    hd_error (positionals tokens) = Some (JStr task) ->
    last_value "model" tokens = Some model ->
    last_value "prompt-tokens" tokens = Some prompt ->
    last_value "completion-tokens" tokens = Some completion ->
    last_value "duration" tokens = Some duration ->
    task <> "" /\ model <> "" /\ prompt <> "" /\ completion <> ""
    /\ duration <> "" ->
    ended_on s
      (post (endpoint_url Core client "/tasks/log")
         (JObj [("task_id", JStr task);
                ("model", JStr model);
                ("usage",
                 JObj [("prompt_tokens",
                        js_or (Cli.parseInt rt (JStr prompt)) (JNum 0));
                       ("completion_tokens",
                        js_or (Cli.parseInt rt (JStr completion)) (JNum 0));
                       ("total_tokens",
                        js_or (Cli.add rt (Cli.parseInt rt (JStr prompt))
                                 (Cli.parseInt rt (JStr completion)))
                          (JNum 0))]);
                ("duration_sec", Cli.parseFloat rt (JStr duration))]))
      (Cli.handleCoreCommand rt env "task:log" (render tokens) s).
Proof.
  intros rt env client tokens s task model prompt completion duration
    Hwf Hc Htask Hm Hp Hco Hd (Ht & Hm' & Hp' & Hco' & Hd').
  destruct (parsed_tokens tokens Hwf) as (parsed & Hloop & Hpos & Hk).
  pose proof (parseArgs_of_loop _ _ Hloop) as Hparse.
  assert (Fm := Hk "model" ltac:(discriminate)).
  assert (Fp := Hk "prompt-tokens" ltac:(discriminate)).
  assert (Fc := Hk "completion-tokens" ltac:(discriminate)).
  assert (Fd := Hk "duration" ltac:(discriminate)).
  rewrite Hm in Fm. rewrite Hp in Fp. rewrite Hco in Fc. rewrite Hd in Fd.
  unfold Cli.handleCoreCommand, ended_on.
  rewrite bind_lift, Hparse, bind_lift, Hc.
  cbn [catch Exc_Async String.eqb Ascii.eqb Bool.eqb].
  rewrite bind_lift. cbn [Get]. rewrite Hpos.
  rewrite bind_lift, (first_positional _ _ Htask).
  rewrite !bind_lift. cbn [Get]. rewrite Fm, Fp, Fc, Fd.
  rewrite !bind_require by (apply truthy_text; assumption).
  match goal with
  | |- _ = (_, after s ?R) =>
      match goal with
      | |- context [call client (ERC3.logLLM ?o)] =>
          rewrite (bind_call _ _ _ client (ERC3.invoke (ERC3.LogLLM o)) R);
            [ | intros s0 Hs0;
                rewrite (core_call_settles client (ERC3.LogLLM o) s0
                           eq_refl Hs0);
                reflexivity ]
      end
  end.
  match goal with
  | |- context [settle ?res] => destruct (settle res) as [v | e] eqn:Hv
  end.
  - reflexivity.
  - unfold Cli.on_error. rewrite (settle_throws_api _ _ Hv). reflexivity.
Qed.

(** X19, witness: 100 and 50 tokens are logged with the total 150. *)
Lemma task_log_command_sends_the_sum_witness :
  Cli.handleCoreCommand CliSample.runtime CliSample.env "task:log"
    ["t1"; "--model"; "gpt-4"; "--prompt-tokens"; "100";
     "--completion-tokens"; "50"; "--duration"; "2"]
    (CliSample.start (JsonBody (JObj [])))
  = (Normal Cli.Returned,
     Build_Env tt (Sample.always (JsonBody (JObj [])))
       [post "https://erc.example/tasks/log"
          (JObj [("task_id", JStr "t1");
                 ("model", JStr "gpt-4");
                 ("usage", JObj [("prompt_tokens", JNum 100);
                                 ("completion_tokens", JNum 50);
                                 ("total_tokens", JNum 150)]);
                 ("duration_sec", JNum 2)])]).
Proof.
  assert (Hwf : Forall well_formed CliSample.task_log).
  { repeat constructor; discriminate. }
  assert (Hne : "t1" <> "" /\ "gpt-4" <> "" /\ "100" <> "" /\ "50" <> ""
                /\ "2" <> "").
  { repeat split; discriminate. }
  exact (task_log_command_sends_the_sum CliSample.runtime CliSample.env
           Sample.core CliSample.task_log
           (CliSample.start (JsonBody (JObj [])))
           "t1" "gpt-4" "100" "50" "2"
           Hwf eq_refl eq_refl eq_refl eq_refl eq_refl eq_refl Hne).
Defined.


Lemma trailing_flag_fields :
  forall (tokens : list Token) (key : string),
    Forall well_formed tokens ->
    key <> "_" -> key <> "__proto__" ->
    last_value key tokens = None ->
    exists with_flag without : list (string * JsVal),
      Cli.parseArgs (render tokens ++ [("--" ++ key)%string])%list
      = Normal (JObj with_flag)
      /\ Cli.parseArgs (render tokens) = Normal (JObj without)
      /\ forall k : string, field k with_flag = field k without.
Proof.
  intros tokens key Hwf Hu Hproto Hlast.
  destruct (parsed_tokens tokens Hwf) as (without & Hloop & Hpos & Hk).
  pose proof (parseArgs_of_loop _ _ Hloop) as Hparse.
  destruct (parse_render tokens [("--" ++ key)%string] [("_", JArr [])] []
              Hwf eq_refl) as (parsed & Hrun & Hp & Hl).
  exists (Cli.assign key JUndefined parsed), without.
  split; [ | split; [exact Hparse |]].
  - unfold Cli.parseArgs. rewrite Hrun. cbn [Cli.parse_from].
    rewrite startsWith_flag, slice2_flag. reflexivity.
  - intro k. unfold Cli.assign.
    destruct (String.eqb_spec key "__proto__") as [E | _]; [contradiction |].
    rewrite field_set_prop.
    destruct (String.eqb_spec "_" k) as [<- | Hne].
    + destruct (String.eqb_spec key "_") as [E | _]; [contradiction |].
      rewrite Hp, Hpos. reflexivity.
    + assert (Hne' : k <> "_") by congruence.
      rewrite (Hk k Hne'). unfold field. rewrite (Hl k Hne'). cbn [lookup].
      destruct (String.eqb_spec "_" k) as [E | _]; [contradiction |].
      destruct (String.eqb_spec key k) as [<- | _].
      * rewrite Hlast. reflexivity.
      * destruct (last_value k tokens); reflexivity.
Qed.

(** X20.  A flag with nothing after it changes nothing: when the command
    line does not give the flag a value elsewhere, each of the three
    handlers runs exactly as it does without the flag.  So [--json] as the
    last argument does not select the JSON output. *)
Theorem bare_trailing_flag_is_ignored :
  forall (rt : Cli.Runtime) (env : Cli.ProcessEnv) (command : string)
         (tokens : list Token) (key : string) (s : Env unit),
    Forall well_formed tokens ->
    key <> "_" -> key <> "__proto__" ->
    last_value key tokens = None ->
    Cli.handleCoreCommand rt env command
      (render tokens ++ [("--" ++ key)%string])%list s
    = Cli.handleCoreCommand rt env command (render tokens) s
    /\ Cli.handleStoreCommand rt env command
         (render tokens ++ [("--" ++ key)%string])%list s
       = Cli.handleStoreCommand rt env command (render tokens) s
    /\ Cli.handleDemoCommand env command
         (render tokens ++ [("--" ++ key)%string])%list s
       = Cli.handleDemoCommand env command (render tokens) s.
Proof.
  intros rt env command tokens key s Hwf Hu Hproto Hlast.
  destruct (trailing_flag_fields tokens key Hwf Hu Hproto Hlast)
    as (with_flag & without & H1 & H2 & Hf).
  repeat match goal with |- _ /\ _ => split end.
  - unfold Cli.handleCoreCommand.
    rewrite (bind_lift _ _ _ (Cli.parseArgs (render tokens ++ _))), H1.
    rewrite (bind_lift _ _ _ (Cli.parseArgs (render tokens))), H2.
    cbn [Get]. rewrite !Hf. reflexivity.
  - unfold Cli.handleStoreCommand.
    rewrite (bind_lift _ _ _ (Cli.parseArgs (render tokens ++ _))), H1.
    rewrite (bind_lift _ _ _ (Cli.parseArgs (render tokens))), H2.
    cbn [Get]. rewrite !Hf. reflexivity.
  - unfold Cli.handleDemoCommand.
    rewrite (bind_lift _ _ _ (Cli.parseArgs (render tokens ++ _))), H1.
    rewrite (bind_lift _ _ _ (Cli.parseArgs (render tokens))), H2.
    cbn [Get]. rewrite !Hf. reflexivity.
Qed.

(** X20, witness: [store:basket t1 --json] is [store:basket t1]. *)
Lemma bare_trailing_flag_is_ignored_witness :
  Cli.handleStoreCommand CliSample.runtime CliSample.env "store:basket"
    ["t1"; "--json"] (CliSample.start (JsonBody (JObj [])))
  = Cli.handleStoreCommand CliSample.runtime CliSample.env "store:basket"
      ["t1"] (CliSample.start (JsonBody (JObj []))).
Proof.
  assert (Hwf : Forall well_formed [Positional "t1"]).
  { repeat constructor. }
  refine (proj1 (proj2 (bare_trailing_flag_is_ignored CliSample.runtime
                          CliSample.env "store:basket" [Positional "t1"]
                          "json" (CliSample.start (JsonBody (JObj [])))
                          Hwf _ _ eq_refl))); discriminate.
Defined.


(** ** The store commands *)

Lemma store_prefix :
  forall (tokens : list Token) (task : string),
    Forall well_formed tokens ->
    hd_error (positionals tokens) = Some (JStr task) ->
    exists parsed : list (string * JsVal),
      Cli.parseArgs (render tokens) = Normal (JObj parsed)
      /\ Get (field "_" parsed) "0" = Normal (JStr task)
      /\ forall k : string,
          k <> "_" ->
          field k parsed
          = match last_value k tokens with
            | Some v => JStr v
            | None => JUndefined
            end.
Proof.
  intros tokens task Hwf Htask.
  destruct (parsed_tokens tokens Hwf) as (parsed & Hloop & Hpos & Hk).
  pose proof (parseArgs_of_loop _ _ Hloop) as Hparse.
  exists parsed. split; [exact Hparse |]. split; [ | exact Hk].
  rewrite Hpos. apply (first_positional _ _ Htask).
Qed.

Lemma no_api_bind :
  forall (A B : Type) (c : Completion A) (k : A -> Completion B),
    throws_no_api c ->
    (forall a : A, throws_no_api (k a)) ->
    throws_no_api (bind c k).
Proof.
  intros A B c k Hc Hk e H. destruct c as [a | e'].
  - apply (Hk a e H).
  - inversion H; subst. apply Hc. reflexivity.
Qed.

Lemma no_api_Normal : forall (A : Type) (a : A), throws_no_api (Normal a).
Proof. intros A a e H. discriminate. Qed.

Lemma no_api_Get :
  forall (o : JsVal) (k : string), throws_no_api (Get o k).
Proof. intros o k e. apply Get_throws_other. Qed.

Lemma no_api_toFixed :
  forall (v : JsVal) (what : string), throws_no_api (Cli.toFixed v what).
Proof.
  intros v what e H. destruct v; cbn in H; inversion H; reflexivity.
Qed.

Lemma no_api_for_each :
  forall (f : JsVal -> Completion unit) (l : list JsVal),
    (forall x : JsVal, throws_no_api (f x)) ->
    throws_no_api (StoreExample.for_each f l).
Proof.
  intros f l Hf. induction l as [ | x l IH]; [apply no_api_Normal |].
  cbn [StoreExample.for_each]. apply no_api_bind; [apply Hf | intros _; exact IH].
Qed.

Lemma no_api_forEach :
  forall (v : JsVal) (what : string) (f : JsVal -> Completion unit),
    (forall x : JsVal, throws_no_api (f x)) ->
    throws_no_api (Cli.forEach v what f).
Proof.
  intros v what f Hf. destruct v; cbn [Cli.forEach];
    try (intros e H; cbn in H; inversion H; reflexivity).
  apply no_api_for_each, Hf.
Qed.

Lemma no_api_js_String : forall v : JsVal, throws_no_api (js_String v).
Proof.
  intros v e H. rewrite (js_String_throws _ _ H). reflexivity.
Qed.

Lemma no_api_js_gt :
  forall (v : JsVal) (k : Z), throws_no_api (js_gt v k).
Proof.
  intros v k e H. unfold js_gt in H.
  destruct (ToNumber v) eqn:E; [discriminate |].
  inversion H; subst. rewrite (ToNumber_throws _ _ E). reflexivity.
Qed.

Ltac no_api_steps :=
  repeat first
    [ apply no_api_Normal
    | apply no_api_Get
    | apply no_api_toFixed
    | apply no_api_js_String
    | apply no_api_js_gt
    | apply no_api_forEach; intro
    | apply no_api_bind; [ | intro]
    | match goal with
      | |- throws_no_api (if ?b then _ else _) => destruct b
      end ].

Lemma no_api_show_basket :
  forall (basket : JsVal) (what : string),
    throws_no_api (Cli.show_basket basket what).
Proof.
  intros basket what.
  unfold Cli.show_basket, Cli.show_count, Cli.show_each, Cli.show_item.
  no_api_steps.
Qed.

(** X21.  The [store:basket] command prints amounts with [toFixed],
    which only a number has.  When the server answers a basket whose
    [subtotal] is a non-empty text, the command, run without [--json],
    throws a [TypeError] after its request was sent, and [erc3-store] exits
    with code 1: the error is that of the [toFixed] that is no function
    or, when the basket's [items] have a [length] with no string, that of
    printing their number, which comes first.  Run with a [--json] that has
    a non-empty value the command prints the answer as it is and
    returns. *)
Theorem store_basket_needs_numeric_amounts :
  forall (rt : Cli.Runtime) (env : Cli.ProcessEnv) (client : ERC3.t)
         (tokens : list Token) (s : Env unit) (task amount : string)
         (body : list (string * JsVal)),
    Forall well_formed tokens ->
    Cli.getClient env = Normal client ->
    hd_error (positionals tokens) = Some (JStr task) ->
    task <> "" ->
    settle (server s (sent s)
              (post (endpoint_url Store
                       (StoreClient.constructor (ERC3.baseUrl client)
                          (JStr task))
                       "/basket/view")
                 (JObj [("tool", JStr "/basket/view")])))
    = Normal (JObj body) ->
    field "subtotal" body = JStr amount ->
    amount <> "" ->
    let r := post (endpoint_url Store
                     (StoreClient.constructor (ERC3.baseUrl client)
                        (JStr task))
                     "/basket/view")
               (JObj [("tool", JStr "/basket/view")]) in
    let error :=
      match Cli.show_count (field "items" body) with
      | Normal _ =>
          TypeError "(basket.subtotal || 0).toFixed is not a function"
      | Throws e => e
      end in
    (last_value "json" tokens = None ->
     Cli.handleStoreCommand rt env "store:basket" (render tokens) s
     = (Throws error, after s r)
     /\ instanceof_ApiException error = false
     /\ Cli.erc3_store_main rt env ("basket" :: render tokens) s
        = (Normal (Cli.Exited 1), after s r))
    /\ (forall json : string,
           last_value "json" tokens = Some json ->
           json <> "" ->
           Cli.handleStoreCommand rt env "store:basket" (render tokens) s
           = (Normal Cli.Returned, after s r)).
Proof.
  intros rt env client tokens s task amount body Hwf Hc Htask Ht Hbody
    Hsub Hamount r error.
  destruct (store_prefix tokens task Hwf Htask)
    as (parsed & Hparse & Hfirst & Hk).
  assert (Fj := Hk "json" ltac:(discriminate)).
  assert (Herror : instanceof_ApiException error = false).
  { assert (Hcount : throws_no_api (Cli.show_count (field "items" body)))
      by (unfold Cli.show_count; no_api_steps).
    subst error.
    destruct (Cli.show_count (field "items" body)) as [ | e];
      [reflexivity | apply Hcount; reflexivity]. }
  assert (Hrun : forall json : JsVal,
             field "json" parsed = json ->
             Cli.handleStoreCommand rt env "store:basket" (render tokens) s
             = if truthy json then (Normal Cli.Returned, after s r)
               else (Throws error, after s r)).
  { intros json Hjson. unfold Cli.handleStoreCommand.
    rewrite bind_lift, Hparse, bind_lift, Hc.
    cbn [catch Exc_Async].
    rewrite bind_lift. cbn [Get]. rewrite bind_lift, Hfirst.
    rewrite bind_require by (apply truthy_text; exact Ht).
    rewrite bind_getStoreClient.
    cbn [String.eqb Ascii.eqb Bool.eqb].
    rewrite (bind_call _ _ _ _ (StoreClient.invoke StoreClient.ViewBasket) r)
      by (intros s0 Hs0;
          apply (store_call_settles _ StoreClient.ViewBasket s0 eq_refl Hs0)).
    fold r in Hbody. rewrite Hbody.
    rewrite bind_lift. cbn [Get]. rewrite Hjson.
    destruct (truthy json); [reflexivity |].
    cbn [bind Monad_Async lift].
    unfold Cli.formatBasket, Cli.show_basket.
    cbn [Get bind Monad_Completion].
    subst error.
    destruct (Cli.show_count (field "items" body)) as [[] | e].
    - rewrite Hsub. unfold js_or. rewrite (truthy_text _ Hamount).
      reflexivity.
    - unfold Cli.on_error. rewrite Herror. reflexivity. }
  split.
  - intro Hjson. rewrite Hjson in Fj.
    assert (Hh := Hrun JUndefined Fj). cbn [truthy] in Hh.
    split; [exact Hh |]. split; [exact Herror |].
    unfold Cli.erc3_store_main, Cli.run_main.
    cbn [String.eqb Ascii.eqb Bool.eqb orb negb Cli.listed existsb
         Cli.store_COMMANDS].
    cbn [catch Exc_Async].
    change ("store:" ++ "basket")%string with "store:basket".
    rewrite Hh. reflexivity.
  - intros json Hjson Hne. rewrite Hjson in Fj.
    rewrite (Hrun (JStr json) Fj), (truthy_text _ Hne). reflexivity.
Qed.

(** X21, witness: a basket whose amounts are the texts ['12.50']. *)
Lemma store_basket_needs_numeric_amounts_witness :
  Cli.handleStoreCommand CliSample.runtime CliSample.env "store:basket"
    ["t1"] (CliSample.start (JsonBody (JObj CliSample.text_basket)))
  = (Throws (TypeError "(basket.subtotal || 0).toFixed is not a function"),
     Build_Env tt (Sample.always (JsonBody (JObj CliSample.text_basket)))
       [post "https://erc.example/store/t1/basket/view"
          (JObj [("tool", JStr "/basket/view")])])
  /\ Cli.handleStoreCommand CliSample.runtime CliSample.env "store:basket"
       ["t1"; "--json"; "1"]
       (CliSample.start (JsonBody (JObj CliSample.text_basket)))
     = (Normal Cli.Returned,
        Build_Env tt (Sample.always (JsonBody (JObj CliSample.text_basket)))
          [post "https://erc.example/store/t1/basket/view"
             (JObj [("tool", JStr "/basket/view")])]).
Proof.
  assert (Hne : "t1" <> "") by discriminate.
  assert (Hamount : "12.50" <> "") by discriminate.
  split.
  - assert (Hwf : Forall well_formed [Positional "t1"]).
    { repeat constructor. }
    exact (proj1 (proj1 (store_basket_needs_numeric_amounts CliSample.runtime
                           CliSample.env Sample.core [Positional "t1"]
                           (CliSample.start
                              (JsonBody (JObj CliSample.text_basket)))
                           "t1" "12.50" CliSample.text_basket
                           Hwf eq_refl eq_refl Hne eq_refl eq_refl Hamount)
                    eq_refl)).
  - assert (Hwf : Forall well_formed [Positional "t1"; Flag "json" "1"]).
    { repeat constructor; discriminate. }
    refine (proj2 (store_basket_needs_numeric_amounts CliSample.runtime
                     CliSample.env Sample.core
                     [Positional "t1"; Flag "json" "1"]
                     (CliSample.start (JsonBody (JObj CliSample.text_basket)))
                     "t1" "12.50" CliSample.text_basket
                     Hwf eq_refl eq_refl Hne eq_refl eq_refl Hamount)
              "1" eq_refl _).
    discriminate.
Defined.

(** X22.  The [store:coupon:apply] command, end to end: it first posts the
    coupon to [/coupon/apply]; when that request throws, nothing more is
    sent and the process exits with code 1; when it succeeds, the command
    posts to [/basket/view] next, exits with code 1 when this second
    request throws, and otherwise ends as printing the basket does. *)
Theorem coupon_command_sends_two_requests :
  forall (rt : Cli.Runtime) (env : Cli.ProcessEnv) (client : ERC3.t)
         (tokens : list Token) (s : Env unit) (task coupon : string),
    Forall well_formed tokens ->
    Cli.getClient env = Normal client ->
    hd_error (positionals tokens) = Some (JStr task) ->
    last_value "coupon" tokens = Some coupon ->
    task <> "" /\ coupon <> "" ->
    let store :=
      StoreClient.constructor (ERC3.baseUrl client) (JStr task) in
    let apply :=
      post (endpoint_url Store store "/coupon/apply")
        (JObj [("tool", JStr "/coupon/apply"); ("coupon", JStr coupon)]) in
    let view :=
      post (endpoint_url Store store "/basket/view")
        (JObj [("tool", JStr "/basket/view")]) in
    let out :=
      Cli.handleStoreCommand rt env "store:coupon:apply" (render tokens) s in
    (forall e : JsError,
        settle (server s (sent s) apply) = Throws e ->
        out = (Normal (Cli.Exited 1), after s apply))
    /\ (forall v : JsVal,
           settle (server s (sent s) apply) = Normal v ->
           snd out = after (after s apply) view
           /\ (forall e : JsError,
                  settle (server s (sent s ++ [apply])%list view) = Throws e ->
                  fst out = Normal (Cli.Exited 1))
           /\ (forall basket : JsVal,
                  settle (server s (sent s ++ [apply])%list view)
                  = Normal basket ->
                  fst out
                  = match Cli.formatBasket basket with
                    | Normal _ => Normal Cli.Returned
                    | Throws e => Throws e
                    end)).
Proof.
  intros rt env client tokens s task coupon Hwf Hc Htask Hcoupon (Ht & Hne)
    store apply view out.
  destruct (store_prefix tokens task Hwf Htask)
    as (parsed & Hparse & Hfirst & Hk).
  assert (Fc := Hk "coupon" ltac:(discriminate)). rewrite Hcoupon in Fc.
  assert (Hout : out
                 = match settle (server s (sent s) apply) with
                   | Normal _ =>
                       match settle (server s (sent s ++ [apply])%list view)
                       with
                       | Normal basket =>
                           (match Cli.formatBasket basket with
                            | Normal _ => Normal Cli.Returned
                            | Throws e => Throws e
                            end, after (after s apply) view)
                       | Throws _ =>
                           (Normal (Cli.Exited 1), after (after s apply) view)
                       end
                   | Throws _ => (Normal (Cli.Exited 1), after s apply)
                   end).
  { unfold out, Cli.handleStoreCommand.
    rewrite bind_lift, Hparse, bind_lift, Hc.
    cbn [catch Exc_Async].
    rewrite bind_lift. cbn [Get]. rewrite bind_lift, Hfirst.
    rewrite bind_require by (apply truthy_text; exact Ht).
    rewrite bind_getStoreClient.
    cbn [String.eqb Ascii.eqb Bool.eqb].
    rewrite bind_lift. cbn [Get]. rewrite Fc.
    rewrite bind_require by (apply truthy_text; exact Hne).
    rewrite (bind_call _ _ _ _
               (StoreClient.invoke (StoreClient.ApplyCoupon (JStr coupon)))
               apply)
      by (intros s0 Hs0;
          apply (store_call_settles _ (StoreClient.ApplyCoupon _) s0
                   eq_refl Hs0)).
    destruct (settle (server s (sent s) apply)) as [v | e] eqn:Hv.
    - rewrite bind_lift. unfold js_String. cbn [printable].
      rewrite (bind_call _ _ _ _ (StoreClient.invoke StoreClient.ViewBasket)
                 view)
        by (intros s0 Hs0;
            apply (store_call_settles _ StoreClient.ViewBasket s0
                     eq_refl Hs0)).
      cbn [after server sent this].
      destruct (settle (server s (sent s ++ [apply])%list view))
        as [basket | e] eqn:Hb.
      + cbn [bind Monad_Async lift].
        destruct (Cli.formatBasket basket) as [[] | e] eqn:Hf.
        * reflexivity.
        * unfold Cli.on_error.
          assert (He : instanceof_ApiException e = false).
          { apply (no_api_show_basket basket "basket" e Hf). }
          rewrite He. reflexivity.
      + unfold Cli.on_error. rewrite (settle_throws_api _ _ Hb). reflexivity.
    - unfold Cli.on_error. rewrite (settle_throws_api _ _ Hv). reflexivity. }
  split.
  - intros e He. rewrite Hout, He. reflexivity.
  - intros v Hv. rewrite Hout, Hv.
    repeat match goal with |- _ /\ _ => split end.
    + destruct (settle (server s (sent s ++ [apply])%list view));
        reflexivity.
    + intros e He. rewrite He. reflexivity.
    + intros basket Hb. rewrite Hb. reflexivity.
Qed.

(** X22, witness: [store:coupon:apply t1 --coupon SAVE10] on a server
    that answers [{}] sends the two requests and returns. *)
Lemma coupon_command_sends_two_requests_witness :
  Cli.handleStoreCommand CliSample.runtime CliSample.env "store:coupon:apply"
    ["t1"; "--coupon"; "SAVE10"] (CliSample.start (JsonBody (JObj [])))
  = (Normal Cli.Returned,
     Build_Env tt (Sample.always (JsonBody (JObj [])))
       [post "https://erc.example/store/t1/coupon/apply"
          (JObj [("tool", JStr "/coupon/apply"); ("coupon", JStr "SAVE10")]);
        post "https://erc.example/store/t1/basket/view"
          (JObj [("tool", JStr "/basket/view")])]).
Proof.
  assert (Hwf : Forall well_formed [Positional "t1"; Flag "coupon" "SAVE10"]).
  { repeat constructor; discriminate. }
  assert (Hne : "t1" <> "" /\ "SAVE10" <> "").
  { split; discriminate. }
  destruct (proj2 (coupon_command_sends_two_requests CliSample.runtime
                     CliSample.env Sample.core
                     [Positional "t1"; Flag "coupon" "SAVE10"]
                     (CliSample.start (JsonBody (JObj [])))
                     "t1" "SAVE10" Hwf eq_refl eq_refl eq_refl Hne)
              (JObj []) eq_refl) as (Hsnd & _ & Hfst).
  apply injective_projections; [apply (Hfst (JObj []) eq_refl) | exact Hsnd].
Defined.

